(** * The octree send thread: per-client packet scheduling

    A shallow embedding of [OctreeSendThread::handlePacketSend],
    [OctreeSendThread::packetDistributor] and [OctreeSendThread::process]
    (assignment-client/src/octree/OctreeSendThread.cpp), of the session
    object they drive (assignment-client/src/octree/OctreeQueryNode.h) and
    of the encoder's stop reasons (libraries/octree/src/Octree.h).

    The send thread is modelled by explicit state passing: a function of
    the source takes the [OctreeSendThread] it runs in and returns the one
    it leaves, together with its C++ return value and the two counters the
    source passes by reference.  The calls the thread makes to its
    collaborators (the datagram transport, the tree encoder, the coverage
    map, the session snapshots) are recorded in [calls], newest first, the
    way [OctreeServer::didCallWriteDatagram] and its siblings count them.

    Integers: [int] and [unsigned int] quantities of the source (byte
    counts bounded by the packet size, packet counts bounded by the
    interval budget) are integers of [Z]; the three process-wide [quint64]
    totals wrap at 2^64.  Integer division is C++'s, [Z.quot]. *)

From Stdlib Require Import ZArith List Bool Lia.
From Stdlib Require Import Strings.Byte.
Import ListNotations.
Open Scope Z_scope.
Open Scope bool_scope.

Set Implicit Arguments.

(** ** Octree.h *)

(** [EncodeBitstreamParams::reason], Octree.h lines 88-101. *)
Inductive reason : Type :=
| UNKNOWN
| DIDNT_FIT
| NULL_NODE
| TOO_DEEP
| OUT_OF_JURISDICTION
| LOD_SKIP
| OUT_OF_VIEW
| WAS_IN_VIEW
| NO_CHANGE
| OCCLUDED.

Definition reason_eqb (a b : reason) : bool :=
  match a, b with
  | UNKNOWN, UNKNOWN | DIDNT_FIT, DIDNT_FIT | NULL_NODE, NULL_NODE
  | TOO_DEEP, TOO_DEEP | OUT_OF_JURISDICTION, OUT_OF_JURISDICTION
  | LOD_SKIP, LOD_SKIP | OUT_OF_VIEW, OUT_OF_VIEW | WAS_IN_VIEW, WAS_IN_VIEW
  | NO_CHANGE, NO_CHANGE | OCCLUDED, OCCLUDED => true
  | _, _ => false
  end.

(** Octree.h lines 50-62. *)
Definition WANT_EXISTS_BITS : bool := true.
Definition DONT_CHOP : Z := 0.
Definition NO_BOUNDARY_ADJUST : Z := 0.
Definition LOW_RES_MOVING_ADJUST : Z := 1.

(** A reference to a tree element ([OctreeElement*]). *)
Definition OctreeElement : Type := N.

(** Modelled from the spec: [OctreeElementBag] (OctreeElementBag.h is not
    part of the sources), the VisitBag, "a deduplicated, priority-ordered
    set of pending tree-node references".  The list is kept in priority
    order, [extract] dequeues its head, [insert] keeps one copy of a
    reference. *)
Definition OctreeElementBag : Type := list OctreeElement.

Definition bag_isEmpty (bag : OctreeElementBag) : bool :=
  match bag with [] => true | _ :: _ => false end.

Definition bag_insert (e : OctreeElement) (bag : OctreeElementBag) : OctreeElementBag :=
  if existsb (N.eqb e) bag then bag else bag ++ [e].

Definition bag_deleteAll (bag : OctreeElementBag) : OctreeElementBag := [].

Definition wrap64 (x : Z) : Z := x mod 2 ^ 64.

Fixpoint bytes_eqb (a b : list byte) : bool :=
  match a, b with
  | [], [] => true
  | x :: a', y :: b' => Byte.eqb x y && bytes_eqb a' b'
  | _, _ => false
  end.

Definition size (l : list byte) : Z := Z.of_nat (length l).

(** ** The collaborators' data

    The types and constants the two source files take from headers that
    are not part of the sources. *)
Class Carriers : Type := {
  ViewFrustum : Type;
  CoverageMap : Type;
  JurisdictionMap : Type;
  OctreeSceneStats : Type;
  OctreePacketData : Type;
  (** the [float] of [getOctreeSizeScale] *)
  SizeScale : Type;
  MAX_PACKET_SIZE : Z;
  MAX_OCTREE_PACKET_DATA_SIZE : Z;
  INTERVALS_PER_SECOND : Z;
  MINIMUM_ATTEMPT_MORE_PACKING : Z;
  REASONABLE_NUMBER_OF_PACKING_ATTEMPTS : Z;
  COMPRESS_PADDING : Z;
  (** [sizeof(OCTREE_PACKET_INTERNAL_SECTION_SIZE)] *)
  SECTION_SIZE : Z;
  (** the bytes of a packet that precede its payload: the packet header,
      the flags, the sequence number and the sent time *)
  octreePacketHeaderSize : Z
}.

Section Session.
Context {K : Carriers}.

(** ** OctreeQueryNode.h *)

(** What the client asked for; the getters of the base class [OctreeQuery]
    that the send thread reads. *)
Record OctreeQuery : Type := {
  getWantColor : bool;
  getWantCompression : bool;
  getWantDelta : bool;
  getWantLowResMoving : bool;
  getWantOcclusionCulling : bool;
  getMaxOctreePacketsPerSecond : Z;
  getOctreeSizeScale : SizeScale;
  getBoundaryLevelAdjust : Z
}.

(** The packet under construction: [handlePacketSend] reads a sequence
    number behind the header and the flags (lines 144-149); the payload is
    what [writeToPacket] appended since the last reset. *)
Record OctreePacket : Type := {
  packetSequence : Z;
  packetPayload : list byte
}.

(** The private members of [OctreeQueryNode] (lines 112-146) and its two
    public members [nodeBag] and [map], with the [stats] accumulator.  Left
    out are the members neither source function reads nor writes:
    [_octreePacketAt] (the end of [packetPayload]), [_firstSuppressedPacket],
    the search levels, the LOD watch, [_octreeSendThread] and
    [_myPacketType]. *)
Record OctreeQueryNode : Type := {
  query : OctreeQuery;
  _viewSent : bool;
  _octreePacket : OctreePacket;
  _octreePacketAvailableBytes : Z;
  _octreePacketWaiting : bool;
  _lastOctreePacket : list byte;
  _lastOctreePacketLength : Z;
  _duplicatePacketCount : Z;
  _currentViewFrustum : ViewFrustum;
  _lastKnownViewFrustum : ViewFrustum;
  _lastTimeBagEmpty : Z;
  _viewFrustumChanging : bool;
  _viewFrustumJustStoppedChanging : bool;
  _currentPacketIsColor : bool;
  _currentPacketIsCompressed : bool;
  _lodChanged : bool;
  _sequenceNumber : Z;
  _lastRootTimestamp : Z;
  _isShuttingDown : bool;
  nodeBag : OctreeElementBag;
  map : CoverageMap;
  stats : OctreeSceneStats
}.

(** The inline getters of OctreeQueryNode.h. *)
Definition getPacketLength (n : OctreeQueryNode) : Z :=
  MAX_PACKET_SIZE - _octreePacketAvailableBytes n.
Definition isPacketWaiting (n : OctreeQueryNode) : bool := _octreePacketWaiting n.
Definition getAvailable (n : OctreeQueryNode) : Z := _octreePacketAvailableBytes n.
Definition getViewFrustumChanging (n : OctreeQueryNode) : bool := _viewFrustumChanging n.
Definition getViewFrustumJustStoppedChanging (n : OctreeQueryNode) : bool :=
  _viewFrustumJustStoppedChanging n.
Definition getCurrentPacketIsColor (n : OctreeQueryNode) : bool := _currentPacketIsColor n.
Definition getCurrentPacketIsCompressed (n : OctreeQueryNode) : bool :=
  _currentPacketIsCompressed n.
Definition getCurrentPacketFormatMatches (n : OctreeQueryNode) : bool :=
  Bool.eqb (getCurrentPacketIsColor n) (getWantColor (query n))
  && Bool.eqb (getCurrentPacketIsCompressed n) (getWantCompression (query n)).
Definition hasLodChanged (n : OctreeQueryNode) : bool := _lodChanged n.
Definition isShuttingDown (n : OctreeQueryNode) : bool := _isShuttingDown n.
Definition getLastTimeBagEmpty (n : OctreeQueryNode) : Z := _lastTimeBagEmpty n.

Definition with_duplicatePacketCount (count : Z) (n : OctreeQueryNode) : OctreeQueryNode :=
  {| query := query n; _viewSent := _viewSent n; _octreePacket := _octreePacket n;
     _octreePacketAvailableBytes := _octreePacketAvailableBytes n;
     _octreePacketWaiting := _octreePacketWaiting n;
     _lastOctreePacket := _lastOctreePacket n;
     _lastOctreePacketLength := _lastOctreePacketLength n; _duplicatePacketCount := count;
     _currentViewFrustum := _currentViewFrustum n;
     _lastKnownViewFrustum := _lastKnownViewFrustum n;
     _lastTimeBagEmpty := _lastTimeBagEmpty n;
     _viewFrustumChanging := _viewFrustumChanging n;
     _viewFrustumJustStoppedChanging := _viewFrustumJustStoppedChanging n;
     _currentPacketIsColor := _currentPacketIsColor n;
     _currentPacketIsCompressed := _currentPacketIsCompressed n;
     _lodChanged := _lodChanged n; _sequenceNumber := _sequenceNumber n;
     _lastRootTimestamp := _lastRootTimestamp n; _isShuttingDown := _isShuttingDown n;
     nodeBag := nodeBag n; map := map n; stats := stats n |}.

(** OctreeQueryNode.h, line 77. *)
Definition setLastTimeBagEmpty (lastTimeBagEmpty : Z) (n : OctreeQueryNode) : OctreeQueryNode :=
  {| query := query n; _viewSent := _viewSent n; _octreePacket := _octreePacket n;
     _octreePacketAvailableBytes := _octreePacketAvailableBytes n;
     _octreePacketWaiting := _octreePacketWaiting n;
     _lastOctreePacket := _lastOctreePacket n;
     _lastOctreePacketLength := _lastOctreePacketLength n;
     _duplicatePacketCount := _duplicatePacketCount n;
     _currentViewFrustum := _currentViewFrustum n;
     _lastKnownViewFrustum := _lastKnownViewFrustum n;
     _lastTimeBagEmpty := lastTimeBagEmpty;
     _viewFrustumChanging := _viewFrustumChanging n;
     _viewFrustumJustStoppedChanging := _viewFrustumJustStoppedChanging n;
     _currentPacketIsColor := _currentPacketIsColor n;
     _currentPacketIsCompressed := _currentPacketIsCompressed n;
     _lodChanged := _lodChanged n; _sequenceNumber := _sequenceNumber n;
     _lastRootTimestamp := _lastRootTimestamp n; _isShuttingDown := _isShuttingDown n;
     nodeBag := nodeBag n; map := map n; stats := stats n |}.

(** OctreeQueryNode.h, line 95. *)
Definition setLastRootTimestamp (timestamp : Z) (n : OctreeQueryNode) : OctreeQueryNode :=
  {| query := query n; _viewSent := _viewSent n; _octreePacket := _octreePacket n;
     _octreePacketAvailableBytes := _octreePacketAvailableBytes n;
     _octreePacketWaiting := _octreePacketWaiting n;
     _lastOctreePacket := _lastOctreePacket n;
     _lastOctreePacketLength := _lastOctreePacketLength n;
     _duplicatePacketCount := _duplicatePacketCount n;
     _currentViewFrustum := _currentViewFrustum n;
     _lastKnownViewFrustum := _lastKnownViewFrustum n;
     _lastTimeBagEmpty := _lastTimeBagEmpty n;
     _viewFrustumChanging := _viewFrustumChanging n;
     _viewFrustumJustStoppedChanging := _viewFrustumJustStoppedChanging n;
     _currentPacketIsColor := _currentPacketIsColor n;
     _currentPacketIsCompressed := _currentPacketIsCompressed n;
     _lodChanged := _lodChanged n; _sequenceNumber := _sequenceNumber n;
     _lastRootTimestamp := timestamp; _isShuttingDown := _isShuttingDown n;
     nodeBag := nodeBag n; map := map n; stats := stats n |}.

Definition with_nodeBag (bag : OctreeElementBag) (n : OctreeQueryNode) : OctreeQueryNode :=
  {| query := query n; _viewSent := _viewSent n; _octreePacket := _octreePacket n;
     _octreePacketAvailableBytes := _octreePacketAvailableBytes n;
     _octreePacketWaiting := _octreePacketWaiting n;
     _lastOctreePacket := _lastOctreePacket n;
     _lastOctreePacketLength := _lastOctreePacketLength n;
     _duplicatePacketCount := _duplicatePacketCount n;
     _currentViewFrustum := _currentViewFrustum n;
     _lastKnownViewFrustum := _lastKnownViewFrustum n;
     _lastTimeBagEmpty := _lastTimeBagEmpty n;
     _viewFrustumChanging := _viewFrustumChanging n;
     _viewFrustumJustStoppedChanging := _viewFrustumJustStoppedChanging n;
     _currentPacketIsColor := _currentPacketIsColor n;
     _currentPacketIsCompressed := _currentPacketIsCompressed n;
     _lodChanged := _lodChanged n; _sequenceNumber := _sequenceNumber n;
     _lastRootTimestamp := _lastRootTimestamp n; _isShuttingDown := _isShuttingDown n;
     nodeBag := bag; map := map n; stats := stats n |}.

Definition with_map (m : CoverageMap) (n : OctreeQueryNode) : OctreeQueryNode :=
  {| query := query n; _viewSent := _viewSent n; _octreePacket := _octreePacket n;
     _octreePacketAvailableBytes := _octreePacketAvailableBytes n;
     _octreePacketWaiting := _octreePacketWaiting n;
     _lastOctreePacket := _lastOctreePacket n;
     _lastOctreePacketLength := _lastOctreePacketLength n;
     _duplicatePacketCount := _duplicatePacketCount n;
     _currentViewFrustum := _currentViewFrustum n;
     _lastKnownViewFrustum := _lastKnownViewFrustum n;
     _lastTimeBagEmpty := _lastTimeBagEmpty n;
     _viewFrustumChanging := _viewFrustumChanging n;
     _viewFrustumJustStoppedChanging := _viewFrustumJustStoppedChanging n;
     _currentPacketIsColor := _currentPacketIsColor n;
     _currentPacketIsCompressed := _currentPacketIsCompressed n;
     _lodChanged := _lodChanged n; _sequenceNumber := _sequenceNumber n;
     _lastRootTimestamp := _lastRootTimestamp n; _isShuttingDown := _isShuttingDown n;
     nodeBag := nodeBag n; map := m; stats := stats n |}.

Definition with_stats (s : OctreeSceneStats) (n : OctreeQueryNode) : OctreeQueryNode :=
  {| query := query n; _viewSent := _viewSent n; _octreePacket := _octreePacket n;
     _octreePacketAvailableBytes := _octreePacketAvailableBytes n;
     _octreePacketWaiting := _octreePacketWaiting n;
     _lastOctreePacket := _lastOctreePacket n;
     _lastOctreePacketLength := _lastOctreePacketLength n;
     _duplicatePacketCount := _duplicatePacketCount n;
     _currentViewFrustum := _currentViewFrustum n;
     _lastKnownViewFrustum := _lastKnownViewFrustum n;
     _lastTimeBagEmpty := _lastTimeBagEmpty n;
     _viewFrustumChanging := _viewFrustumChanging n;
     _viewFrustumJustStoppedChanging := _viewFrustumJustStoppedChanging n;
     _currentPacketIsColor := _currentPacketIsColor n;
     _currentPacketIsCompressed := _currentPacketIsCompressed n;
     _lodChanged := _lodChanged n; _sequenceNumber := _sequenceNumber n;
     _lastRootTimestamp := _lastRootTimestamp n; _isShuttingDown := _isShuttingDown n;
     nodeBag := nodeBag n; map := map n; stats := s |}.

(** *** The out-of-line members (OctreeQueryNode.cpp is not part of the sources) *)

(** Modelled from the spec: [OctreeQueryNode::resetOctreePacket], "resets
    octree packet to after V header" (OctreeQueryNode.h line 38).  The
    spec's [resetOutboundPacket()] starts a fresh OutboundPacket: it carries
    the session's sequence number, its colour and compression flags are
    locked to the client's current wants, it holds no bytes; the bytes of
    the packet it replaces stay behind as LastSentPacket for the duplicate
    check.  "Once isShuttingDown is set, every operation becomes a no-op". *)
Definition resetOctreePacket (n : OctreeQueryNode) : OctreeQueryNode :=
  if _isShuttingDown n then n else
    {| query := query n; _viewSent := _viewSent n;
       _octreePacket := {| packetSequence := _sequenceNumber n; packetPayload := [] |};
       _octreePacketAvailableBytes := MAX_PACKET_SIZE - octreePacketHeaderSize;
       _octreePacketWaiting := false; _lastOctreePacket := packetPayload (_octreePacket n);
       _lastOctreePacketLength := getPacketLength n;
       _duplicatePacketCount := _duplicatePacketCount n;
       _currentViewFrustum := _currentViewFrustum n;
       _lastKnownViewFrustum := _lastKnownViewFrustum n;
       _lastTimeBagEmpty := _lastTimeBagEmpty n;
       _viewFrustumChanging := _viewFrustumChanging n;
       _viewFrustumJustStoppedChanging := _viewFrustumJustStoppedChanging n;
       _currentPacketIsColor := getWantColor (query n);
       _currentPacketIsCompressed := getWantCompression (query n);
       _lodChanged := _lodChanged n; _sequenceNumber := _sequenceNumber n;
       _lastRootTimestamp := _lastRootTimestamp n; _isShuttingDown := _isShuttingDown n;
       nodeBag := nodeBag n; map := map n; stats := stats n |}.

(** Modelled from the spec: [OctreeQueryNode::writeToPacket], the spec's
    [writeToOutboundPacket(bytes)]: the payload is "built by repeated
    appends".  A segment takes its bytes from the available space, and the
    section-size prefix with them when the packet is compressed, as
    [packetDistributor] counts at lines 471-475; a segment that does not
    fit the space left is not appended. *)
Definition writeToPacket (buffer : list byte) (n : OctreeQueryNode) : OctreeQueryNode :=
  if _isShuttingDown n then n else
  let written := size buffer + (if _currentPacketIsCompressed n then SECTION_SIZE else 0) in
  if written <=? _octreePacketAvailableBytes n then
      {| query := query n; _viewSent := _viewSent n;
         _octreePacket := {| packetSequence := packetSequence (_octreePacket n);
                            packetPayload := packetPayload (_octreePacket n) ++ buffer |};
         _octreePacketAvailableBytes := _octreePacketAvailableBytes n - written;
         _octreePacketWaiting := true; _lastOctreePacket := _lastOctreePacket n;
         _lastOctreePacketLength := _lastOctreePacketLength n;
         _duplicatePacketCount := _duplicatePacketCount n;
         _currentViewFrustum := _currentViewFrustum n;
         _lastKnownViewFrustum := _lastKnownViewFrustum n;
         _lastTimeBagEmpty := _lastTimeBagEmpty n;
         _viewFrustumChanging := _viewFrustumChanging n;
         _viewFrustumJustStoppedChanging := _viewFrustumJustStoppedChanging n;
         _currentPacketIsColor := _currentPacketIsColor n;
         _currentPacketIsCompressed := _currentPacketIsCompressed n;
         _lodChanged := _lodChanged n; _sequenceNumber := _sequenceNumber n;
         _lastRootTimestamp := _lastRootTimestamp n; _isShuttingDown := _isShuttingDown n;
         nodeBag := nodeBag n; map := map n; stats := stats n |}
  else n.

(** Modelled from the spec: [OctreeQueryNode::packetIsDuplicate]: "same
    length and bytes" as LastSentPacket. *)
Definition packetIsDuplicate (n : OctreeQueryNode) : bool :=
  (_lastOctreePacketLength n =? getPacketLength n)
  && bytes_eqb (_lastOctreePacket n) (packetPayload (_octreePacket n)).

(** Modelled from the spec: [OctreeQueryNode::shouldSuppressDuplicatePacket]
    "compares the finalized packet to LastSentPacket (same length and
    bytes) while the view is not actively changing; on match it increments
    the duplicate counter and returns true"; "any differing payload resets
    the counter to 0".  A session that is shutting down sends nothing. *)
Definition shouldSuppressDuplicatePacket (n : OctreeQueryNode) : OctreeQueryNode * bool :=
  if _isShuttingDown n then (n, true) else
  if negb (_viewFrustumChanging n) && packetIsDuplicate n
  then (with_duplicatePacketCount (_duplicatePacketCount n + 1) n, true)
  else (with_duplicatePacketCount 0 n, false).

(** Modelled from the spec: [OctreeQueryNode::incrementSequenceNumber],
    "advance the sequence number".  [OCTREE_PACKET_SEQUENCE] is declared
    outside the sources; the number is an integer of [Z]. *)
Definition incrementSequenceNumber (n : OctreeQueryNode) : OctreeQueryNode :=
    {| query := query n; _viewSent := _viewSent n; _octreePacket := _octreePacket n;
       _octreePacketAvailableBytes := _octreePacketAvailableBytes n;
       _octreePacketWaiting := _octreePacketWaiting n;
       _lastOctreePacket := _lastOctreePacket n;
       _lastOctreePacketLength := _lastOctreePacketLength n;
       _duplicatePacketCount := _duplicatePacketCount n;
       _currentViewFrustum := _currentViewFrustum n;
       _lastKnownViewFrustum := _lastKnownViewFrustum n;
       _lastTimeBagEmpty := _lastTimeBagEmpty n;
       _viewFrustumChanging := _viewFrustumChanging n;
       _viewFrustumJustStoppedChanging := _viewFrustumJustStoppedChanging n;
       _currentPacketIsColor := _currentPacketIsColor n;
       _currentPacketIsCompressed := _currentPacketIsCompressed n;
       _lodChanged := _lodChanged n; _sequenceNumber := _sequenceNumber n + 1;
       _lastRootTimestamp := _lastRootTimestamp n; _isShuttingDown := _isShuttingDown n;
       nodeBag := nodeBag n; map := map n; stats := stats n |}.

(** Modelled from the spec: [OctreeQueryNode::updateLastKnownViewFrustum]
    "snapshots Current→LastKnown". *)
Definition updateLastKnownViewFrustum (n : OctreeQueryNode) : OctreeQueryNode :=
  if _isShuttingDown n then n else
    {| query := query n; _viewSent := _viewSent n; _octreePacket := _octreePacket n;
       _octreePacketAvailableBytes := _octreePacketAvailableBytes n;
       _octreePacketWaiting := _octreePacketWaiting n;
       _lastOctreePacket := _lastOctreePacket n;
       _lastOctreePacketLength := _lastOctreePacketLength n;
       _duplicatePacketCount := _duplicatePacketCount n;
       _currentViewFrustum := _currentViewFrustum n;
       _lastKnownViewFrustum := _currentViewFrustum n;
       _lastTimeBagEmpty := _lastTimeBagEmpty n;
       _viewFrustumChanging := _viewFrustumChanging n;
       _viewFrustumJustStoppedChanging := _viewFrustumJustStoppedChanging n;
       _currentPacketIsColor := _currentPacketIsColor n;
       _currentPacketIsCompressed := _currentPacketIsCompressed n;
       _lodChanged := _lodChanged n; _sequenceNumber := _sequenceNumber n;
       _lastRootTimestamp := _lastRootTimestamp n; _isShuttingDown := _isShuttingDown n;
       nodeBag := nodeBag n; map := map n; stats := stats n |}.

(** Modelled from the spec: [OctreeQueryNode::setViewSent], "mark the view
    sent". *)
Definition setViewSent (viewSent : bool) (n : OctreeQueryNode) : OctreeQueryNode :=
    {| query := query n; _viewSent := viewSent; _octreePacket := _octreePacket n;
       _octreePacketAvailableBytes := _octreePacketAvailableBytes n;
       _octreePacketWaiting := _octreePacketWaiting n;
       _lastOctreePacket := _lastOctreePacket n;
       _lastOctreePacketLength := _lastOctreePacketLength n;
       _duplicatePacketCount := _duplicatePacketCount n;
       _currentViewFrustum := _currentViewFrustum n;
       _lastKnownViewFrustum := _lastKnownViewFrustum n;
       _lastTimeBagEmpty := _lastTimeBagEmpty n;
       _viewFrustumChanging := _viewFrustumChanging n;
       _viewFrustumJustStoppedChanging := _viewFrustumJustStoppedChanging n;
       _currentPacketIsColor := _currentPacketIsColor n;
       _currentPacketIsCompressed := _currentPacketIsCompressed n;
       _lodChanged := _lodChanged n; _sequenceNumber := _sequenceNumber n;
       _lastRootTimestamp := _lastRootTimestamp n; _isShuttingDown := _isShuttingDown n;
       nodeBag := nodeBag n; map := map n; stats := stats n |}.

(** Modelled from the spec: [OctreeQueryNode::dumpOutOfView], "discard
    VisitBag contents". *)
Definition dumpOutOfView (n : OctreeQueryNode) : OctreeQueryNode :=
  with_nodeBag [] n.

End Session.

(** ** What the send thread calls *)

Section Collaborators.
Context {K : Carriers}.

(** [EncodeBitstreamParams], Octree.h lines 69-86, as the constructor call
    of lines 406-410 fills it; [stopReason] is an output and is returned in
    [EncodeResult]. *)
Record EncodeBitstreamParams : Type := {
  maxEncodeLevel : Z;
  viewFrustum : option ViewFrustum;
  includeColor : bool;
  includeExistsBits : bool;
  chopLevels : Z;
  deltaViewFrustum : bool;
  lastViewFrustum : option ViewFrustum;
  wantOcclusionCulling : bool;
  coverageMap : option CoverageMap;
  boundaryLevelAdjust : Z;
  octreeElementSizeScale : SizeScale;
  lastViewFrustumSent : Z;
  forceSendScene : bool;
  sceneStats : OctreeSceneStats;
  jurisdictionMap : option JurisdictionMap
}.

Definition INT_MAX : Z := 2147483647.

(** What one call of [Octree::encodeTreeBitstream] leaves behind: its return
    value, the packet data and the bag it was handed, the stop reason it
    stored in the parameters, and the statistics and coverage map it
    reached through them. *)
Record EncodeResult : Type := {
  encodedBytes : Z;
  encodedPacketData : OctreePacketData;
  encodedBag : OctreeElementBag;
  stopReason : reason;
  encodedStats : OctreeSceneStats;
  encodedMap : CoverageMap
}.

(** The operations of the external collaborators of the spec's section 6,
    consumed as black boxes: the coverage map, the scene statistics, the
    packet buffer, the tree with its encoder, the server's settings. *)
Class Collaborators : Type := {
  (** [CoverageMap::erase] *)
  erase : CoverageMap -> CoverageMap;
  (** [OctreeSceneStats] *)
  isReadyToSend : OctreeSceneStats -> bool;
  getStatsMessage : OctreeSceneStats -> list byte;
  markAsSent : OctreeSceneStats -> OctreeSceneStats;
  packetSent : Z -> OctreeSceneStats -> OctreeSceneStats;
  sceneCompleted : OctreeSceneStats -> OctreeSceneStats;
  sceneStarted : bool -> bool -> OctreeElement -> option JurisdictionMap ->
                 OctreeSceneStats -> OctreeSceneStats;
  encodeStarted : OctreeSceneStats -> OctreeSceneStats;
  encodeStopped : OctreeSceneStats -> OctreeSceneStats;
  (** [OctreePacketData]; [changeSettings] "will do reset" (line 514) *)
  changeSettings : bool -> Z -> OctreePacketData -> OctreePacketData;
  getTargetSize : OctreePacketData -> Z;
  hasContent : OctreePacketData -> bool;
  getFinalizedData : OctreePacketData -> list byte;
  (** [OctreeQueryNode::moveShouldDump] *)
  moveShouldDump : OctreeQueryNode -> bool;
  (** [_myServer]: the tree root and when it last changed, the
      jurisdiction, the server's share of packets per interval *)
  getRoot : OctreeElement;
  getLastChanged : Z;
  getJurisdiction : option JurisdictionMap;
  getPacketsPerClientPerInterval : Z;
  (** [Octree::encodeTreeBitstream] *)
  encodeTreeBitstream : OctreeElement -> OctreePacketData -> OctreeElementBag ->
                        EncodeBitstreamParams -> EncodeResult
}.

Definition getStatsMessageLength {C : Collaborators} (s : OctreeSceneStats) : Z :=
  size (getStatsMessage s).
Definition getFinalizedSize {C : Collaborators} (p : OctreePacketData) : Z :=
  size (getFinalizedData p).

(** A wire unit handed to the transport. *)
Inductive Datagram : Type :=
| StatsWithPacket (statsMessage : list byte) (packet : OctreePacket) (packetLength : Z)
| StatsMessage (statsMessage : list byte)
| PacketDatagram (packet : OctreePacket) (packetLength : Z)
| SpecialPacket (bytes : list byte).

(** The calls the thread makes to its collaborators. *)
Inductive Call : Type :=
| DidCallWriteDatagram (d : Datagram)
| DidEncodeTreeBitstream (subTree : OctreeElement)
| DidDumpOutOfView
| DidMapErase
| DidDeleteAll
| DidUpdateLastKnownViewFrustum
| DidSetViewSent (viewSent : bool).

(** ** OctreeSendThread.cpp *)

(** The thread: the session it serves, its packet buffer, the static
    totals, the special packets the server holds for this client (modelled
    from the spec: "hasSpecialPacketPending(client)→bool,
    takeSpecialPacket(client)→bytes"), the reading of the clock, and the
    calls made so far. *)
Record OctreeSendThread : Type := {
  nodeData : OctreeQueryNode;
  _packetData : OctreePacketData;
  _totalBytes : Z;
  _totalWastedBytes : Z;
  _totalPackets : Z;
  specialPackets : list (list byte);
  usecTimestampNow : Z;
  calls : list Call
}.

Definition with_nodeData (n : OctreeQueryNode) (t : OctreeSendThread) : OctreeSendThread :=
  {| nodeData := n; _packetData := _packetData t; _totalBytes := _totalBytes t;
     _totalWastedBytes := _totalWastedBytes t; _totalPackets := _totalPackets t;
     specialPackets := specialPackets t; usecTimestampNow := usecTimestampNow t;
     calls := calls t |}.

Definition with_packetData (p : OctreePacketData) (t : OctreeSendThread) : OctreeSendThread :=
  {| nodeData := nodeData t; _packetData := p; _totalBytes := _totalBytes t;
     _totalWastedBytes := _totalWastedBytes t; _totalPackets := _totalPackets t;
     specialPackets := specialPackets t; usecTimestampNow := usecTimestampNow t;
     calls := calls t |}.

Definition with_specialPackets (q : list (list byte)) (t : OctreeSendThread) : OctreeSendThread :=
  {| nodeData := nodeData t; _packetData := _packetData t; _totalBytes := _totalBytes t;
     _totalWastedBytes := _totalWastedBytes t; _totalPackets := _totalPackets t;
     specialPackets := q; usecTimestampNow := usecTimestampNow t;
     calls := calls t |}.

(** Record a call. *)
Definition did (c : Call) (t : OctreeSendThread) : OctreeSendThread :=
  {| nodeData := nodeData t; _packetData := _packetData t; _totalBytes := _totalBytes t;
     _totalWastedBytes := _totalWastedBytes t; _totalPackets := _totalPackets t;
     specialPackets := specialPackets t; usecTimestampNow := usecTimestampNow t;
     calls := c :: calls t |}.

(** [_totalWastedBytes += thisWastedBytes; _totalBytes += bytes;
    _totalPackets++]. *)
Definition track (thisWastedBytes bytes : Z) (t : OctreeSendThread) : OctreeSendThread :=
  {| nodeData := nodeData t; _packetData := _packetData t;
     _totalBytes := wrap64 (_totalBytes t + bytes);
     _totalWastedBytes := wrap64 (_totalWastedBytes t + thisWastedBytes);
     _totalPackets := wrap64 (_totalPackets t + 1);
     specialPackets := specialPackets t; usecTimestampNow := usecTimestampNow t;
     calls := calls t |}.

(** [NodeList::getInstance()->writeDatagram(...)], counted by
    [OctreeServer::didCallWriteDatagram]. *)
Definition writeDatagram (d : Datagram) (t : OctreeSendThread) : OctreeSendThread :=
  did (DidCallWriteDatagram d) t.

Definition onNode (f : OctreeQueryNode -> OctreeQueryNode) (t : OctreeSendThread)
  : OctreeSendThread :=
  with_nodeData (f (nodeData t)) t.

Context {C : Collaborators}.

(** What [handlePacketSend] hands back: the thread, the two counters it
    received by reference, and its return value. *)
Record Sent : Type := {
  sentThread : OctreeSendThread;
  sentTrueBytes : Z;
  sentTruePackets : Z;
  packetsSent : Z
}.

(** Lines 152-238: the statistics message, piggybacked or on its own ahead
    of the packet, or the waiting packet alone.  The last component is the
    local [packetSent]. *)
Definition transmit (t : OctreeSendThread) (trueBytesSent truePacketsSent : Z)
  : OctreeSendThread * Z * Z * Z * bool :=
  let n := nodeData t in
  let packet := _octreePacket n in
  if isReadyToSend (stats n) && negb (isShuttingDown n) then
    let statsMessage := getStatsMessage (stats n) in
    let statsMessageLength := getStatsMessageLength (stats n) in
    let piggyBackSize := getPacketLength n + statsMessageLength in
    if piggyBackSize <? MAX_PACKET_SIZE then
      let t := track 0 (getPacketLength n) t in
      let t := writeDatagram (StatsWithPacket statsMessage packet (getPacketLength n)) t in
      (onNode (fun n => with_stats (markAsSent (stats n)) n) t,
       trueBytesSent, truePacketsSent, 0, true)
    else
      let t := writeDatagram (StatsMessage statsMessage) t in
      let t := track 0 statsMessageLength t in
      let t := writeDatagram (PacketDatagram packet (getPacketLength n)) t in
      let t := track (MAX_PACKET_SIZE - getPacketLength n) (getPacketLength n) t in
      (onNode (fun n => with_stats (markAsSent (stats n)) n) t,
       trueBytesSent + statsMessageLength, truePacketsSent + 1, 1, true)
  else if isPacketWaiting n && negb (isShuttingDown n) then
    let t := writeDatagram (PacketDatagram packet (getPacketLength n)) t in
    let t := track (MAX_PACKET_SIZE - getPacketLength n) (getPacketLength n) t in
    (t, trueBytesSent, truePacketsSent, 0, true)
  else (t, trueBytesSent, truePacketsSent, 0, false).

(** [OctreeSendThread::handlePacketSend], lines 121-250.  The debug output
    of the source, which changes nothing, is left out. *)
Definition handlePacketSend (t : OctreeSendThread) (trueBytesSent truePacketsSent : Z)
  : Sent :=
  if isShuttingDown (nodeData t) then
    {| sentThread := t; sentTrueBytes := trueBytesSent;
       sentTruePackets := truePacketsSent; packetsSent := 0 |}
  else
    let (n, suppress) := shouldSuppressDuplicatePacket (nodeData t) in
    if suppress then
      {| sentThread := with_nodeData (resetOctreePacket n) t;
         sentTrueBytes := trueBytesSent; sentTruePackets := truePacketsSent;
         packetsSent := 0 |}
    else
      let '(t, trueBytesSent, truePacketsSent, packetsSent, packetWasSent) :=
        transmit (with_nodeData n t) trueBytesSent truePacketsSent in
      if packetWasSent then
        let n := nodeData t in
        let n' := with_stats (packetSent (getPacketLength n) (stats n)) n in
        {| sentThread := with_nodeData (resetOctreePacket (incrementSequenceNumber n')) t;
           sentTrueBytes := trueBytesSent + getPacketLength n;
           sentTruePackets := truePacketsSent + 1;
           packetsSent := packetsSent + 1 |}
      else
        {| sentThread := t; sentTrueBytes := trueBytesSent;
           sentTruePackets := truePacketsSent; packetsSent := packetsSent |}.

(** The locals of [packetDistributor] that outlive a statement. *)
Record Locals : Type := {
  thread : OctreeSendThread;
  trueBytesSent : Z;
  truePacketsSent : Z;
  packetsSentThisInterval : Z;
  somethingToSend : bool;
  bytesWritten : Z;
  extraPackingAttempts : Z;
  completedScene : bool
}.

Definition with_thread (t : OctreeSendThread) (l : Locals) : Locals :=
  {| thread := t; trueBytesSent := trueBytesSent l; truePacketsSent := truePacketsSent l;
     packetsSentThisInterval := packetsSentThisInterval l;
     somethingToSend := somethingToSend l; bytesWritten := bytesWritten l;
     extraPackingAttempts := extraPackingAttempts l; completedScene := completedScene l |}.

Definition with_extraPackingAttempts (attempts : Z) (l : Locals) : Locals :=
  {| thread := thread l; trueBytesSent := trueBytesSent l;
     truePacketsSent := truePacketsSent l;
     packetsSentThisInterval := packetsSentThisInterval l;
     somethingToSend := somethingToSend l; bytesWritten := bytesWritten l;
     extraPackingAttempts := attempts; completedScene := completedScene l |}.

(** [packetsSentThisInterval += handlePacketSend(nodeData, trueBytesSent,
    truePacketsSent);] *)
Definition send (l : Locals) : Locals :=
  let r := handlePacketSend (thread l) (trueBytesSent l) (truePacketsSent l) in
  {| thread := sentThread r; trueBytesSent := sentTrueBytes r;
     truePacketsSent := sentTruePackets r;
     packetsSentThisInterval := packetsSentThisInterval l + packetsSent r;
     somethingToSend := somethingToSend l; bytesWritten := bytesWritten l;
     extraPackingAttempts := extraPackingAttempts l; completedScene := completedScene l |}.

(** Lines 265-266. *)
Definition isFullScene (viewFrustumChanged : bool) (n : OctreeQueryNode) : bool :=
  ((negb viewFrustumChanged || negb (getWantDelta (query n)))
   && getViewFrustumJustStoppedChanging n)
  || hasLodChanged n.

(** Lines 282-293: a waiting packet whose format is not the wanted one is
    sent as it is. *)
Definition flushOnFormatChange (wantCompression : bool) (l : Locals) : Locals :=
  let n := nodeData (thread l) in
  if negb (getCurrentPacketFormatMatches n) then
    let l := if isPacketWaiting n then send l
             else with_thread (onNode resetOctreePacket (thread l)) l in
    let targetSize :=
      if wantCompression then getAvailable (nodeData (thread l)) - SECTION_SIZE
      else MAX_OCTREE_PACKET_DATA_SIZE in
    with_thread (with_packetData (changeSettings wantCompression targetSize
                                                 (_packetData (thread l)))
                                 (thread l)) l
  else l.

(** Line 340. *)
Definition dontRestartSceneOnMove : bool := false.

(** Lines 302-307. *)
Definition resetOnViewChange (viewFrustumChanged : bool) (t : OctreeSendThread)
  : OctreeSendThread :=
  if viewFrustumChanged then
    let t := if moveShouldDump (nodeData t) || hasLodChanged (nodeData t)
             then did DidDumpOutOfView (onNode dumpOutOfView t)
             else t in
    did DidMapErase (onNode (fun n => with_map (erase (map n)) n) t)
  else t.

(** Lines 299-348: the start of a scene. *)
Definition restartScene (viewFrustumChanged isFullScene : bool) (l : Locals) : Locals :=
  if viewFrustumChanged || bag_isEmpty (nodeBag (nodeData (thread l))) then
    let t := resetOnViewChange viewFrustumChanged (thread l) in
    let t :=
      if negb viewFrustumChanged && negb (getWantDelta (query (nodeData t)))
      then onNode (setLastTimeBagEmpty (usecTimestampNow t)) t
      else t in
    let t := onNode (fun n => with_stats (sceneCompleted (stats n)) n) t in
    let t := onNode (setLastRootTimestamp getLastChanged) t in
    let l := send (with_thread t l) in
    let t := thread l in
    let t :=
      if isFullScene
      then did DidDeleteAll (onNode (fun n => with_nodeBag (bag_deleteAll (nodeBag n)) n) t)
      else t in
    let t := onNode (fun n => with_stats (sceneStarted isFullScene viewFrustumChanged
                                                       getRoot getJurisdiction (stats n)) n) t in
    let t :=
      if dontRestartSceneOnMove then
        if bag_isEmpty (nodeBag (nodeData t))
        then onNode (fun n => with_nodeBag (bag_insert getRoot (nodeBag n)) n) t
        else t
      else onNode (fun n => with_nodeBag (bag_insert getRoot (nodeBag n)) n) t in
    with_thread t l
  else l.

(** Lines 432-446, the decision on one encode: the packet data's target
    size and whether it has content, the bytes the encoder wrote and its
    stop reason give the flag [lastNodeDidntFit]. *)
Definition lastNodeDidntFit (targetSize : Z) (content : bool) (written : Z)
           (stop : reason) : bool :=
  if targetSize =? MAX_OCTREE_PACKET_DATA_SIZE then
    content && (written =? 0) && reason_eqb stop DIDNT_FIT
  else
    (written =? 0) && reason_eqb stop DIDNT_FIT.

(** What the statements of the function fix before the loop. *)
Record Cycle : Type := {
  viewFrustumChanged : bool;
  fullScene : bool;
  wantDelta : bool;
  wantColor : bool;
  wantCompression : bool;
  lastKnown : option ViewFrustum
}.

(** Lines 373-454: one subtree is taken from the bag and encoded, or the
    bag is found empty.  The second component is [lastNodeDidntFit]. *)
Definition encodeNext (c : Cycle) (l : Locals) : Locals * bool :=
  let t := thread l in
  let n := nodeData t in
  match nodeBag n with
  | subTree :: rest =>
      let n := with_nodeBag rest n in
      let occlusionCulling := getWantOcclusionCulling (query n) in
      let voxelSizeScale := getOctreeSizeScale (query n) in
      let boundaryLevelAdjustClient := getBoundaryLevelAdjust (query n) in
      let adjust :=
        boundaryLevelAdjustClient
        + (if viewFrustumChanged c && getWantLowResMoving (query n)
           then LOW_RES_MOVING_ADJUST else NO_BOUNDARY_ADJUST) in
      let n := with_stats (encodeStarted (stats n)) n in
      let params :=
        {| maxEncodeLevel := INT_MAX;
           viewFrustum := Some (_currentViewFrustum n);
           includeColor := wantColor c;
           includeExistsBits := WANT_EXISTS_BITS;
           chopLevels := DONT_CHOP;
           deltaViewFrustum := wantDelta c;
           lastViewFrustum := lastKnown c;
           wantOcclusionCulling := occlusionCulling;
           coverageMap := if occlusionCulling then Some (map n) else None;
           boundaryLevelAdjust := adjust;
           octreeElementSizeScale := voxelSizeScale;
           lastViewFrustumSent := getLastTimeBagEmpty n;
           forceSendScene := fullScene c;
           sceneStats := stats n;
           jurisdictionMap := getJurisdiction |} in
      let r := encodeTreeBitstream subTree (_packetData t) (nodeBag n) params in
      let n := with_nodeBag (encodedBag r) n in
      let n := with_stats (encodedStats r) n in
      let n := if occlusionCulling then with_map (encodedMap r) n else n in
      let t := did (DidEncodeTreeBitstream subTree)
                   (with_packetData (encodedPacketData r) (with_nodeData n t)) in
      let packing := negb (getTargetSize (_packetData t) =? MAX_OCTREE_PACKET_DATA_SIZE) in
      let flag := lastNodeDidntFit (getTargetSize (_packetData t))
                                   (hasContent (_packetData t))
                                   (encodedBytes r) (stopReason r) in
      let t := onNode (fun n => with_stats (encodeStopped (stats n)) n) t in
      ({| thread := t; trueBytesSent := trueBytesSent l;
          truePacketsSent := truePacketsSent l;
          packetsSentThisInterval := packetsSentThisInterval l;
          somethingToSend := somethingToSend l;
          bytesWritten := encodedBytes r;
          extraPackingAttempts :=
            if packing then extraPackingAttempts l + 1 else extraPackingAttempts l;
          completedScene := bag_isEmpty (nodeBag (nodeData t)) |},
       flag)
  | [] =>
      ({| thread := t; trueBytesSent := trueBytesSent l;
          truePacketsSent := truePacketsSent l;
          packetsSentThisInterval := packetsSentThisInterval l;
          somethingToSend := false;
          bytesWritten := 0;
          extraPackingAttempts := extraPackingAttempts l;
          completedScene := completedScene l |},
       false)
  end.

(** Lines 464-483: what the packet data holds goes into the packet, after
    the packet is sent when the new segment does not fit it. *)
Definition writeSegment (l : Locals) : Locals :=
  if hasContent (_packetData (thread l)) then
    let n := nodeData (thread l) in
    let writtenSize :=
      getFinalizedSize (_packetData (thread l))
      + (if getCurrentPacketIsCompressed n then SECTION_SIZE else 0) in
    let l := if writtenSize >? getAvailable n then send l else l in
    let t := onNode (writeToPacket (getFinalizedData (_packetData (thread l)))) (thread l) in
    with_extraPackingAttempts 0 (with_thread t l)
  else l.

(** Lines 487-514: send now, or keep the packet to pack more into it. *)
Definition sendOrPackMore (c : Cycle) (l : Locals) : Locals :=
  let n := nodeData (thread l) in
  let sendNow :=
    negb (getCurrentPacketIsCompressed n
          && (getAvailable n >=? MINIMUM_ATTEMPT_MORE_PACKING)
          && (extraPackingAttempts l <=? REASONABLE_NUMBER_OF_PACKING_ATTEMPTS)) in
  let '(l, targetSize) :=
    if sendNow then
      let l := send l in
      (l, if wantCompression c
          then getAvailable (nodeData (thread l)) - SECTION_SIZE
          else MAX_OCTREE_PACKET_DATA_SIZE)
    else
      (l, getAvailable n - SECTION_SIZE - COMPRESS_PADDING) in
  let t := thread l in
  with_thread (with_packetData
                 (changeSettings (getWantCompression (query (nodeData t))) targetSize
                                 (_packetData t)) t) l.

(** Lines 365-524: the body of the packing loop.  The times the source
    measures around each phase go to the server's metrics and decide
    nothing; they are left out. *)
Definition packingStep (c : Cycle) (l : Locals) : Locals :=
  let (l, flag) := encodeNext c l in
  if completedScene l || flag then sendOrPackMore c (writeSegment l) else l.

(** Line 364. *)
Definition packingContinues (maxPacketsPerInterval : Z) (l : Locals) : bool :=
  somethingToSend l
  && (packetsSentThisInterval l <? maxPacketsPerInterval)
  && negb (isShuttingDown (nodeData (thread l))).

(** The [while] loop of lines 364-525.  The source does not bound its
    iterations; [fuel] does, and the second component tells whether the
    loop came to its end within them. *)
Fixpoint packingLoop (fuel : nat) (maxPacketsPerInterval : Z) (c : Cycle) (l : Locals)
  : Locals * bool :=
  if packingContinues maxPacketsPerInterval l then
    match fuel with
    | O => (l, false)
    | S fuel' => packingLoop fuel' maxPacketsPerInterval c (packingStep c l)
    end
  else (l, true).

(** Lines 359-360. *)
Definition clientMaxPacketsPerInterval (n : OctreeQueryNode) : Z :=
  Z.max 1 (Z.quot (getMaxOctreePacketsPerSecond (query n)) INTERVALS_PER_SECOND).

Definition maxPacketsPerInterval (n : OctreeQueryNode) : Z :=
  Z.min (clientMaxPacketsPerInterval n) getPacketsPerClientPerInterval.

(** Lines 531-535.  Modelled from the spec: [hasSpecialPacketToSend] and
    [sendSpecialPacket] are the transport's "hasSpecialPacketPending" and
    "takeSpecialPacket"; the packet taken is transmitted and its size
    returned. *)
Definition sendSpecial (l : Locals) : Locals :=
  let t := thread l in
  match specialPackets t with
  | special :: pending =>
      if negb (isShuttingDown (nodeData t)) then
        {| thread := did (DidCallWriteDatagram (SpecialPacket special))
                         (with_specialPackets pending t);
           trueBytesSent := trueBytesSent l + size special;
           truePacketsSent := truePacketsSent l + 1;
           packetsSentThisInterval := packetsSentThisInterval l + 1;
           somethingToSend := somethingToSend l; bytesWritten := bytesWritten l;
           extraPackingAttempts := extraPackingAttempts l;
           completedScene := completedScene l |}
      else l
  | [] => l
  end.

(** Lines 550-554. *)
Definition sceneSent (t : OctreeSendThread) : OctreeSendThread :=
  if bag_isEmpty (nodeBag (nodeData t)) then
    let t := did DidUpdateLastKnownViewFrustum (onNode updateLastKnownViewFrustum t) in
    let t := did (DidSetViewSent true) (onNode (setViewSent true) t) in
    did DidMapErase (onNode (fun n => with_map (erase (map n)) n) t)
  else t.

(** Lines 262-348: the locals at the start, the format check and the scene
    restart. *)
Definition cycleOf (changed : bool) (n : OctreeQueryNode) : Cycle :=
  let delta := changed && getWantDelta (query n) in
  {| viewFrustumChanged := changed;
     fullScene := isFullScene changed n;
     wantDelta := delta;
     wantColor := getWantColor (query n);
     wantCompression := getWantCompression (query n);
     lastKnown := if delta then Some (_lastKnownViewFrustum n) else None |}.

Definition beforePacking (c : Cycle) (t : OctreeSendThread) : Locals :=
  let l := {| thread := t; trueBytesSent := 0; truePacketsSent := 0;
              packetsSentThisInterval := 0; somethingToSend := true;
              bytesWritten := 0; extraPackingAttempts := 0;
              completedScene := false |} in
  restartScene (viewFrustumChanged c) (fullScene c)
               (flushOnFormatChange (wantCompression c) l).

(** What a call of [packetDistributor] gives: the thread, the value
    returned ([truePacketsSent]), the local [packetsSentThisInterval] at
    the end, and whether the packing loop came to its end within the
    fuel. *)
Record Distributed : Type := {
  distributedThread : OctreeSendThread;
  returned : Z;
  sentThisInterval : Z;
  finished : bool
}.

(** [OctreeSendThread::packetDistributor], lines 253-559. *)
Definition packetDistributor (fuel : nat) (t : OctreeSendThread) (changed : bool)
  : Distributed :=
  if isShuttingDown (nodeData t) then
    {| distributedThread := t; returned := 0; sentThisInterval := 0; finished := true |}
  else
    let c := cycleOf changed (nodeData t) in
    let l := beforePacking c t in
    if negb (bag_isEmpty (nodeBag (nodeData (thread l)))) then
      let budget := maxPacketsPerInterval (nodeData (thread l)) in
      let (l, done) := packingLoop fuel budget c l in
      if done then
        let l := sendSpecial l in
        {| distributedThread := sceneSent (thread l);
           returned := truePacketsSent l;
           sentThisInterval := packetsSentThisInterval l;
           finished := true |}
      else
        {| distributedThread := thread l; returned := truePacketsSent l;
           sentThisInterval := packetsSentThisInterval l; finished := false |}
    else
      {| distributedThread := thread l; returned := truePacketsSent l;
         sentThisInterval := packetsSentThisInterval l; finished := true |}.

End Collaborators.

(** ** What a run shows

    Measures on the recorded calls, used to state what a call of the
    source functions did. *)
Section Observations.
Context {K : Carriers}.

Definition isWireUnit (c : Call) : bool :=
  match c with DidCallWriteDatagram _ => true | _ => false end.

Definition isSpecialPacket (c : Call) : bool :=
  match c with DidCallWriteDatagram (SpecialPacket _) => true | _ => false end.

(** The wire units [handlePacketSend] writes: the packet, alone or behind
    the statistics message, and the statistics message on its own. *)
Definition isOctreePacket (c : Call) : bool :=
  isWireUnit c && negb (isSpecialPacket c).

Definition isEncode (c : Call) : bool :=
  match c with DidEncodeTreeBitstream _ => true | _ => false end.

Definition isSnapshot (c : Call) : bool :=
  match c with DidUpdateLastKnownViewFrustum => true | _ => false end.

Definition isMapErase (c : Call) : bool :=
  match c with DidMapErase => true | _ => false end.

Definition isDumpOutOfView (c : Call) : bool :=
  match c with DidDumpOutOfView => true | _ => false end.

Definition isDeleteAll (c : Call) : bool :=
  match c with DidDeleteAll => true | _ => false end.

Definition countCalls (p : Call -> bool) (cs : list Call) : Z :=
  Z.of_nat (length (filter p cs)).

(** How many calls of a kind were made between two states of the thread. *)
Definition since (p : Call -> bool) (before after : OctreeSendThread) : Z :=
  countCalls p (calls after) - countCalls p (calls before).

(** The sequence numbers of the packets handed to the transport, newest
    first. *)
Fixpoint sequencesOf (cs : list Call) : list Z :=
  match cs with
  | [] => []
  | DidCallWriteDatagram (StatsWithPacket _ packet _) :: cs'
  | DidCallWriteDatagram (PacketDatagram packet _) :: cs' =>
      packetSequence packet :: sequencesOf cs'
  | _ :: cs' => sequencesOf cs'
  end.

(** The datagrams among the calls, oldest first: the sequence number and
    the length of each packet. *)
Definition packetsOf (cs : list Call) : list (Z * Z) :=
  flat_map (fun c => match c with
                     | DidCallWriteDatagram (PacketDatagram packet len) =>
                         [(packetSequence packet, len)]
                     | _ => []
                     end) (rev cs).

(** [base + k - 1; ...; base + 1; base]. *)
Fixpoint descending (base : Z) (k : nat) : list Z :=
  match k with
  | O => []
  | S k' => (base + Z.of_nat k') :: descending base k'
  end.

(** The packet under construction carries the session's sequence number,
    as every packet does that [resetOctreePacket] started. *)
Definition stamped (n : OctreeQueryNode) : Prop :=
  packetSequence (_octreePacket n) = _sequenceNumber n.

(** The packet is as [resetOctreePacket] leaves it. *)
Definition isReset (n : OctreeQueryNode) : Prop :=
  packetPayload (_octreePacket n) = []
  /\ _octreePacketWaiting n = false
  /\ _octreePacketAvailableBytes n = MAX_PACKET_SIZE - octreePacketHeaderSize.

(** A call that is neither a special packet nor a snapshot of the view:
    what the function does up to the end of its packing loop. *)
Definition ordinary (c : Call) : bool :=
  negb (isSpecialPacket c) && negb (isSnapshot c).

(** *** Relations between two states of a run *)

(** The parts of the session that only the client and the shutdown
    change. *)
Record sameSession (n n' : OctreeQueryNode) : Prop := {
  same_query : query n' = query n;
  same_down : _isShuttingDown n' = _isShuttingDown n;
  same_current : _currentViewFrustum n' = _currentViewFrustum n
}.

(** What [handlePacketSend] leaves alone. *)
Record untouched (t t' : OctreeSendThread) : Prop := {
  untouched_bag : nodeBag (nodeData t') = nodeBag (nodeData t);
  untouched_map : map (nodeData t') = map (nodeData t);
  untouched_lastKnown :
    _lastKnownViewFrustum (nodeData t') = _lastKnownViewFrustum (nodeData t);
  untouched_viewSent : _viewSent (nodeData t') = _viewSent (nodeData t);
  untouched_packetData : _packetData t' = _packetData t;
  untouched_specials : specialPackets t' = specialPackets t
}.

(** The session went on without a new sequence number. *)
Record quiet (n n' : OctreeQueryNode) : Prop := {
  quiet_same : sameSession n n';
  quiet_sequence : _sequenceNumber n' = _sequenceNumber n;
  quiet_stamped : stamped n -> stamped n'
}.

(** The later state has the calls of the earlier one and, before them,
    calls of one kind. *)
Definition grows (kind : Call -> bool) (t t' : OctreeSendThread) : Prop :=
  exists added, calls t' = added ++ calls t /\ forallb kind added = true.

(** From a stamped packet on, the packets sent carry the sequence numbers
    that follow the session's, one by one. *)
Definition numbered (t t' : OctreeSendThread) : Prop :=
  stamped (nodeData t) ->
  stamped (nodeData t')
  /\ exists k : nat,
      _sequenceNumber (nodeData t') = _sequenceNumber (nodeData t) + Z.of_nat k
      /\ sequencesOf (calls t')
         = descending (_sequenceNumber (nodeData t)) k ++ sequencesOf (calls t).

(** The thread went from [t] to [t'] writing [w] wire units. *)
Record follows (w : Z) (t t' : OctreeSendThread) : Prop := {
  follows_grows : grows ordinary t t';
  follows_wire : since isWireUnit t t' = w;
  follows_same : sameSession (nodeData t) (nodeData t');
  follows_numbered : numbered t t'
}.

End Observations.

Section Steps.
Context {K : Carriers} {C : Collaborators}.

(** The function went from [l] to [l'] writing at most [k] wire units,
    each counted in [packetsSentThisInterval] and in [truePacketsSent]. *)
Definition steps (k : Z) (l l' : Locals) : Prop :=
  exists w,
    0 <= w <= k
    /\ follows w (thread l) (thread l')
    /\ packetsSentThisInterval l' = packetsSentThisInterval l + w
    /\ truePacketsSent l' = truePacketsSent l + w.

End Steps.

(** ** More measures on a run *)

Section Accounting.
Context {K : Carriers}.

(** The length [writeDatagram] is called with: the statistics message and
    the packet behind it (lines 163-164, 181), the statistics message alone
    (line 186), the packet (lines 205, 225). *)
Definition datagramSize (d : Datagram) : Z :=
  match d with
  | StatsWithPacket statsMessage _ packetLength => size statsMessage + packetLength
  | StatsMessage statsMessage => size statsMessage
  | PacketDatagram _ packetLength => packetLength
  | SpecialPacket bytes => size bytes
  end.

(** The bytes handed to the transport by the calls recorded. *)
Fixpoint wireBytes (cs : list Call) : Z :=
  match cs with
  | [] => 0
  | DidCallWriteDatagram d :: cs' => datagramSize d + wireBytes cs'
  | _ :: cs' => wireBytes cs'
  end.

(** What only the snapshot at the end of a scene and the special packet
    change. *)
Record settled (t t' : OctreeSendThread) : Prop := {
  settled_lastKnown :
    _lastKnownViewFrustum (nodeData t') = _lastKnownViewFrustum (nodeData t);
  settled_viewSent : _viewSent (nodeData t') = _viewSent (nodeData t);
  settled_specials : specialPackets t' = specialPackets t
}.

(** Uncompressed mode: the client wants it and the packet is in it. *)
Definition plain (n : OctreeQueryNode) : Prop :=
  getWantCompression (query n) = false /\ _currentPacketIsCompressed n = false.

(** Uncompressed mode with no packet waiting. *)
Definition plainAndFlushed (n : OctreeQueryNode) : Prop :=
  getWantCompression (query n) = false
  /\ _currentPacketIsCompressed n = false
  /\ _octreePacketWaiting n = false.

(** A property of a live session that holds on from [n] to [n']. *)
Definition holdsOn (P : OctreeQueryNode -> Prop) (n n' : OctreeQueryNode) : Prop :=
  _isShuttingDown n = false /\ P n -> _isShuttingDown n' = false /\ P n'.

End Accounting.

(** ** The worker: [OctreeSendThread::process] *)

Section Process.
Context {K : Carriers} {C : Collaborators}.

(** What [process] takes from outside this file: the target interval
    ([OctreeServerConsts.h]) and [OctreeQueryNode::updateCurrentViewFrustum]
    (OctreeQueryNode.cpp), which pulls the newest view into the session and
    tells whether it changed. *)
Class Scheduling : Type := {
  OCTREE_SEND_INTERVAL_USECS : Z;
  updateCurrentViewFrustum : OctreeQueryNode -> OctreeQueryNode * bool
}.

(** The thread as [process] sees it: the part of it the two functions
    above work on, its own shutdown flag ([OctreeSendThread::_isShuttingDown],
    line 31), whether the server, the assignment, the node and the data
    linked to the node are there (lines 70, 80, 85), whether the tree is
    loaded (line 79), the count of line 81, and [isStillRunning()]. *)
Record Worker : Type := {
  sender : OctreeSendThread;
  threadIsShuttingDown : bool;
  _myServer : bool;
  _myAssignment : bool;
  isInitialLoadComplete : bool;
  _node : bool;
  linkedData : bool;
  _nodeMissingCount : Z;
  isStillRunning : bool
}.

(** [OctreeSendThread::setIsShuttingDown], lines 59-61. *)
Definition setIsShuttingDown (w : Worker) : Worker :=
  {| sender := sender w; threadIsShuttingDown := true; _myServer := _myServer w;
     _myAssignment := _myAssignment w; isInitialLoadComplete := isInitialLoadComplete w;
     _node := _node w; linkedData := linkedData w;
     _nodeMissingCount := _nodeMissingCount w; isStillRunning := isStillRunning w |}.

(** What a call of [process] gives: the worker, the value returned, the
    microseconds it slept if it slept, and whether the packing loop of its
    [packetDistributor] came to its end within the fuel. *)
Record Processed : Type := {
  processedWorker : Worker;
  keepsRunning : bool;
  slept : option Z;
  distributed : bool
}.

(** Lines 78-90: the send processing of one cycle. *)
Definition sendProcessing {S : Scheduling} (fuel : nat) (w : Worker) : Worker * bool :=
  if isInitialLoadComplete w then
    if _node w then
      if linkedData w && negb (isShuttingDown (nodeData (sender w))) then
        let (n, viewFrustumChanged) := updateCurrentViewFrustum (nodeData (sender w)) in
        let r := packetDistributor fuel (with_nodeData n (sender w)) viewFrustumChanged in
        ({| sender := distributedThread r; threadIsShuttingDown := threadIsShuttingDown w;
            _myServer := _myServer w; _myAssignment := _myAssignment w;
            isInitialLoadComplete := isInitialLoadComplete w;
            _node := _node w; linkedData := linkedData w;
            _nodeMissingCount := 0; isStillRunning := isStillRunning w |},
         finished r)
      else
        ({| sender := sender w; threadIsShuttingDown := threadIsShuttingDown w;
            _myServer := _myServer w; _myAssignment := _myAssignment w;
            isInitialLoadComplete := isInitialLoadComplete w;
            _node := _node w; linkedData := linkedData w;
            _nodeMissingCount := 0; isStillRunning := isStillRunning w |},
         true)
    else (w, true)
  else (w, true).

(** Lines 96-109: the microseconds to sleep after a cycle that took
    [elapsed]. *)
Definition MIN_USEC_TO_SLEEP : Z := 1.

Definition usecToSleep {S : Scheduling} (elapsed : Z) : Z :=
  let usecToSleep := OCTREE_SEND_INTERVAL_USECS - elapsed in
  if usecToSleep >? 0 then usecToSleep else MIN_USEC_TO_SLEEP.

(** [OctreeSendThread::process], lines 64-112; [elapsed] is what the clock
    shows at line 99, the microseconds since the cycle started. *)
Definition process {S : Scheduling} (fuel : nat) (w : Worker) (elapsed : Z) : Processed :=
  if threadIsShuttingDown w then
    {| processedWorker := w; keepsRunning := false; slept := None; distributed := true |}
  else if negb (_myServer w) || negb (_myAssignment w) then
    {| processedWorker := w; keepsRunning := false; slept := None; distributed := true |}
  else
    let (w, done) := sendProcessing fuel w in
    if threadIsShuttingDown w then
      {| processedWorker := w; keepsRunning := false; slept := None; distributed := done |}
    else
      {| processedWorker := w;
         keepsRunning := isStillRunning w;
         slept := if isStillRunning w then Some (usecToSleep elapsed) else None;
         distributed := done |}.

End Process.

(** ** A small server

    A concrete set of collaborators on which the model runs: a wire unit
    of 300 bytes of which 50 are header, 60 intervals per second, a tree
    whose elements each encode to 100 bytes and have no children, and a
    statistics message of 160 bytes that becomes ready when a scene
    completes. *)
Module Small.

Record SceneStats : Type := {
  ready : bool;
  scenes : Z;
  packets : Z
}.

Record PacketData : Type := {
  compressed : bool;
  targetSize : Z;
  content : list byte
}.

Definition carriers : Carriers :=
  {| ViewFrustum := Z;
     CoverageMap := list OctreeElement;
     JurisdictionMap := unit;
     OctreeSceneStats := SceneStats;
     OctreePacketData := PacketData;
     SizeScale := Z;
     MAX_PACKET_SIZE := 300;
     MAX_OCTREE_PACKET_DATA_SIZE := 250;
     INTERVALS_PER_SECOND := 60;
     MINIMUM_ATTEMPT_MORE_PACKING := 40;
     REASONABLE_NUMBER_OF_PACKING_ATTEMPTS := 5;
     COMPRESS_PADDING := 15;
     SECTION_SIZE := 2;
     octreePacketHeaderSize := 50 |}.

Definition elementBytes (e : OctreeElement) : list byte :=
  repeat (match Byte.of_N (e mod 256) with Some b => b | None => x00 end) 100.

(** An element is written whole when it fits the target size; when it does
    not, nothing is written, the element goes back into the bag and the
    stop reason is [DIDNT_FIT]. *)
Definition encode (subTree : OctreeElement) (p : PacketData) (bag : OctreeElementBag)
           (params : @EncodeBitstreamParams carriers) : @EncodeResult carriers :=
  let fits := size (content p) + 100 <=? targetSize p in
  @Build_EncodeResult carriers
    (if fits then 100 else 0)
    (if fits
     then {| compressed := compressed p; targetSize := targetSize p;
             content := content p ++ elementBytes subTree |}
     else p)
    (if fits then bag else subTree :: bag)
    (if fits then UNKNOWN else DIDNT_FIT)
    (sceneStats params)
    (match coverageMap params with
     | Some m => if fits then subTree :: m else m
     | None => []
     end).

Definition collaborators : @Collaborators carriers :=
  @Build_Collaborators carriers
    (fun _ => [])
    ready
    (fun _ => repeat x53 160)
    (fun s => {| ready := false; scenes := scenes s; packets := packets s |})
    (fun _ s => {| ready := ready s; scenes := scenes s; packets := packets s + 1 |})
    (fun s => {| ready := true; scenes := scenes s + 1; packets := packets s |})
    (fun _ _ _ _ s => s)
    (fun s => s)
    (fun s => s)
    (fun c t _ => {| compressed := c; targetSize := t; content := [] |})
    targetSize
    (fun p => negb (size (content p) =? 0))
    content
    (fun n => false)
    1%N
    0
    None
    16
    encode.

(** *** Sessions of the small server *)

Definition wants (packetsPerSecond : Z) (compression delta : bool)
  : @OctreeQuery carriers :=
  @Build_OctreeQuery carriers true compression delta false false packetsPerSecond 1 0.

(** A live session at sequence number 7 looking at view 1; [sent] tells
    whether that view was sent before. *)
Definition session (q : @OctreeQuery carriers) (payload : list byte) (waiting : bool)
           (lastPacket : list byte) (lastLength : Z)
           (sent justStoppedChanging statsReady : bool)
           (bag : OctreeElementBag) (covered : list OctreeElement)
  : @OctreeQueryNode carriers :=
  @Build_OctreeQueryNode carriers
    q sent
    {| packetSequence := 7; packetPayload := payload |}
    (250 - size payload - (if waiting && getWantCompression q then 2 else 0))
    waiting
    lastPacket lastLength 0
    1 (if sent then 1 else 0) 0
    false justStoppedChanging
    (getWantColor q) (getWantCompression q)
    false 7 0 false
    bag covered {| ready := statsReady; scenes := 0; packets := 0 |}.

Definition worker (n : @OctreeQueryNode carriers) (specials : list (list byte))
  : @OctreeSendThread carriers :=
  @Build_OctreeSendThread carriers
    n
    {| compressed := getWantCompression (query n);
       targetSize := if getWantCompression (query n) then 248 else 250;
       content := [] |}
    0 0 0 specials 1000 [].

(** A session with nothing to send: the scene was sent, the bag is empty. *)
Definition idle : @OctreeSendThread carriers :=
  worker (session (wants 6000 false false) [] false [] 0 true false false [] []) [].

(** The same session when the statistics of the scene are ready. *)
Definition completed : @OctreeSendThread carriers :=
  worker (session (wants 6000 false false) [] false [] 0 true false true [] []) [].

(** Three elements are queued for a client whose view holds still. *)
Definition queued : @OctreeSendThread carriers :=
  worker (session (wants 6000 false false) [] false [] 0 false false false
                  [10%N; 11%N; 12%N] []) [].

(** A session whose waiting packet repeats the last one sent. *)
Definition repeating : @OctreeSendThread carriers :=
  worker (session (wants 6000 false false) (elementBytes 12%N) true
                  (elementBytes 12%N) 150 true false false [] []) [].

(** A session whose last packet went out empty and whose packet is empty
    again, with the statistics of the scene ready. *)
Definition stalled : @OctreeSendThread carriers :=
  worker (session (wants 6000 false false) [] false [] 50 true false true [] []) [].

(** A client asking for 20 packets per second, in compressed mode, with
    one element in the bag: its first cycle. *)
Definition starting : @OctreeSendThread carriers :=
  worker (session (wants 20 true false) [] false [] 0 false false false [12%N] []) [].

(** What that first cycle leaves: the packet of 100 bytes waits for more
    to be packed behind it and the bag is empty.  By now the server holds
    one special packet for the client. *)
Definition leftover : @OctreeSendThread carriers :=
  @with_packetData carriers
    {| compressed := true; targetSize := 131; content := [] |}
    (worker (session (wants 20 true false) (elementBytes 12%N) true [] 0
                     true false false [] [])
            [[x45; x4e; x56]]).

(** A client in delta mode whose view stopped changing a cycle ago and is
    changing again, by less than would dump the bag. *)
Definition turning : @OctreeSendThread carriers :=
  worker (session (wants 6000 false true) [] false [] 0 false true false
                  [10%N; 11%N] [12%N]) [].

(** An uncompressed packet buffer that holds two elements, and a third
    element in the bag. *)
Definition filling : @OctreeSendThread carriers :=
  @with_packetData carriers
    {| compressed := false; targetSize := 250;
       content := elementBytes 10%N ++ elementBytes 11%N |}
    (worker (session (wants 6000 false false) [] false [] 0 false false false
                     [12%N] []) []).

(** Compressed mode: two elements are in the packet, the packet buffer was
    reset to the 31 bytes that are left for one more section, and a third
    element is in the bag. *)
Definition packingMore : @OctreeSendThread carriers :=
  @with_packetData carriers
    {| compressed := true; targetSize := 31; content := [] |}
    (worker (session (wants 20 true false) (elementBytes 10%N ++ elementBytes 11%N) true
                     [] 0 false false false [12%N] []) []).

Definition locals (t : @OctreeSendThread carriers) : @Locals carriers :=
  @Build_Locals carriers t 0 0 0 true 0 0 false.

(** A client asking for 20 packets per second, uncompressed, with three
    elements in the bag: a budget of one packet per interval. *)
Definition rationed : @OctreeSendThread carriers :=
  worker (session (wants 20 false false) [] false [] 0 false false false
                  [10%N; 11%N; 12%N] []) [].

(** A client that has just asked for compression: its packet of 100 bytes
    is uncompressed and waits. *)
Definition switching : @OctreeSendThread carriers :=
  @Build_OctreeSendThread carriers
    (@Build_OctreeQueryNode carriers
       (wants 6000 true false) true
       {| packetSequence := 7; packetPayload := elementBytes 12%N |}
       150 true [] 0 0
       1 1 0
       false false
       true false
       false 7 0 false
       [] [] {| ready := false; scenes := 0; packets := 0 |})
    {| compressed := false; targetSize := 250; content := [] |}
    0 0 0 [] 1000 [].

(** The target interval of a server that sends 60 times per second, and a
    view that holds still. *)
Definition scheduling : @Scheduling carriers :=
  @Build_Scheduling carriers 16666 (fun n => (n, false)).

(** The thread of [queued] while the server runs, and the same thread
    before the session is linked to the node. *)
Definition running : @Worker carriers :=
  @Build_Worker carriers queued false true true true true true 0 true.

Definition unlinked : @Worker carriers :=
  @Build_Worker carriers queued false true true true true false 0 true.

End Small.

(** * Proofs *)

Section Session_facts.
Context {K : Carriers}.

Ltac fields := repeat split; cbn; first [reflexivity | congruence].

Lemma sameSession_refl n : sameSession n n.
Proof. split; reflexivity. Qed.

Lemma sameSession_trans n1 n2 n3 :
  sameSession n1 n2 -> sameSession n2 n3 -> sameSession n1 n3.
Proof. intros [a b c] [d e f]; split; congruence. Qed.

Lemma resetOctreePacket_same n : sameSession n (resetOctreePacket n).
Proof. unfold resetOctreePacket; destruct (_isShuttingDown n) eqn:E; fields. Qed.

Lemma resetOctreePacket_keeps n :
  _sequenceNumber (resetOctreePacket n) = _sequenceNumber n
  /\ stats (resetOctreePacket n) = stats n
  /\ nodeBag (resetOctreePacket n) = nodeBag n
  /\ map (resetOctreePacket n) = map n
  /\ _lastKnownViewFrustum (resetOctreePacket n) = _lastKnownViewFrustum n
  /\ _viewSent (resetOctreePacket n) = _viewSent n.
Proof.
  unfold resetOctreePacket; destruct (_isShuttingDown n) eqn:E; fields.
Qed.

Lemma resetOctreePacket_fresh n :
  _isShuttingDown n = false ->
  stamped (resetOctreePacket n) /\ isReset (resetOctreePacket n).
Proof.
  intros H; unfold resetOctreePacket, stamped, isReset; rewrite H; cbn.
  repeat split; reflexivity.
Qed.

Lemma resetOctreePacket_stamped n : stamped n -> stamped (resetOctreePacket n).
Proof.
  intros H; unfold resetOctreePacket.
  destruct (_isShuttingDown n); [exact H | reflexivity].
Qed.

Lemma writeToPacket_same buffer n : sameSession n (writeToPacket buffer n).
Proof.
  unfold writeToPacket; destruct (_isShuttingDown n) eqn:E; [fields|].
  match goal with |- context [if ?c then _ else _] => destruct c end; fields.
Qed.

Lemma writeToPacket_keeps buffer n :
  _sequenceNumber (writeToPacket buffer n) = _sequenceNumber n
  /\ packetSequence (_octreePacket (writeToPacket buffer n))
     = packetSequence (_octreePacket n)
  /\ nodeBag (writeToPacket buffer n) = nodeBag n.
Proof.
  unfold writeToPacket; destruct (_isShuttingDown n) eqn:E; [fields|].
  match goal with |- context [if ?c then _ else _] => destruct c end; fields.
Qed.

Lemma shouldSuppressDuplicatePacket_keeps n :
  let n' := fst (shouldSuppressDuplicatePacket n) in
  sameSession n n'
  /\ _sequenceNumber n' = _sequenceNumber n
  /\ _octreePacket n' = _octreePacket n
  /\ stats n' = stats n
  /\ nodeBag n' = nodeBag n
  /\ map n' = map n
  /\ _lastKnownViewFrustum n' = _lastKnownViewFrustum n
  /\ _viewSent n' = _viewSent n
  /\ _octreePacketWaiting n' = _octreePacketWaiting n
  /\ _octreePacketAvailableBytes n' = _octreePacketAvailableBytes n.
Proof.
  unfold shouldSuppressDuplicatePacket.
  destruct (_isShuttingDown n) eqn:E; [fields|].
  destruct (negb (_viewFrustumChanging n) && packetIsDuplicate n); fields.
Qed.

(** A duplicate of the last packet is suppressed while the view holds
    still, and counted. *)
Lemma duplicate_suppressed n :
  _isShuttingDown n = false ->
  _viewFrustumChanging n = false ->
  packetIsDuplicate n = true ->
  snd (shouldSuppressDuplicatePacket n) = true
  /\ _duplicatePacketCount (fst (shouldSuppressDuplicatePacket n))
     = _duplicatePacketCount n + 1.
Proof.
  intros Hd Hv Hp; unfold shouldSuppressDuplicatePacket.
  rewrite Hd, Hv, Hp; cbn; split; reflexivity.
Qed.

End Session_facts.

Section Run_facts.
Context {K : Carriers}.

Lemma countCalls_app p (a b : list Call) :
  countCalls p (a ++ b) = countCalls p a + countCalls p b.
Proof. unfold countCalls; rewrite filter_app, length_app; lia. Qed.

Lemma countCalls_nonneg p (cs : list Call) : 0 <= countCalls p cs.
Proof. unfold countCalls; lia. Qed.

Lemma countCalls_none p q (cs : list Call) :
  forallb q cs = true -> (forall c, q c = true -> p c = false) ->
  countCalls p cs = 0.
Proof.
  intros H Hpq; unfold countCalls.
  induction cs as [|c cs IH]; [reflexivity|].
  cbn in H; apply andb_true_iff in H as [Hc Hcs].
  cbn; rewrite (Hpq c Hc); auto.
Qed.

Lemma sequencesOf_app (a b : list Call) :
  sequencesOf (a ++ b) = sequencesOf a ++ sequencesOf b.
Proof.
  induction a as [|c a IH]; [reflexivity|].
  destruct c as [[] | | | | | |]; cbn; rewrite IH; reflexivity.
Qed.

Lemma descending_add base (j k : nat) :
  descending base (j + k) = descending (base + Z.of_nat j) k ++ descending base j.
Proof.
  induction k as [|k IH]; cbn [descending app].
  - rewrite Nat.add_0_r; reflexivity.
  - rewrite Nat.add_succ_r; cbn [descending]; rewrite IH.
    cbn [app]; f_equal; lia.
Qed.

Lemma grows_silent kind t t' : calls t' = calls t -> grows kind t t'.
Proof. intros H; exists []; split; [exact H | reflexivity]. Qed.

Lemma grows_refl kind t : grows kind t t.
Proof. apply grows_silent; reflexivity. Qed.

Lemma grows_trans kind t1 t2 t3 :
  grows kind t1 t2 -> grows kind t2 t3 -> grows kind t1 t3.
Proof.
  intros (a & Ha & Fa) (b & Hb & Fb); exists (b ++ a); split.
  - rewrite Hb, Ha, app_assoc; reflexivity.
  - rewrite forallb_app, Fa, Fb; reflexivity.
Qed.

Lemma grows_weaken (kind kind' : Call -> bool) t t' :
  (forall c, kind c = true -> kind' c = true) ->
  grows kind t t' -> grows kind' t t'.
Proof.
  intros H (a & Ha & Fa); exists a; split; [exact Ha|].
  apply forallb_forall; intros c Hc.
  apply H; exact (proj1 (forallb_forall kind a) Fa c Hc).
Qed.

Lemma grows_since kind p t t' :
  grows kind t t' -> (forall c, kind c = true -> p c = false) -> since p t t' = 0.
Proof.
  intros (a & Ha & Fa) H; unfold since.
  rewrite Ha, countCalls_app, (countCalls_none p kind a Fa H); lia.
Qed.

Lemma grows_since_nonneg kind p t t' : grows kind t t' -> 0 <= since p t t'.
Proof.
  intros (a & Ha & _); unfold since.
  rewrite Ha, countCalls_app; pose proof (countCalls_nonneg p a); lia.
Qed.

Lemma since_trans p t1 t2 t3 : since p t1 t3 = since p t1 t2 + since p t2 t3.
Proof. unfold since; lia. Qed.

Lemma quiet_refl n : quiet n n.
Proof. split; [apply sameSession_refl | reflexivity | auto]. Qed.

Lemma quiet_trans n1 n2 n3 : quiet n1 n2 -> quiet n2 n3 -> quiet n1 n3.
Proof.
  intros [s1 q1 st1] [s2 q2 st2]; split;
    [eapply sameSession_trans; eassumption | congruence | auto].
Qed.

Lemma numbered_refl t : numbered t t.
Proof.
  intros H; split; [exact H|]; exists O; cbn; split; [lia | reflexivity].
Qed.

Lemma numbered_trans t1 t2 t3 : numbered t1 t2 -> numbered t2 t3 -> numbered t1 t3.
Proof.
  intros H12 H23 H1.
  destruct (H12 H1) as (H2 & j & Hj & Sj).
  destruct (H23 H2) as (H3 & k & Hk & Sk).
  split; [exact H3|]; exists (j + k)%nat; split.
  - rewrite Hk, Hj, Nat2Z.inj_add; lia.
  - rewrite Sk, Sj, Hj, descending_add, app_assoc; reflexivity.
Qed.

Lemma follows_refl t : follows 0 t t.
Proof.
  split; [apply grows_refl | unfold since; lia | apply sameSession_refl
         | apply numbered_refl].
Qed.

Lemma follows_trans a b t1 t2 t3 :
  follows a t1 t2 -> follows b t2 t3 -> follows (a + b) t1 t3.
Proof.
  intros [g1 w1 s1 n1] [g2 w2 s2 n2]; split.
  - eapply grows_trans; eassumption.
  - rewrite (since_trans _ t1 t2 t3); lia.
  - eapply sameSession_trans; eassumption.
  - eapply numbered_trans; eassumption.
Qed.

(** A change of the session alone. *)
Lemma follows_onNode f t :
  quiet (nodeData t) (f (nodeData t)) -> follows 0 t (onNode f t).
Proof.
  intros [s q st]; split.
  - apply grows_silent; reflexivity.
  - unfold since; cbn; lia.
  - exact s.
  - intros H; split; [exact (st H)|]; exists O; cbn; split; [lia | reflexivity].
Qed.

Lemma follows_with_packetData p t : follows 0 t (with_packetData p t).
Proof.
  split; [apply grows_silent; reflexivity | unfold since; cbn; lia
         | apply sameSession_refl|].
  intros H; split; [exact H|]; exists O; cbn; split; [lia | reflexivity].
Qed.

(** A recorded call that is no datagram. *)
Lemma follows_did c t :
  ordinary c = true -> isWireUnit c = false -> follows 0 t (did c t).
Proof.
  intros Ho Hw; split.
  - exists [c]; split; [reflexivity | cbn; rewrite Ho; reflexivity].
  - unfold since, countCalls; cbn; rewrite Hw; lia.
  - apply sameSession_refl.
  - intros H; split; [exact H|]; exists O; split; [cbn; lia|].
    destruct c as [d | | | | | |]; try reflexivity; discriminate Hw.
Qed.

End Run_facts.

Section HandlePacketSend_facts.
Context {K : Carriers} {C : Collaborators}.

Ltac reset_facts :=
  match goal with
  | |- context [resetOctreePacket ?m] =>
      let Hs := fresh "Rs" in
      let Hk := fresh "Rk" in
      pose proof (resetOctreePacket_same m) as Hs;
      pose proof (resetOctreePacket_keeps m) as Hk;
      destruct Hs as [? ? ?];
      destruct Hk as (? & ? & ? & ? & ? & ?)
  end.

Ltac added_calls :=
  first [ exists []; repeat split; reflexivity
        | eexists [_]; repeat split; reflexivity
        | eexists [_; _]; repeat split; reflexivity ].

(** Every way through [handlePacketSend]: at most two wire units, each
    counted in the return value and in [truePacketsSent]. *)
Lemma handlePacketSend_effect t b p :
  let r := handlePacketSend t b p in
  0 <= packetsSent r <= 2
  /\ sentTruePackets r = p + packetsSent r
  /\ (exists added,
        calls (sentThread r) = added ++ calls t
        /\ forallb isOctreePacket added = true
        /\ Z.of_nat (length added) = packetsSent r)
  /\ sameSession (nodeData t) (nodeData (sentThread r))
  /\ untouched t (sentThread r).
Proof.
  cbv zeta; unfold handlePacketSend, transmit.
  destruct (isShuttingDown (nodeData t)) eqn:Hdown.
  { cbn; repeat split; try lia; try reflexivity; added_calls. }
  pose proof (shouldSuppressDuplicatePacket_keeps (nodeData t)) as Hk.
  cbv zeta in Hk.
  destruct (shouldSuppressDuplicatePacket (nodeData t)) as [n s] eqn:E.
  cbn [fst] in Hk.
  destruct Hk as ([Hq Hd Hc] & Hseq & Hpkt & Hst & Hbag & Hmap & Hlk & Hvs & Hw & Hav).
  destruct s.
  { reset_facts; repeat split; cbn; try lia; try congruence; added_calls. }
  cbn [nodeData with_nodeData].
  repeat match goal with |- context [if ?c then _ else _] => destruct c eqn:? end.
  all: cbn; try reset_facts; cbn in *.
  all: repeat split; cbn; try lia; try congruence; added_calls.
Qed.

Lemma isOctreePacket_ordinary c : isOctreePacket c = true -> ordinary c = true.
Proof. destruct c as [[] | | | | | |]; cbn; congruence. Qed.

Lemma isOctreePacket_wire c : isOctreePacket c = true -> isWireUnit c = true.
Proof. destruct c as [[] | | | | | |]; cbn; congruence. Qed.

Lemma countCalls_all p (cs : list Call) :
  forallb p cs = true -> countCalls p cs = Z.of_nat (length cs).
Proof.
  intros H; unfold countCalls; f_equal; f_equal.
  induction cs as [|c cs IH]; [reflexivity|].
  cbn in H; apply andb_true_iff in H as [Hc Hcs].
  cbn; rewrite Hc, (IH Hcs); reflexivity.
Qed.

Lemma forallb_weaken (p q : Call -> bool) (cs : list Call) :
  (forall c, p c = true -> q c = true) -> forallb p cs = true -> forallb q cs = true.
Proof.
  intros H Hp; apply forallb_forall; intros c Hc.
  apply H; exact (proj1 (forallb_forall p cs) Hp c Hc).
Qed.

Lemma handlePacketSend_since t b p :
  since isWireUnit t (sentThread (handlePacketSend t b p))
  = packetsSent (handlePacketSend t b p).
Proof.
  destruct (handlePacketSend_effect t b p) as (_ & _ & (a & Ha & Fa & La) & _).
  unfold since; rewrite Ha, countCalls_app, <- La.
  rewrite (countCalls_all isWireUnit a); [lia|].
  revert Fa; apply forallb_weaken, isOctreePacket_wire.
Qed.

Lemma handlePacketSend_grows t b p :
  grows isOctreePacket t (sentThread (handlePacketSend t b p)).
Proof.
  destruct (handlePacketSend_effect t b p) as (_ & _ & (a & Ha & Fa & _) & _).
  exists a; split; assumption.
Qed.

Lemma handlePacketSend_numbered t b p :
  numbered t (sentThread (handlePacketSend t b p)).
Proof.
  intros Hs; unfold handlePacketSend, transmit.
  destruct (isShuttingDown (nodeData t)) eqn:Hdown.
  { cbn; split; [exact Hs|]; exists O; cbn; split; [lia | reflexivity]. }
  pose proof (shouldSuppressDuplicatePacket_keeps (nodeData t)) as Hk.
  cbv zeta in Hk.
  destruct (shouldSuppressDuplicatePacket (nodeData t)) as [n s] eqn:E.
  cbn [fst] in Hk.
  destruct Hk as ([Hq Hd Hc] & Hseq & Hpkt & _).
  assert (Hn : stamped n) by (unfold stamped in *; congruence).
  assert (Hdn : _isShuttingDown n = false) by (unfold isShuttingDown in Hdown; congruence).
  destruct s.
  { destruct (resetOctreePacket_keeps n) as (Rseq & _).
    cbn; split; [apply resetOctreePacket_stamped, Hn|].
    exists O; cbn; split; [lia | reflexivity]. }
  cbn [nodeData with_nodeData].
  repeat match goal with |- context [if ?c then _ else _] => destruct c eqn:? end.
  4: { cbn; split; [exact Hn|]; exists O; cbn; split; [lia | reflexivity]. }
  all: cbn; reset_facts; cbn in *.
  all: split; [apply resetOctreePacket_fresh; cbn; exact Hdn|].
  all: exists 1%nat; cbn; split; [lia|].
  all: unfold stamped in *; rewrite Hpkt, Hs, Z.add_0_r; reflexivity.
Qed.

Lemma handlePacketSend_follows t b p :
  follows (packetsSent (handlePacketSend t b p)) t (sentThread (handlePacketSend t b p)).
Proof.
  split.
  - eapply grows_weaken; [apply isOctreePacket_ordinary | apply handlePacketSend_grows].
  - apply handlePacketSend_since.
  - apply handlePacketSend_effect.
  - apply handlePacketSend_numbered.
Qed.

(** One call of [handlePacketSend] on a packet that carries the session's
    sequence number: nothing is handed to the transport and the number
    stays (so when [shouldSuppressDuplicatePacket] answers true), or the
    packet is handed over under that number and the session is left one
    number further, with a fresh packet carrying the new number. *)
Lemma handlePacketSend_sequence t b p :
  stamped (nodeData t) ->
  let r := handlePacketSend t b p in
  let s := _sequenceNumber (nodeData t) in
  let s' := _sequenceNumber (nodeData (sentThread r)) in
  stamped (nodeData (sentThread r))
  /\ (snd (shouldSuppressDuplicatePacket (nodeData t)) = true ->
      s' = s /\ calls (sentThread r) = calls t)
  /\ ((calls (sentThread r) = calls t /\ s' = s /\ packetsSent r = 0)
      \/ (sequencesOf (calls (sentThread r)) = s :: sequencesOf (calls t)
          /\ s' = s + 1 /\ 1 <= packetsSent r)).
Proof.
  intros Hs; cbv zeta.
  split; [apply (handlePacketSend_numbered t b p Hs)|].
  unfold handlePacketSend, transmit.
  destruct (isShuttingDown (nodeData t)) eqn:Hdown.
  { cbn; split; [auto|left; auto]. }
  pose proof (shouldSuppressDuplicatePacket_keeps (nodeData t)) as Hk.
  cbv zeta in Hk.
  destruct (shouldSuppressDuplicatePacket (nodeData t)) as [n s] eqn:E.
  cbn [fst snd] in *.
  destruct Hk as ([Hq Hd Hc] & Hseq & Hpkt & _).
  destruct s.
  { destruct (resetOctreePacket_keeps n) as (Rseq & _).
    cbn; split; [intros _; split; [congruence | reflexivity]|].
    left; repeat split; congruence. }
  split; [discriminate|].
  cbn [nodeData with_nodeData].
  repeat match goal with |- context [if ?c then _ else _] => destruct c eqn:? end.
  4: { cbn; left; repeat split; congruence. }
  all: cbn; reset_facts; cbn in *; right.
  all: unfold stamped in Hs; rewrite Hpkt, Hs.
  all: repeat split; try lia; congruence.
Qed.

(** C4.  A call of [handlePacketSend] on a live session in which
    [shouldSuppressDuplicatePacket] answers true -- the packet repeats the
    last one while the view holds still -- discards the packet: the
    session is left with the reset packet, the call returns 0, the
    counters passed by reference stay, and no datagram is written. *)
Theorem duplicate_is_discarded t b p :
  isShuttingDown (nodeData t) = false ->
  snd (shouldSuppressDuplicatePacket (nodeData t)) = true ->
  let r := handlePacketSend t b p in
  packetsSent r = 0
  /\ calls (sentThread r) = calls t
  /\ nodeData (sentThread r)
     = resetOctreePacket (fst (shouldSuppressDuplicatePacket (nodeData t)))
  /\ isReset (nodeData (sentThread r))
  /\ sentTrueBytes r = b
  /\ sentTruePackets r = p.
Proof.
  intros Hdown Hsup; cbv zeta; unfold handlePacketSend; rewrite Hdown.
  pose proof (shouldSuppressDuplicatePacket_keeps (nodeData t)) as Hk.
  cbv zeta in Hk.
  destruct (shouldSuppressDuplicatePacket (nodeData t)) as [n s].
  cbn [fst snd] in *; subst s; cbn.
  destruct Hk as ([_ Hd _] & _).
  repeat split.
  all: apply resetOctreePacket_fresh; unfold isShuttingDown in Hdown; congruence.
Qed.

(** C9, as the code has it.  In [handlePacketSend], past the shutdown and
    duplicate checks: a statistics message that is ready is transmitted,
    the sequence number advances and the packet is reset, whether or not a
    packet was waiting.  With no statistics message ready, nothing is
    transmitted unless a packet is waiting, and a waiting packet is
    transmitted as one wire unit. *)
Theorem ready_stats_are_transmitted t b p :
  let r := handlePacketSend t b p in
  let s := _sequenceNumber (nodeData t) in
  let s' := _sequenceNumber (nodeData (sentThread r)) in
  (isShuttingDown (nodeData t) = false ->
   snd (shouldSuppressDuplicatePacket (nodeData t)) = false ->
   isReadyToSend (stats (nodeData t)) = true ->
   1 <= packetsSent r
   /\ since isWireUnit t (sentThread r) = packetsSent r
   /\ s' = s + 1
   /\ isReset (nodeData (sentThread r)))
  /\ (isReadyToSend (stats (nodeData t)) = false ->
      isPacketWaiting (nodeData t) = false ->
      packetsSent r = 0 /\ calls (sentThread r) = calls t /\ s' = s)
  /\ (isShuttingDown (nodeData t) = false ->
      snd (shouldSuppressDuplicatePacket (nodeData t)) = false ->
      isReadyToSend (stats (nodeData t)) = false ->
      isPacketWaiting (nodeData t) = true ->
      packetsSent r = 1
      /\ since isWireUnit t (sentThread r) = 1
      /\ s' = s + 1
      /\ isReset (nodeData (sentThread r))).
Proof.
  cbv zeta; rewrite handlePacketSend_since.
  unfold handlePacketSend, transmit.
  destruct (isShuttingDown (nodeData t)) eqn:Hdown.
  { cbn; repeat split; discriminate. }
  pose proof (shouldSuppressDuplicatePacket_keeps (nodeData t)) as Hk.
  cbv zeta in Hk.
  destruct (shouldSuppressDuplicatePacket (nodeData t)) as [n s].
  cbn [fst snd] in *.
  destruct Hk as ([Hq Hd Hc] & Hseq & Hpkt & Hst & _ & _ & _ & _ & Hw & _).
  assert (Hdn : _isShuttingDown n = false) by (unfold isShuttingDown in Hdown; congruence).
  destruct s.
  { destruct (resetOctreePacket_keeps n) as (Rseq & _).
    cbn; repeat split; try discriminate; congruence. }
  cbn [nodeData with_nodeData].
  unfold isShuttingDown, isPacketWaiting; rewrite Hst, Hw, Hdn; cbn [negb].
  destruct (isReadyToSend (stats (nodeData t))); cbn [andb].
  - split; [intros _ _ _ | split; discriminate].
    match goal with |- context [if ?c then _ else _] => destruct c end.
    all: cbn; reset_facts; cbn in *.
    all: repeat split; try lia; try congruence.
    all: apply resetOctreePacket_fresh; exact Hdn.
  - split; [discriminate|].
    destruct (_octreePacketWaiting (nodeData t)); cbn [andb].
    + split; [discriminate | intros _ _ _ _].
      cbn; reset_facts; cbn in *.
      repeat split; try lia; try congruence.
      all: apply resetOctreePacket_fresh; exact Hdn.
    + split; [intros _ _ | discriminate].
      cbn; repeat split; congruence.
Qed.

(** C10.  The duplicate check comes before the statistics check: when
    [shouldSuppressDuplicatePacket] answers true, a statistics message
    that is ready is neither sent nor marked as sent by this call, which
    writes no datagram and returns 0. *)
Theorem suppression_precedes_stats t b p :
  snd (shouldSuppressDuplicatePacket (nodeData t)) = true ->
  isReadyToSend (stats (nodeData t)) = true ->
  let r := handlePacketSend t b p in
  packetsSent r = 0
  /\ calls (sentThread r) = calls t
  /\ stats (nodeData (sentThread r)) = stats (nodeData t)
  /\ isReadyToSend (stats (nodeData (sentThread r))) = true.
Proof.
  intros Hsup Hready; cbv zeta; unfold handlePacketSend.
  destruct (isShuttingDown (nodeData t)); [cbn; auto|].
  pose proof (shouldSuppressDuplicatePacket_keeps (nodeData t)) as Hk.
  cbv zeta in Hk.
  destruct (shouldSuppressDuplicatePacket (nodeData t)) as [n s].
  cbn [fst snd] in *; subst s; cbn.
  destruct Hk as (_ & _ & _ & Hst & _).
  destruct (resetOctreePacket_keeps n) as (_ & Rst & _).
  repeat split; congruence.
Qed.

End HandlePacketSend_facts.

Section Distributor_facts.
Context {K : Carriers} {C : Collaborators}.

Ltac quiet_literal :=
  split; [split | | unfold stamped; cbn; auto]; cbn; first [reflexivity | congruence].

Lemma with_stats_quiet s n : quiet n (with_stats s n).
Proof. quiet_literal. Qed.

Lemma with_map_quiet m n : quiet n (with_map m n).
Proof. quiet_literal. Qed.

Lemma with_nodeBag_quiet bag n : quiet n (with_nodeBag bag n).
Proof. quiet_literal. Qed.

Lemma setLastTimeBagEmpty_quiet now n : quiet n (setLastTimeBagEmpty now n).
Proof. quiet_literal. Qed.

Lemma setLastRootTimestamp_quiet stamp n : quiet n (setLastRootTimestamp stamp n).
Proof. quiet_literal. Qed.

Lemma setViewSent_quiet v n : quiet n (setViewSent v n).
Proof. quiet_literal. Qed.

Lemma dumpOutOfView_quiet n : quiet n (dumpOutOfView n).
Proof. apply with_nodeBag_quiet. Qed.

Lemma updateLastKnownViewFrustum_quiet n : quiet n (updateLastKnownViewFrustum n).
Proof.
  unfold updateLastKnownViewFrustum; destruct (_isShuttingDown n) eqn:E;
    [apply quiet_refl | quiet_literal].
Qed.

Lemma resetOctreePacket_quiet n : quiet n (resetOctreePacket n).
Proof.
  split; [apply resetOctreePacket_same | apply resetOctreePacket_keeps
         | apply resetOctreePacket_stamped].
Qed.

Lemma writeToPacket_quiet buffer n : quiet n (writeToPacket buffer n).
Proof.
  destruct (writeToPacket_keeps buffer n) as (Hs & Hp & _).
  split; [apply writeToPacket_same | exact Hs | unfold stamped; congruence].
Qed.

Lemma steps_refl l : steps 0 l l.
Proof.
  exists 0; split; [lia|]; split; [apply follows_refl|]; split; lia.
Qed.

Lemma steps_trans a b l1 l2 l3 :
  steps a l1 l2 -> steps b l2 l3 -> steps (a + b) l1 l3.
Proof.
  intros (u & Hu & Fu & Pu & Tu) (v & Hv & Fv & Pv & Tv).
  exists (u + v); split; [lia|]; split; [apply (follows_trans Fu Fv)|]; split; lia.
Qed.

Lemma steps_weaken a b l l' : a <= b -> steps a l l' -> steps b l l'.
Proof.
  intros Hab (u & Hu & H); exists u; split; [lia | exact H].
Qed.

(** A change of the thread that writes nothing. *)
Lemma steps_thread t' l :
  follows 0 (thread l) t' -> steps 0 l (with_thread t' l).
Proof.
  intros H; exists 0; split; [lia|]; split; [exact H|]; cbn; split; lia.
Qed.

Lemma steps_extraPackingAttempts k l : steps 0 l (with_extraPackingAttempts k l).
Proof.
  exists 0; split; [lia|]; split; [apply follows_refl|]; cbn; split; lia.
Qed.

Lemma send_steps l : steps 2 l (send l).
Proof.
  pose proof (handlePacketSend_effect (thread l) (trueBytesSent l) (truePacketsSent l))
    as (Hb & Ht & _).
  exists (packetsSent (handlePacketSend (thread l) (trueBytesSent l) (truePacketsSent l))).
  split; [lia|]; split; [apply handlePacketSend_follows|]; cbn; split; lia.
Qed.

Lemma flushOnFormatChange_steps w l : steps 2 l (flushOnFormatChange w l).
Proof.
  unfold flushOnFormatChange.
  destruct (negb (getCurrentPacketFormatMatches (nodeData (thread l))));
    [|apply (steps_weaken (a := 0)); [lia | apply steps_refl]].
  change 2 with (2 + 0).
  eapply steps_trans; [|apply steps_thread, follows_with_packetData].
  destruct (isPacketWaiting (nodeData (thread l))); [apply send_steps|].
  apply (steps_weaken (a := 0)); [lia|].
  apply steps_thread, follows_onNode, resetOctreePacket_quiet.
Qed.

Lemma resetOnViewChange_follows v t : follows 0 t (resetOnViewChange v t).
Proof.
  unfold resetOnViewChange; destruct v; [|apply follows_refl].
  change 0 with (0 + (0 + 0)).
  eapply follows_trans;
    [|eapply follows_trans;
      [apply follows_onNode, with_map_quiet | apply follows_did; reflexivity]].
  destruct (moveShouldDump (nodeData t) || hasLodChanged (nodeData t));
    [|apply follows_refl].
  change 0 with (0 + 0).
  eapply follows_trans;
    [apply follows_onNode, dumpOutOfView_quiet | apply follows_did; reflexivity].
Qed.

Lemma restartScene_steps v f l : steps 2 l (restartScene v f l).
Proof.
  unfold restartScene.
  destruct (v || bag_isEmpty (nodeBag (nodeData (thread l))));
    [|apply (steps_weaken (a := 0)); [lia | apply steps_refl]].
  unfold dontRestartSceneOnMove; cbv zeta.
  change 2 with (0 + (2 + 0)).
  eapply steps_trans; [|eapply steps_trans].
  3: { apply steps_thread.
       change 0 with (0 + (0 + 0)).
       eapply follows_trans; [|eapply follows_trans].
       3: apply follows_onNode, with_nodeBag_quiet.
       2: apply follows_onNode, with_stats_quiet.
       destruct f; [|apply follows_refl].
       change 0 with (0 + 0).
       eapply follows_trans; [|apply follows_did; reflexivity].
       apply follows_onNode, with_nodeBag_quiet. }
  2: apply send_steps.
  apply steps_thread.
  change 0 with (0 + (0 + (0 + 0))).
  eapply follows_trans; [|eapply follows_trans; [|eapply follows_trans]].
  4: apply follows_onNode, setLastRootTimestamp_quiet.
  3: apply follows_onNode, with_stats_quiet.
  2: { match goal with |- context [if ?c then _ else _] => destruct c end;
         [apply follows_onNode, setLastTimeBagEmpty_quiet | apply follows_refl]. }
  apply resetOnViewChange_follows.
Qed.


Lemma since_did p c t : since p t (did c t) = if p c then 1 else 0.
Proof.
  unfold since, countCalls; cbn [calls did filter].
  destruct (p c); cbn [length]; lia.
Qed.

(** One encode: the thread after it, seen from the thread before. *)
Lemma encodeNext_thread c l :
  match nodeBag (nodeData (thread l)) with
  | subTree :: _ =>
      exists t1,
        calls t1 = calls (thread l)
        /\ quiet (nodeData (thread l)) (nodeData t1)
        /\ thread (fst (encodeNext c l))
           = onNode (fun n => with_stats (encodeStopped (stats n)) n)
                    (did (DidEncodeTreeBitstream subTree) t1)
  | [] => thread (fst (encodeNext c l)) = thread l
  end.
Proof.
  unfold encodeNext.
  destruct (nodeBag (nodeData (thread l))) as [|subTree rest]; [reflexivity|].
  cbv zeta; cbn [fst thread].
  eexists; split; [|split; [|reflexivity]]; [reflexivity|].
  cbn [nodeData with_packetData with_nodeData].
  destruct (getWantOcclusionCulling _); quiet_literal.
Qed.

Lemma follows_silent t t' :
  calls t' = calls t -> quiet (nodeData t) (nodeData t') -> follows 0 t t'.
Proof.
  intros Hc [s q st]; split.
  - apply grows_silent, Hc.
  - unfold since; rewrite Hc; lia.
  - exact s.
  - intros H; split; [exact (st H)|]; exists O; cbn [descending app Z.of_nat].
    rewrite Hc, q; split; [lia | reflexivity].
Qed.

Lemma encodeNext_steps c l : steps 0 l (fst (encodeNext c l)).
Proof.
  pose proof (encodeNext_thread c l) as H.
  assert (Hp : packetsSentThisInterval (fst (encodeNext c l)) = packetsSentThisInterval l
               /\ truePacketsSent (fst (encodeNext c l)) = truePacketsSent l).
  { unfold encodeNext; destruct (nodeBag (nodeData (thread l))); split; reflexivity. }
  exists 0; split; [lia|]; split; [|lia].
  destruct (nodeBag (nodeData (thread l))) as [|subTree rest].
  - rewrite H; apply follows_refl.
  - destruct H as (t1 & Hc & Hq & ->).
    change 0 with (0 + (0 + 0)).
    eapply follows_trans; [apply follows_silent; eassumption|].
    eapply follows_trans; [|apply follows_onNode, with_stats_quiet].
    apply follows_did; reflexivity.
Qed.

Lemma writeSegment_steps l : steps 2 l (writeSegment l).
Proof.
  unfold writeSegment.
  destruct (hasContent (_packetData (thread l)));
    [|apply (steps_weaken (a := 0)); [lia | apply steps_refl]].
  cbv zeta; change 2 with (2 + (0 + 0)).
  eapply steps_trans; [|eapply steps_trans].
  3: apply steps_extraPackingAttempts.
  2: apply steps_thread, follows_onNode, writeToPacket_quiet.
  match goal with |- context [if ?c then _ else _] => destruct c end;
    [apply send_steps | apply (steps_weaken (a := 0)); [lia | apply steps_refl]].
Qed.

Lemma sendOrPackMore_steps c l : steps 2 l (sendOrPackMore c l).
Proof.
  unfold sendOrPackMore; cbv zeta.
  match goal with |- context [if ?c then _ else _] => destruct c end; cbv beta iota.
  - change 2 with (2 + 0).
    eapply steps_trans; [apply send_steps|].
    apply steps_thread, follows_with_packetData.
  - apply (steps_weaken (a := 0)); [lia|].
    apply steps_thread, follows_with_packetData.
Qed.

Lemma packingStep_steps c l : steps 4 l (packingStep c l).
Proof.
  unfold packingStep.
  pose proof (encodeNext_steps c l) as H.
  destruct (encodeNext c l) as [l1 flag]; cbn [fst] in H.
  destruct (completedScene l1 || flag).
  - change 4 with (0 + (2 + 2)).
    eapply steps_trans; [exact H|].
    eapply steps_trans; [apply writeSegment_steps | apply sendOrPackMore_steps].
  - apply (steps_weaken (a := 0)); [lia | exact H].
Qed.

(** The packing loop starts an iteration only below the budget, and an
    iteration writes at most four wire units. *)
Lemma packingLoop_steps fuel budget c l :
  exists k,
    steps k l (fst (packingLoop fuel budget c l))
    /\ packetsSentThisInterval (fst (packingLoop fuel budget c l))
       <= Z.max (packetsSentThisInterval l) (budget + 3).
Proof.
  revert l; induction fuel as [|fuel IH]; intros l; cbn [packingLoop].
  - exists 0; destruct (packingContinues budget l); cbn [fst];
      (split; [apply steps_refl | lia]).
  - destruct (packingContinues budget l) eqn:Hc; cbn [fst];
      [|exists 0; split; [apply steps_refl | lia]].
    destruct (IH (packingStep c l)) as (k & Hk & Hb).
    pose proof (packingStep_steps c l) as Hs.
    exists (4 + k); split; [eapply steps_trans; eassumption|].
    destruct Hs as (w & Hw & _ & Hp & _).
    unfold packingContinues in Hc.
    apply andb_true_iff in Hc as [Hc _]; apply andb_true_iff in Hc as [_ Hc].
    apply Z.ltb_lt in Hc; lia.
Qed.

Lemma beforePacking_steps c t :
  steps 4 {| thread := t; trueBytesSent := 0; truePacketsSent := 0;
             packetsSentThisInterval := 0; somethingToSend := true;
             bytesWritten := 0; extraPackingAttempts := 0;
             completedScene := false |}
        (beforePacking c t).
Proof.
  unfold beforePacking; cbv zeta; change 4 with (2 + 2).
  eapply steps_trans; [apply flushOnFormatChange_steps | apply restartScene_steps].
Qed.

End Distributor_facts.

Section Distributor_theorems.
Context {K : Carriers} {C : Collaborators}.

Lemma countCalls_split (cs : list Call) :
  countCalls isWireUnit cs = countCalls isOctreePacket cs + countCalls isSpecialPacket cs.
Proof.
  unfold countCalls; induction cs as [|c cs IH]; [reflexivity|].
  destruct c as [[] | | | | | |]; cbn [filter isWireUnit isOctreePacket isSpecialPacket
                                             andb negb length] in *; lia.
Qed.

Lemma since_split t t' :
  since isWireUnit t t' = since isOctreePacket t t' + since isSpecialPacket t t'.
Proof. unfold since; rewrite !countCalls_split; lia. Qed.

Lemma ordinary_not_special c : ordinary c = true -> isSpecialPacket c = false.
Proof. unfold ordinary; destruct (isSpecialPacket c); cbn; congruence. Qed.

Lemma ordinary_not_snapshot c : ordinary c = true -> isSnapshot c = false.
Proof.
  unfold ordinary; destruct (isSnapshot c), (isSpecialPacket c); cbn; congruence.
Qed.

Lemma since_added p added t t' :
  calls t' = added ++ calls t -> since p t t' = countCalls p added.
Proof. intros H; unfold since; rewrite H, countCalls_app; lia. Qed.

Ltac count_added added :=
  rewrite (since_added _ added) by reflexivity; reflexivity.

(** What [sendSpecial] does: nothing, or one special packet. *)
Lemma sendSpecial_effect l :
  (sendSpecial l = l)
  \/ (exists special pending,
        specialPackets (thread l) = special :: pending
        /\ thread (sendSpecial l)
           = did (DidCallWriteDatagram (SpecialPacket special))
                 (with_specialPackets pending (thread l))
        /\ packetsSentThisInterval (sendSpecial l) = packetsSentThisInterval l + 1
        /\ truePacketsSent (sendSpecial l) = truePacketsSent l + 1).
Proof.
  unfold sendSpecial.
  destruct (specialPackets (thread l)) as [|special pending]; [left; reflexivity|].
  destruct (negb (isShuttingDown (nodeData (thread l)))); [|left; reflexivity].
  right; exists special, pending; repeat split.
Qed.

Lemma sendSpecial_counts l :
  exists w,
    0 <= w <= 1
    /\ since isWireUnit (thread l) (thread (sendSpecial l)) = w
    /\ since isSpecialPacket (thread l) (thread (sendSpecial l)) = w
    /\ since isSnapshot (thread l) (thread (sendSpecial l)) = 0
    /\ packetsSentThisInterval (sendSpecial l) = packetsSentThisInterval l + w
    /\ truePacketsSent (sendSpecial l) = truePacketsSent l + w
    /\ nodeData (thread (sendSpecial l)) = nodeData (thread l)
    /\ grows (fun _ => true) (thread l) (thread (sendSpecial l)).
Proof.
  destruct (sendSpecial_effect l) as [-> | (special & pending & _ & Ht & Hp & Htp)].
  - exists 0; unfold since; repeat split; try lia; apply grows_refl.
  - exists 1; rewrite Ht, Hp, Htp.
    repeat split; try lia;
      try count_added [DidCallWriteDatagram (SpecialPacket special)].
    exists [DidCallWriteDatagram (SpecialPacket special)]; split; reflexivity.
Qed.

(** What [sceneSent] does when the bag is empty. *)
Lemma sceneSent_empty t :
  nodeBag (nodeData t) = [] ->
  calls (sceneSent t)
  = DidMapErase :: DidSetViewSent true :: DidUpdateLastKnownViewFrustum :: calls t
  /\ nodeData (sceneSent t)
     = with_map (erase (map (setViewSent true (updateLastKnownViewFrustum (nodeData t)))))
                (setViewSent true (updateLastKnownViewFrustum (nodeData t))).
Proof. intros H; unfold sceneSent; rewrite H; cbn; split; reflexivity. Qed.

Lemma sceneSent_bag t : nodeBag (nodeData (sceneSent t)) = nodeBag (nodeData t).
Proof.
  unfold sceneSent; destruct (bag_isEmpty (nodeBag (nodeData t))); [|reflexivity].
  cbn; unfold updateLastKnownViewFrustum; destruct (_isShuttingDown _); reflexivity.
Qed.

Lemma sceneSent_counts t :
  since isWireUnit t (sceneSent t) = 0
  /\ since isSpecialPacket t (sceneSent t) = 0
  /\ since isSnapshot t (sceneSent t)
     = (if bag_isEmpty (nodeBag (nodeData t)) then 1 else 0)
  /\ grows (fun _ => true) t (sceneSent t).
Proof.
  unfold sceneSent; destruct (bag_isEmpty (nodeBag (nodeData t))).
  - repeat split;
      try count_added [DidMapErase; DidSetViewSent true; DidUpdateLastKnownViewFrustum].
    exists [DidMapErase; DidSetViewSent true; DidUpdateLastKnownViewFrustum];
      split; reflexivity.
  - unfold since; repeat split; try lia; apply grows_refl.
Qed.

(** The budget does not move during a call. *)
Lemma maxPacketsPerInterval_same n n' :
  sameSession n n' -> maxPacketsPerInterval n' = maxPacketsPerInterval n.
Proof.
  intros [q _ _]; unfold maxPacketsPerInterval, clientMaxPacketsPerInterval.
  rewrite q; reflexivity.
Qed.

(** The function up to the end of its packing loop. *)
Lemma packing_steps fuel t changed :
  let c := cycleOf changed (nodeData t) in
  let l := fst (packingLoop fuel (maxPacketsPerInterval (nodeData t)) c
                            (beforePacking c t)) in
  exists w,
    0 <= w <= Z.max 4 (maxPacketsPerInterval (nodeData t) + 3)
    /\ follows w t (thread l)
    /\ packetsSentThisInterval l = w
    /\ truePacketsSent l = w.
Proof.
  cbv zeta.
  set (c := cycleOf changed (nodeData t)).
  pose proof (beforePacking_steps c t) as (u & Hu & Fu & Pu & Tu).
  destruct (packingLoop_steps fuel (maxPacketsPerInterval (nodeData t)) c
                              (beforePacking c t))
    as (k & (v & Hv & Fv & Pv & Tv) & Hb).
  cbn [thread packetsSentThisInterval truePacketsSent] in *.
  exists (u + v); split; [lia|]; split; [apply (follows_trans Fu Fv)|]; lia.
Qed.


Lemma bag_insert_nonempty e bag : bag_isEmpty (bag_insert e bag) = false.
Proof.
  unfold bag_insert; destruct (existsb (N.eqb e) bag) eqn:E.
  - destruct bag; [discriminate E | reflexivity].
  - destruct bag; reflexivity.
Qed.

Lemma send_thread l :
  grows isOctreePacket (thread l) (thread (send l))
  /\ untouched (thread l) (thread (send l))
  /\ sameSession (nodeData (thread l)) (nodeData (thread (send l))).
Proof.
  pose proof (handlePacketSend_effect (thread l) (trueBytesSent l) (truePacketsSent l))
    as (_ & _ & _ & Hs & Hu).
  split; [apply handlePacketSend_grows | split; assumption].
Qed.

Lemma isOctreePacket_only c :
  isOctreePacket c = true ->
  isMapErase c = false /\ isDumpOutOfView c = false /\ isDeleteAll c = false
  /\ isEncode c = false /\ isSnapshot c = false /\ isSpecialPacket c = false.
Proof. destruct c as [[] | | | | | |]; cbn; intros; repeat split; congruence. Qed.

Lemma resetOnViewChange_effect v t :
  let n := nodeData t in
  let t' := resetOnViewChange v t in
  let qualifies := v && (moveShouldDump n || hasLodChanged n) in
  since isMapErase t t' = (if v then 1 else 0)
  /\ since isDumpOutOfView t t' = (if qualifies then 1 else 0)
  /\ since isDeleteAll t t' = 0
  /\ map (nodeData t') = (if v then erase (map n) else map n)
  /\ nodeBag (nodeData t') = (if qualifies then [] else nodeBag n).
Proof.
  cbv zeta; unfold resetOnViewChange.
  destruct v; cbn [andb]; [|unfold since; repeat split; lia].
  destruct (moveShouldDump (nodeData t) || hasLodChanged (nodeData t)).
  - repeat split; count_added [DidMapErase; DidDumpOutOfView].
  - repeat split; count_added [DidMapErase].
Qed.

(** The scene restart of lines 299-348: which resets it calls, and the
    coverage map and the bag it leaves. *)
Lemma restartScene_effect v f l :
  let t := thread l in
  let n := nodeData t in
  v || bag_isEmpty (nodeBag n) = true ->
  let t' := thread (restartScene v f l) in
  let qualifies := v && (moveShouldDump n || hasLodChanged n) in
  since isMapErase t t' = (if v then 1 else 0)
  /\ since isDumpOutOfView t t' = (if qualifies then 1 else 0)
  /\ since isDeleteAll t t' = (if f then 1 else 0)
  /\ map (nodeData t') = (if v then erase (map n) else map n)
  /\ nodeBag (nodeData t')
     = bag_insert getRoot (if f || qualifies then [] else nodeBag n).
Proof.
  cbv zeta; intros Hb.
  destruct (resetOnViewChange_effect v (thread l)) as (Em & Ed & Ea & Emap & Ebag).
  cbv zeta in *.
  unfold restartScene; rewrite Hb; unfold dontRestartSceneOnMove; cbv zeta.
  set (t0 := resetOnViewChange v (thread l)) in *.
  match goal with |- context [send ?x] => set (l1 := x) end.
  assert (H1 : calls (thread l1) = calls t0
               /\ map (nodeData (thread l1)) = map (nodeData t0)
               /\ nodeBag (nodeData (thread l1)) = nodeBag (nodeData t0)).
  { subst l1; cbn [thread with_thread].
    match goal with |- context [if ?c then _ else _] => destruct c end;
      repeat split. }
  destruct H1 as (Hc1 & Hm1 & Hb1).
  destruct (send_thread l1) as ((added & Hc2 & Fa) & [Ub Um _ _ _ _] & _).
  set (t2 := thread (send l1)) in *.
  assert (Hsince : forall p, (forall c, isOctreePacket c = true -> p c = false) ->
                             since p (thread l) t2 = since p (thread l) t0).
  { intros p Hp; unfold since; rewrite Hc2, countCalls_app, Hc1.
    rewrite (countCalls_none p isOctreePacket added Fa Hp); lia. }
  assert (HM := Hsince isMapErase (fun c H => proj1 (isOctreePacket_only c H))).
  assert (HD := Hsince isDumpOutOfView
                       (fun c H => proj1 (proj2 (isOctreePacket_only c H)))).
  assert (HA := Hsince isDeleteAll
                       (fun c H => proj1 (proj2 (proj2 (isOctreePacket_only c H))))).
  cbn [thread with_thread]; clearbody t2 l1 t0.
  destruct f; cbn [orb].
  - rewrite (since_trans isMapErase (thread l) t2), (since_trans isDumpOutOfView (thread l) t2),
      (since_trans isDeleteAll (thread l) t2), HM, HD, HA, Em, Ed, Ea.
    repeat split; try (rewrite (since_added _ [DidDeleteAll]) by reflexivity; cbn; lia).
    cbn; congruence.
  - rewrite (since_trans isMapErase (thread l) t2), (since_trans isDumpOutOfView (thread l) t2),
      (since_trans isDeleteAll (thread l) t2), HM, HD, HA, Em, Ed, Ea.
    repeat split; try (rewrite (since_added _ []) by reflexivity; cbn; lia).
    + cbn; congruence.
    + cbn; congruence.
Qed.

Lemma restartScene_bag v f l :
  bag_isEmpty (nodeBag (nodeData (thread (restartScene v f l)))) = false.
Proof.
  unfold restartScene.
  destruct (v || bag_isEmpty (nodeBag (nodeData (thread l)))) eqn:E.
  - unfold dontRestartSceneOnMove; cbv zeta; cbn [thread with_thread nodeData onNode
                                                    with_nodeData nodeBag with_nodeBag].
    apply bag_insert_nonempty.
  - apply orb_false_iff in E as [_ E]; exact E.
Qed.

Lemma restartScene_locals v f l :
  somethingToSend (restartScene v f l) = somethingToSend l.
Proof.
  unfold restartScene.
  destruct (v || bag_isEmpty (nodeBag (nodeData (thread l)))); reflexivity.
Qed.

Lemma flushOnFormatChange_locals w l :
  somethingToSend (flushOnFormatChange w l) = somethingToSend l
  /\ nodeBag (nodeData (thread (flushOnFormatChange w l))) = nodeBag (nodeData (thread l)).
Proof.
  unfold flushOnFormatChange.
  destruct (negb (getCurrentPacketFormatMatches (nodeData (thread l))));
    [|split; reflexivity].
  destruct (isPacketWaiting (nodeData (thread l))); cbv zeta; cbn.
  - split; [reflexivity|].
    apply (handlePacketSend_effect (thread l) (trueBytesSent l) (truePacketsSent l)).
  - split; [reflexivity | apply resetOctreePacket_keeps].
Qed.

(** The function on a live session: the bag is not empty when the packing
    loop is reached, and the call ends with the special packet and the
    snapshot when the loop comes to its end. *)
Lemma packetDistributor_alive fuel t changed :
  isShuttingDown (nodeData t) = false ->
  let c := cycleOf changed (nodeData t) in
  let run := packingLoop fuel (maxPacketsPerInterval (nodeData t)) c (beforePacking c t) in
  packetDistributor fuel t changed
  = if snd run then
      {| distributedThread := sceneSent (thread (sendSpecial (fst run)));
         returned := truePacketsSent (sendSpecial (fst run));
         sentThisInterval := packetsSentThisInterval (sendSpecial (fst run));
         finished := true |}
    else
      {| distributedThread := thread (fst run);
         returned := truePacketsSent (fst run);
         sentThisInterval := packetsSentThisInterval (fst run);
         finished := false |}.
Proof.
  intros Hd; cbv zeta; unfold packetDistributor; rewrite Hd.
  set (c := cycleOf changed (nodeData t)).
  unfold beforePacking at 1; cbv zeta; rewrite restartScene_bag; cbn [negb].
  destruct (beforePacking_steps c t) as (_ & _ & [_ _ Hs _] & _).
  cbn [thread] in Hs; rewrite (maxPacketsPerInterval_same Hs).
  destruct (packingLoop fuel (maxPacketsPerInterval (nodeData t)) c (beforePacking c t))
    as [l done]; reflexivity.
Qed.

(** C1, as the code has it.  The packing loop starts an iteration only
    while the call has sent fewer than [maxPacketsPerInterval] packets, the
    client's share being max(1, packets per second / intervals per second);
    the sends before the loop are not held against the budget, and one
    send may put out two wire units (the statistics message ahead of the
    packet).  So a call writes at most max(4, maxPacketsPerInterval + 3)
    wire units through [handlePacketSend], and at most one special packet;
    the value it returns counts them all. *)
Theorem packets_per_call_bounded fuel t changed :
  let r := packetDistributor fuel t changed in
  since isOctreePacket t (distributedThread r)
    <= Z.max 4 (maxPacketsPerInterval (nodeData t) + 3)
  /\ since isSpecialPacket t (distributedThread r) <= 1
  /\ returned r = since isWireUnit t (distributedThread r)
  /\ sentThisInterval r = returned r.
Proof.
  cbv zeta.
  destruct (isShuttingDown (nodeData t)) eqn:Hd.
  { unfold packetDistributor; rewrite Hd; cbn; unfold since; lia. }
  rewrite packetDistributor_alive by exact Hd.
  destruct (packing_steps fuel t changed) as (w & Hw & [Hg Hwire _ _] & Hp & Ht).
  cbv zeta in *.
  set (l := fst (packingLoop fuel _ _ _)) in *; clearbody l.
  assert (Hsp : since isSpecialPacket t (thread l) = 0)
    by (apply (grows_since (kind := ordinary)); [exact Hg | apply ordinary_not_special]).
  pose proof (since_split t (thread l)) as Hsplit.
  match goal with |- context [if ?c then _ else _] => destruct c end; cbn.
  - destruct (sendSpecial_counts l) as (v & Hv & Hvw & Hvs & _ & Hvp & Hvt & _).
    destruct (sceneSent_counts (thread (sendSpecial l))) as (Sw & Ss & _).
    pose proof (since_split (thread l) (thread (sendSpecial l))).
    pose proof (since_split (thread (sendSpecial l)) (sceneSent (thread (sendSpecial l)))).
    rewrite (since_trans isOctreePacket t (thread l)),
      (since_trans isOctreePacket (thread l) (thread (sendSpecial l))),
      (since_trans isSpecialPacket t (thread l)),
      (since_trans isSpecialPacket (thread l) (thread (sendSpecial l))),
      (since_trans isWireUnit t (thread l)),
      (since_trans isWireUnit (thread l) (thread (sendSpecial l))).
    lia.
  - lia.
Qed.


(** C7.  A call on a live session reaches its packing loop with a bag that
    is not empty.  When the call comes to its end with the bag empty, it
    has taken the snapshot of the view exactly once:
    [_lastKnownViewFrustum] is the current view, the view is marked as
    sent, and the coverage map is erased, in this order and as the last
    things the call does. *)
Theorem scene_completion_snapshot fuel t changed :
  isShuttingDown (nodeData t) = false ->
  let r := packetDistributor fuel t changed in
  let n' := nodeData (distributedThread r) in
  finished r = true ->
  nodeBag n' = [] ->
  bag_isEmpty (nodeBag (nodeData (thread
     (beforePacking (cycleOf changed (nodeData t)) t)))) = false
  /\ since isSnapshot t (distributedThread r) = 1
  /\ _lastKnownViewFrustum n' = _currentViewFrustum n'
  /\ _currentViewFrustum n' = _currentViewFrustum (nodeData t)
  /\ _viewSent n' = true
  /\ (exists m, map n' = erase m)
  /\ (exists before,
        calls (distributedThread r)
        = DidMapErase :: DidSetViewSent true :: DidUpdateLastKnownViewFrustum :: before).
Proof.
  intros Hd; cbv zeta; intros Hfin Hempty.
  split; [unfold beforePacking; cbv zeta; apply restartScene_bag|].
  revert Hfin Hempty; rewrite packetDistributor_alive by exact Hd.
  destruct (packing_steps fuel t changed) as (w & _ & [Hg _ [_ Hdown Hcur] _] & _).
  cbv zeta in *.
  set (l := fst (packingLoop fuel _ _ _)) in *; clearbody l.
  match goal with |- context [if ?c then _ else _] => destruct c end;
    cbn [finished distributedThread]; [intros _ Hbag | discriminate].
  rewrite sceneSent_bag in Hbag.
  destruct (sendSpecial_counts l) as (_ & _ & _ & _ & Hsnap & _ & _ & Hn & _).
  destruct (sceneSent_counts (thread (sendSpecial l))) as (_ & _ & Hone & _).
  destruct (sceneSent_empty _ Hbag) as (Hcalls & Hnode).
  rewrite Hbag in Hone; cbn [bag_isEmpty] in Hone.
  rewrite Hnode, Hcalls, Hn.
  assert (Halive : _isShuttingDown (nodeData (thread l)) = false)
    by (unfold isShuttingDown in Hd; congruence).
  unfold updateLastKnownViewFrustum; rewrite Halive; cbn.
  repeat split; try congruence; try (eexists; reflexivity).
  rewrite (since_trans isSnapshot t (thread l)),
    (since_trans isSnapshot (thread l) (thread (sendSpecial l))), Hsnap, Hone.
  rewrite (grows_since (kind := ordinary) isSnapshot Hg ordinary_not_snapshot); lia.
Qed.

Lemma tail_grows l :
  grows (fun _ => true) (thread l) (sceneSent (thread (sendSpecial l))).
Proof.
  destruct (sendSpecial_counts l) as (_ & _ & _ & _ & _ & _ & _ & _ & G1).
  destruct (sceneSent_counts (thread (sendSpecial l))) as (_ & _ & _ & G2).
  exact (grows_trans G1 G2).
Qed.

(** C5, as the code has it.  An empty bag is where a scene starts again,
    also when the view has not changed: a call on a live session with an
    empty bag and an unchanged view puts the tree root into the bag, and,
    given a budget of one packet or more, it sends at least one packet or
    calls the encoder at least once. *)
Theorem empty_bag_restarts_the_scene fuel t :
  isShuttingDown (nodeData t) = false ->
  nodeBag (nodeData t) = [] ->
  1 <= maxPacketsPerInterval (nodeData t) ->
  let r := packetDistributor (S fuel) t false in
  nodeBag (nodeData (thread (beforePacking (cycleOf false (nodeData t)) t))) = [getRoot]
  /\ (1 <= since isEncode t (distributedThread r) \/ 1 <= returned r).
Proof.
  intros Hd Hbag HB; cbv zeta.
  set (c := cycleOf false (nodeData t)).
  pose proof (beforePacking_steps c t) as (u & Hu & [Hg _ [_ Hdown _] _] & Hp & Ht).
  cbn [thread packetsSentThisInterval truePacketsSent] in *.
  assert (Hroot : nodeBag (nodeData (thread (beforePacking c t))) = [getRoot]
                  /\ somethingToSend (beforePacking c t) = true).
  { unfold beforePacking; cbv zeta.
    set (l0 := {| thread := t; trueBytesSent := 0 |}).
    destruct (flushOnFormatChange_locals (wantCompression c) l0) as (Hs & Hb).
    cbn [thread nodeData l0] in Hb.
    rewrite restartScene_locals, Hs; split; [|reflexivity].
    destruct (restartScene_effect (viewFrustumChanged c) (fullScene c)
                                  (flushOnFormatChange (wantCompression c) l0))
      as (_ & _ & _ & _ & E).
    - rewrite Hb, Hbag; reflexivity.
    - rewrite E, Hb, Hbag.
      destruct (fullScene c || _); reflexivity. }
  destruct Hroot as (Hroot & Hsome).
  split; [exact Hroot|].
  rewrite packetDistributor_alive by exact Hd; cbv zeta; fold c.
  cbn [packingLoop]; unfold packingContinues.
  rewrite Hsome; unfold isShuttingDown in *; rewrite Hdown, Hd; cbn [andb negb].
  rewrite Hp, Z.add_0_l, andb_true_r.
  destruct (u <? maxPacketsPerInterval (nodeData t)) eqn:Hlt.
  - (* the loop runs: the root is encoded *)
    left.
    assert (Henc : 1 <= since isEncode (thread (beforePacking c t))
                                       (thread (packingStep c (beforePacking c t)))).
    { unfold packingStep.
      pose proof (encodeNext_thread c (beforePacking c t)) as Hth.
      rewrite Hroot in Hth; destruct Hth as (t1 & Hc1 & _ & Hth).
      destruct (encodeNext c (beforePacking c t)) as [la flag]; cbn [fst] in Hth.
      assert (Hla : since isEncode (thread (beforePacking c t)) (thread la) = 1).
      { rewrite Hth, (since_added _ [DidEncodeTreeBitstream getRoot]); [reflexivity|].
        cbn; rewrite Hc1; reflexivity. }
      destruct (completedScene la || flag); [|lia].
      pose proof (steps_trans (writeSegment_steps la)
                              (sendOrPackMore_steps c (writeSegment la)))
        as (_ & _ & [Hg2 _ _ _] & _).
      pose proof (grows_since_nonneg isEncode Hg2); unfold since in *; lia. }
    destruct (packingLoop_steps fuel (maxPacketsPerInterval (nodeData t)) c
                                (packingStep c (beforePacking c t)))
      as (_ & (_ & _ & [Hg3 _ _ _] & _) & _).
    set (l := fst (packingLoop fuel _ _ _)) in *; clearbody l.
    pose proof (grows_since_nonneg isEncode Hg).
    pose proof (grows_since_nonneg isEncode Hg3).
    pose proof (grows_since_nonneg isEncode (tail_grows l)).
    match goal with |- context [if ?c then _ else _] => destruct c end;
      cbn [distributedThread].
    + unfold since in *; lia.
    + unfold since in *; lia.
  - (* the sends before the loop used the budget up *)
    right; cbn [fst snd returned].
    apply Z.ltb_ge in Hlt.
    destruct (sendSpecial_counts (beforePacking c t)) as (v & Hv & _ & _ & _ & _ & Hvt & _).
    lia.
Qed.

Lemma numbered_silent t t' :
  sequencesOf (calls t') = sequencesOf (calls t) ->
  quiet (nodeData t) (nodeData t') -> numbered t t'.
Proof.
  intros Hc [s q st] H; split; [exact (st H)|].
  exists O; cbn [descending app Z.of_nat]; rewrite Hc, q; split; [lia | reflexivity].
Qed.

(** The sequence numbers over a whole call of [packetDistributor]: the
    packets it hands to the transport carry the numbers that follow the
    session's at the start, one by one, and the call leaves a packet
    carrying the next number. *)
Lemma packetDistributor_numbered fuel t changed :
  numbered t (distributedThread (packetDistributor fuel t changed)).
Proof.
  destruct (isShuttingDown (nodeData t)) eqn:Hd.
  { unfold packetDistributor; rewrite Hd; apply numbered_refl. }
  rewrite packetDistributor_alive by exact Hd.
  destruct (packing_steps fuel t changed) as (w & _ & [_ _ _ Hn] & _).
  cbv zeta in *.
  set (l := fst (packingLoop fuel _ _ _)) in *; clearbody l.
  match goal with |- context [if ?c then _ else _] => destruct c end;
    cbn [distributedThread]; [|exact Hn].
  eapply numbered_trans; [exact Hn|].
  apply numbered_trans with (t2 := thread (sendSpecial l)).
  - apply numbered_silent.
    + destruct (sendSpecial_effect l) as [-> | (sp & pend & _ & -> & _)]; reflexivity.
    + destruct (sendSpecial_counts l) as (_ & _ & _ & _ & _ & _ & _ & -> & _).
      apply quiet_refl.
  - unfold sceneSent.
    destruct (bag_isEmpty _); [|apply numbered_refl].
    apply numbered_silent; [reflexivity|].
    cbn [nodeData did onNode with_nodeData].
    eapply quiet_trans; [apply updateLastKnownViewFrustum_quiet|].
    eapply quiet_trans; [apply setViewSent_quiet | apply with_map_quiet].
Qed.

Lemma packetDistributor_shutting_down fuel t changed :
  isShuttingDown (nodeData t) = true ->
  packetDistributor fuel t changed
  = {| distributedThread := t; returned := 0; sentThisInterval := 0; finished := true |}.
Proof. intros H; unfold packetDistributor; rewrite H; reflexivity. Qed.

(** C3.  Within one session the sequence number advances only with a
    transmission, and then by exactly one.  A call of [handlePacketSend]
    whose packet carries the session's sequence number either hands
    nothing to the transport and leaves the number as it is -- so when
    [shouldSuppressDuplicatePacket] answers true -- or hands that packet
    over under that number and leaves the session one number further, with
    a fresh packet carrying the new number.  Over a whole call of
    [packetDistributor] the packets handed over carry the numbers s, s+1,
    ..., s+k-1 from the session's number s on, and the session is left at
    s+k with its packet carrying that number, ready for the next call. *)
Theorem sequence_advances_with_transmission :
  (forall t b p,
      stamped (nodeData t) ->
      let r := handlePacketSend t b p in
      let s := _sequenceNumber (nodeData t) in
      let s' := _sequenceNumber (nodeData (sentThread r)) in
      stamped (nodeData (sentThread r))
      /\ (snd (shouldSuppressDuplicatePacket (nodeData t)) = true ->
          s' = s /\ calls (sentThread r) = calls t)
      /\ ((calls (sentThread r) = calls t /\ s' = s /\ packetsSent r = 0)
          \/ (sequencesOf (calls (sentThread r)) = s :: sequencesOf (calls t)
              /\ s' = s + 1 /\ 1 <= packetsSent r)))
  /\ (forall fuel t changed,
         stamped (nodeData t) ->
         let t' := distributedThread (packetDistributor fuel t changed) in
         let s := _sequenceNumber (nodeData t) in
         stamped (nodeData t')
         /\ exists k : nat,
             _sequenceNumber (nodeData t') = s + Z.of_nat k
             /\ sequencesOf (calls t') = descending s k ++ sequencesOf (calls t)).
Proof.
  split.
  - exact handlePacketSend_sequence.
  - intros fuel t changed H; exact (packetDistributor_numbered fuel t changed H).
Qed.

End Distributor_theorems.

Section Decisions.
Context {K : Carriers} {C : Collaborators}.

(** C2, as the code has it.  [isFullScene] is (view just stopped changing,
    or LOD changed) in a cycle that does not run in delta mode; in a delta
    cycle -- the view changed and the client opted into deltas, the
    function's [wantDelta] -- it is the LOD change alone. *)
Theorem full_scene_unless_delta changed n :
  fullScene (cycleOf changed n)
  = if wantDelta (cycleOf changed n)
    then hasLodChanged n
    else getViewFrustumJustStoppedChanging n || hasLodChanged n.
Proof.
  unfold cycleOf, isFullScene; cbn [fullScene wantDelta].
  destruct changed, (getWantDelta (query n)),
    (getViewFrustumJustStoppedChanging n), (hasLodChanged n); reflexivity.
Qed.

(** C6, as the code has it.  At a scene restart (the view changed, or the
    bag is empty): the coverage map is erased on every view change, and
    only then; [dumpOutOfView] is called exactly on a
    view change that is move-triggered or comes with an LOD change; the
    bag is emptied by [deleteAll] exactly in a full scene.  The bag is left
    with the tree root, behind what it held unless the scene is full or
    the view change qualified. *)
Theorem scene_restart_resets changed full l :
  let t := thread l in
  let n := nodeData t in
  changed || bag_isEmpty (nodeBag n) = true ->
  let t' := thread (restartScene changed full l) in
  let qualifies := changed && (moveShouldDump n || hasLodChanged n) in
  since isMapErase t t' = (if changed then 1 else 0)
  /\ since isDumpOutOfView t t' = (if qualifies then 1 else 0)
  /\ since isDeleteAll t t' = (if full then 1 else 0)
  /\ map (nodeData t') = (if changed then erase (map n) else map n)
  /\ nodeBag (nodeData t')
     = bag_insert getRoot (if full || qualifies then [] else nodeBag n).
Proof. exact (restartScene_effect changed full l). Qed.

Lemma reason_eqb_eq a b : reason_eqb a b = true <-> a = b.
Proof. destruct a, b; cbn; split; congruence. Qed.

(** C8, as the code has it.  The flag "last node didn't fit" is set exactly
    when the encoder wrote zero bytes and stopped for [DIDNT_FIT]; that the
    packet data has content already is asked for only while a full-size
    packet is being filled (the target size is
    [MAX_OCTREE_PACKET_DATA_SIZE]), not while more is being packed into a
    compressed packet.  In an iteration of the loop the flag is set only
    after an encode that wrote nothing. *)
Theorem didnt_fit_flag :
  (forall target content written stop,
      lastNodeDidntFit target content written stop = true
      <-> written = 0 /\ stop = DIDNT_FIT
          /\ (target = MAX_OCTREE_PACKET_DATA_SIZE -> content = true))
  /\ (forall c l,
         snd (encodeNext c l) = true ->
         nodeBag (nodeData (thread l)) <> []
         /\ bytesWritten (fst (encodeNext c l)) = 0
         /\ (getTargetSize (_packetData (thread (fst (encodeNext c l))))
             = MAX_OCTREE_PACKET_DATA_SIZE ->
             hasContent (_packetData (thread (fst (encodeNext c l)))) = true)).
Proof.
  assert (Hflag : forall target content written stop,
             lastNodeDidntFit target content written stop = true
             <-> written = 0 /\ stop = DIDNT_FIT
                 /\ (target = MAX_OCTREE_PACKET_DATA_SIZE -> content = true)).
  { intros target content written stop; unfold lastNodeDidntFit.
    destruct (Z.eqb_spec target MAX_OCTREE_PACKET_DATA_SIZE) as [E|E];
      rewrite ?andb_true_iff, Z.eqb_eq, reason_eqb_eq; intuition congruence. }
  split; [exact Hflag|].
  intros c l; unfold encodeNext.
  destruct (nodeBag (nodeData (thread l))) as [|subTree rest];
    [cbn; discriminate|].
  cbv zeta; cbn [fst snd thread bytesWritten _packetData onNode did with_packetData
                 with_nodeData].
  intros H; apply Hflag in H as (Hw & _ & Hc).
  repeat split; [discriminate | exact Hw | exact Hc].
Qed.

End Decisions.

(** * The small server at work *)

Section Small_server.
Import Small.
#[local] Existing Instance carriers.
#[local] Existing Instance collaborators.

(** The spec's scenario S1, with a header of 50 bytes: three elements of
    100 bytes against a target size of 250.  The first packet goes out
    with 200 bytes of payload under the session's sequence number, the
    second with the remaining 100 bytes under the next one. *)
Example three_elements_two_packets :
  let r := packetDistributor 5 queued false in
  finished r = true
  /\ packetsOf (calls (distributedThread r)) = [(7, 250); (8, 150)]
  /\ _sequenceNumber (nodeData (distributedThread r)) = 9.
Proof. vm_compute; repeat split. Qed.

(** The spec's scenario S2: the packet of [repeating] is the last packet
    again; it is not transmitted, the sequence number stays and the
    duplicate counter is 1. *)
Example identical_payload_suppressed :
  let r := handlePacketSend repeating 0 0 in
  packetsSent r = 0
  /\ calls (sentThread r) = []
  /\ _sequenceNumber (nodeData (sentThread r)) = 7
  /\ _duplicatePacketCount (nodeData (sentThread r)) = 1.
Proof. vm_compute; repeat split. Qed.

(** The first cycle of [starting] sends nothing and leaves the session and
    the packet buffer of [leftover]. *)
Example leftover_arises :
  let r := packetDistributor 5 starting false in
  finished r = true
  /\ returned r = 0
  /\ nodeData (distributedThread r) = nodeData leftover
  /\ _packetData (distributedThread r) = _packetData leftover.
Proof. vm_compute; repeat split. Qed.

(** C1 fails on the code.  The client of [leftover] asks for 20 packets
    per second, a budget of one packet per interval; the call sends the
    statistics message and the waiting packet as two wire units before the
    loop, and the special packet after it. *)
Lemma budget_exceeded_before_the_loop :
  let r := packetDistributor 5 leftover false in
  (maxPacketsPerInterval (nodeData leftover) = 1
   /\ since isOctreePacket leftover (distributedThread r) = 2
   /\ since isSpecialPacket leftover (distributedThread r) = 1
   /\ returned r = 3)
  /\ ~ (forall fuel t changed,
          since isOctreePacket t (distributedThread (packetDistributor fuel t changed))
            <= maxPacketsPerInterval (nodeData t)
          /\ since isSpecialPacket t (distributedThread (packetDistributor fuel t changed))
             <= 1).
Proof.
  cbv zeta; split; [vm_compute; repeat split|].
  intros H; destruct (H 5%nat leftover false) as (Hb & _).
  vm_compute in Hb; apply Hb; reflexivity.
Qed.

(** C2 fails on the code.  For the client of [turning], in delta mode with
    the view changing again, the view just stopped changing and yet the
    scene is not a full scene. *)
Lemma just_stopped_changing_but_not_full_scene :
  (getViewFrustumJustStoppedChanging (nodeData turning) = true
   /\ getWantDelta (query (nodeData turning)) = true
   /\ isFullScene true (nodeData turning) = false)
  /\ ~ (forall changed n,
          isFullScene changed n
          = getViewFrustumJustStoppedChanging n || hasLodChanged n).
Proof.
  split; [vm_compute; repeat split|].
  intros H; specialize (H true (nodeData turning)); discriminate H.
Qed.

(** C5 fails on the code.  The session of [idle] has an empty bag and its
    view has not changed; the call sends two packets and calls the encoder
    once, on the tree root. *)
Lemma empty_bag_call_encodes_and_sends :
  let r := packetDistributor 5 idle false in
  (nodeBag (nodeData idle) = []
   /\ since isEncode idle (distributedThread r) = 1
   /\ In (DidEncodeTreeBitstream getRoot) (calls (distributedThread r))
   /\ returned r = 2)
  /\ ~ (forall fuel t,
          nodeBag (nodeData t) = [] ->
          since isEncode t (distributedThread (packetDistributor fuel t false)) = 0
          /\ returned (packetDistributor fuel t false) = 0).
Proof.
  cbv zeta; split.
  { vm_compute; repeat split; repeat (first [left; reflexivity | right]). }
  intros H; destruct (H 5%nat idle eq_refl) as (_ & Hr).
  vm_compute in Hr; discriminate Hr.
Qed.

(** C6 fails on the code.  The view of [turning] changed without a dump
    by the move and without an LOD change, and the coverage map is erased
    all the same. *)
Lemma coverage_map_erased_on_any_view_change :
  let n := nodeData turning in
  let t' := thread (restartScene true (isFullScene true n) (locals turning)) in
  (moveShouldDump n || hasLodChanged n = false
   /\ map n = [12%N]
   /\ map (nodeData t') = []
   /\ since isMapErase turning t' = 1)
  /\ ~ (forall changed l,
          let m := nodeData (thread l) in
          let u := thread (restartScene changed (isFullScene changed m) l) in
          changed || bag_isEmpty (nodeBag m) = true ->
          (1 <= since isMapErase (thread l) u
           <-> changed && (moveShouldDump m || hasLodChanged m) = true)).
Proof.
  cbv zeta; split; [vm_compute; repeat split|].
  intros H; destruct (H true (locals turning) eq_refl) as [H1 _].
  assert (E : true && (moveShouldDump (nodeData (thread (locals turning)))
                       || hasLodChanged (nodeData (thread (locals turning)))) = true)
    by (apply H1; vm_compute; discriminate).
  vm_compute in E; discriminate E.
Qed.

(** C8 fails on the code.  While more is packed into a compressed packet
    the flag is set for an element that did not fit although the packet
    data holds nothing. *)
Lemma flag_set_without_content :
  let step := encodeNext (cycleOf false (nodeData packingMore)) (locals packingMore) in
  (snd step = true
   /\ hasContent (_packetData (thread (fst step))) = false
   /\ lastNodeDidntFit 31 false 0 DIDNT_FIT = true)
  /\ ~ (forall target content written stop,
          lastNodeDidntFit target content written stop = true ->
          written = 0 /\ content = true /\ stop = DIDNT_FIT).
Proof.
  cbv zeta; split; [vm_compute; repeat split|].
  intros H; destruct (H 31 false 0 DIDNT_FIT eq_refl) as (_ & E & _).
  discriminate E.
Qed.

(** C9 fails on the code.  The session of [stalled] is live, its scene
    statistics are ready and no packet is waiting; its empty packet repeats
    the last one sent, so the duplicate check of lines 139-142 returns
    before the statistics are looked at: nothing is transmitted and the
    sequence number stays. *)
Lemma ready_stats_held_back_by_duplicate :
  let r := handlePacketSend stalled 0 0 in
  (isShuttingDown (nodeData stalled) = false
   /\ isReadyToSend (stats (nodeData stalled)) = true
   /\ isPacketWaiting (nodeData stalled) = false
   /\ packetsSent r = 0
   /\ calls (sentThread r) = []
   /\ _sequenceNumber (nodeData (sentThread r)) = _sequenceNumber (nodeData stalled))
  /\ ~ (forall t b p,
          isShuttingDown (nodeData t) = false ->
          isReadyToSend (stats (nodeData t)) = true ->
          1 <= since isWireUnit t (sentThread (handlePacketSend t b p)))
  /\ ~ (forall t b p,
          isShuttingDown (nodeData t) = false ->
          isReadyToSend (stats (nodeData t)) = true ->
          _sequenceNumber (nodeData (sentThread (handlePacketSend t b p)))
          = _sequenceNumber (nodeData t) + 1).
Proof.
  cbv zeta; split; [vm_compute; repeat split|]; split.
  - intros H; specialize (H stalled 0 0 eq_refl eq_refl).
    vm_compute in H; apply H; reflexivity.
  - intros H; specialize (H stalled 0 0 eq_refl eq_refl).
    vm_compute in H; discriminate H.
Qed.

(** ** The theorems at work on the small server *)

Lemma sequence_advances_with_transmission_witness :
  stamped (nodeData idle)
  /\ sequencesOf (calls (distributedThread (packetDistributor 5 idle false))) = [8; 7]
  /\ exists k : nat,
      _sequenceNumber (nodeData (distributedThread (packetDistributor 5 idle false)))
      = _sequenceNumber (nodeData idle) + Z.of_nat k
      /\ sequencesOf (calls (distributedThread (packetDistributor 5 idle false)))
         = descending (_sequenceNumber (nodeData idle)) k ++ sequencesOf (calls idle).
Proof.
  assert (H : stamped (nodeData idle)) by reflexivity.
  split; [exact H | split; [vm_compute; reflexivity|]].
  exact (proj2 (proj2 (@sequence_advances_with_transmission carriers collaborators)
                      5%nat idle false H)).
Defined.

Lemma duplicate_is_discarded_witness :
  isShuttingDown (nodeData repeating) = false
  /\ snd (shouldSuppressDuplicatePacket (nodeData repeating)) = true
  /\ packetsSent (handlePacketSend repeating 0 0) = 0.
Proof.
  assert (H1 : isShuttingDown (nodeData repeating) = false) by reflexivity.
  assert (H2 : snd (shouldSuppressDuplicatePacket (nodeData repeating)) = true)
    by (vm_compute; reflexivity).
  split; [exact H1 | split; [exact H2|]].
  exact (proj1 (@duplicate_is_discarded carriers collaborators repeating 0 0 H1 H2)).
Defined.

Lemma empty_bag_restarts_the_scene_witness :
  isShuttingDown (nodeData idle) = false
  /\ nodeBag (nodeData idle) = []
  /\ 1 <= maxPacketsPerInterval (nodeData idle)
  /\ nodeBag (nodeData (thread (beforePacking (cycleOf false (nodeData idle)) idle)))
     = [getRoot].
Proof.
  assert (H1 : isShuttingDown (nodeData idle) = false) by reflexivity.
  assert (H2 : nodeBag (nodeData idle) = []) by reflexivity.
  assert (H3 : 1 <= maxPacketsPerInterval (nodeData idle))
    by (vm_compute; discriminate).
  split; [exact H1 | split; [exact H2 | split; [exact H3|]]].
  exact (proj1 (@empty_bag_restarts_the_scene carriers collaborators
                  4%nat idle H1 H2 H3)).
Defined.

Lemma scene_restart_resets_witness :
  true || bag_isEmpty (nodeBag (nodeData turning)) = true
  /\ since isMapErase turning
           (thread (restartScene true (isFullScene true (nodeData turning))
                                 (locals turning)))
     = 1.
Proof.
  assert (H1 : true || bag_isEmpty (nodeBag (nodeData (thread (locals turning)))) = true)
    by reflexivity.
  split; [exact H1|].
  exact (proj1 (@scene_restart_resets carriers collaborators true
                  (isFullScene true (nodeData turning)) (locals turning) H1)).
Defined.

Lemma scene_completion_snapshot_witness :
  isShuttingDown (nodeData idle) = false
  /\ finished (packetDistributor 5 idle false) = true
  /\ nodeBag (nodeData (distributedThread (packetDistributor 5 idle false))) = []
  /\ since isSnapshot idle (distributedThread (packetDistributor 5 idle false)) = 1.
Proof.
  assert (H1 : isShuttingDown (nodeData idle) = false) by reflexivity.
  assert (H2 : finished (packetDistributor 5 idle false) = true)
    by (vm_compute; reflexivity).
  assert (H3 : nodeBag (nodeData (distributedThread (packetDistributor 5 idle false)))
               = []) by (vm_compute; reflexivity).
  split; [exact H1 | split; [exact H2 | split; [exact H3|]]].
  exact (proj1 (proj2 (@scene_completion_snapshot carriers collaborators
                         5%nat idle false H1 H2 H3))).
Defined.

Lemma didnt_fit_flag_witness :
  snd (encodeNext (cycleOf false (nodeData filling)) (locals filling)) = true
  /\ bytesWritten (fst (encodeNext (cycleOf false (nodeData filling)) (locals filling)))
     = 0.
Proof.
  assert (H : snd (encodeNext (cycleOf false (nodeData filling)) (locals filling))
              = true) by (vm_compute; reflexivity).
  split; [exact H|].
  exact (proj1 (proj2 (proj2 (@didnt_fit_flag carriers collaborators)
                             (cycleOf false (nodeData filling)) (locals filling) H))).
Defined.

Lemma ready_stats_are_transmitted_witness :
  isShuttingDown (nodeData completed) = false
  /\ snd (shouldSuppressDuplicatePacket (nodeData completed)) = false
  /\ isReadyToSend (stats (nodeData completed)) = true
  /\ isPacketWaiting (nodeData completed) = false
  /\ 1 <= packetsSent (handlePacketSend completed 0 0).
Proof.
  assert (H1 : isShuttingDown (nodeData completed) = false) by reflexivity.
  assert (H2 : snd (shouldSuppressDuplicatePacket (nodeData completed)) = false)
    by (vm_compute; reflexivity).
  assert (H3 : isReadyToSend (stats (nodeData completed)) = true) by reflexivity.
  split; [exact H1 | split; [exact H2 | split; [exact H3 | split; [reflexivity|]]]].
  exact (proj1 (proj1 (@ready_stats_are_transmitted carriers collaborators
                         completed 0 0) H1 H2 H3)).
Defined.

Lemma suppression_precedes_stats_witness :
  snd (shouldSuppressDuplicatePacket (nodeData stalled)) = true
  /\ isReadyToSend (stats (nodeData stalled)) = true
  /\ isReadyToSend (stats (nodeData (sentThread (handlePacketSend stalled 0 0))))
     = true.
Proof.
  assert (H1 : snd (shouldSuppressDuplicatePacket (nodeData stalled)) = true)
    by (vm_compute; reflexivity).
  assert (H2 : isReadyToSend (stats (nodeData stalled)) = true) by reflexivity.
  split; [exact H1 | split; [exact H2|]].
  exact (proj2 (proj2 (proj2 (@suppression_precedes_stats carriers collaborators
                                stalled 0 0 H1 H2)))).
Defined.

End Small_server.

(** * More of the send thread *)

Section HandlePacketSend_accounting.
Context {K : Carriers} {C : Collaborators}.

Lemma wrap64_idem x : wrap64 (wrap64 x) = wrap64 x.
Proof. unfold wrap64; apply Z.mod_mod; lia. Qed.

Lemma wrap64_succ x k : wrap64 (wrap64 (x + k) + 1) = wrap64 (x + (k + 1)).
Proof.
  unfold wrap64; rewrite Z.add_mod_idemp_l by lia; f_equal; lia.
Qed.

(** X1.  The value [handlePacketSend] returns is the number of datagrams it
    wrote, at most two and none of them a special packet; [truePacketsSent]
    grows by the same number, and so does the total [_totalPackets], modulo
    2^64. *)
Theorem handlePacketSend_counts_wire_units t b p :
  let r := handlePacketSend t b p in
  0 <= packetsSent r <= 2
  /\ since isWireUnit t (sentThread r) = packetsSent r
  /\ since isSpecialPacket t (sentThread r) = 0
  /\ sentTruePackets r = p + packetsSent r
  /\ wrap64 (_totalPackets (sentThread r)) = wrap64 (_totalPackets t + packetsSent r).
Proof.
  cbv zeta.
  destruct (handlePacketSend_effect t b p) as (Hb & Ht & _).
  split; [exact Hb|]; split; [apply handlePacketSend_since|].
  split; [|split; [exact Ht|]].
  { apply (grows_since (kind := isOctreePacket));
      [apply handlePacketSend_grows | intros c H; apply (isOctreePacket_only c H)]. }
  clear Hb Ht; unfold handlePacketSend, transmit.
  destruct (isShuttingDown (nodeData t)); [cbn; f_equal; lia|].
  destruct (shouldSuppressDuplicatePacket (nodeData t)) as [n s].
  destruct s; [cbn; f_equal; lia|].
  cbn [nodeData with_nodeData].
  repeat match goal with |- context [if ?c then _ else _] => destruct c end;
    cbn [sentThread packetsSent _totalPackets with_nodeData onNode track writeDatagram
         did nodeData].
  - rewrite wrap64_idem; reflexivity.
  - rewrite wrap64_idem; apply (wrap64_succ (_totalPackets t) 1).
  - rewrite wrap64_idem; reflexivity.
  - f_equal; lia.
Qed.

Lemma getPacketLength_same n n' :
  _octreePacketAvailableBytes n' = _octreePacketAvailableBytes n ->
  getPacketLength n' = getPacketLength n.
Proof. unfold getPacketLength; intros ->; reflexivity. Qed.

(** X2.  [trueBytesSent] grows by the bytes of the datagrams written,
    except that a statistics message piggybacked in front of the packet is
    not counted: only the packet behind it is. *)
Theorem trueBytesSent_skips_piggybacked_stats t b p :
  let r := handlePacketSend t b p in
  let n := nodeData t in
  let piggybacked :=
    negb (isShuttingDown n) && negb (snd (shouldSuppressDuplicatePacket n))
    && isReadyToSend (stats n)
    && (getPacketLength n + getStatsMessageLength (stats n) <? MAX_PACKET_SIZE) in
  wireBytes (calls (sentThread r)) - wireBytes (calls t)
  = (sentTrueBytes r - b)
    + (if piggybacked then getStatsMessageLength (stats n) else 0).
Proof.
  cbv zeta; unfold handlePacketSend, transmit.
  destruct (isShuttingDown (nodeData t)) eqn:Hdown; [cbn; lia|].
  pose proof (shouldSuppressDuplicatePacket_keeps (nodeData t)) as Hk.
  cbv zeta in Hk.
  destruct (shouldSuppressDuplicatePacket (nodeData t)) as [n s].
  cbn [fst snd] in *.
  destruct Hk as ([_ Hd _] & _ & _ & Hst & _ & _ & _ & _ & _ & Hav).
  apply getPacketLength_same in Hav.
  unfold isShuttingDown in *; rewrite Hdown in Hd.
  destruct s; [cbn; lia|].
  cbn [nodeData with_nodeData negb andb]; rewrite Hst, Hav, Hd.
  cbn [negb andb]; rewrite ?andb_true_r.
  destruct (isReadyToSend (stats (nodeData t))); cbn [andb].
  - destruct (_ <? MAX_PACKET_SIZE);
      cbn -[Z.add Z.sub size]; unfold getStatsMessageLength, getPacketLength in *;
      cbn -[Z.add Z.sub size]; lia.
  - destruct (isPacketWaiting n);
      cbn -[Z.add Z.sub size]; unfold getPacketLength in *;
      cbn -[Z.add Z.sub size]; lia.
Qed.

End HandlePacketSend_accounting.

Section Packet_lifecycle.
Context {K : Carriers} {C : Collaborators}.

(** On a live session [handlePacketSend] ends in [resetOctreePacket]
    unless there was nothing to send: no statistics ready, no packet
    waiting, no duplicate. *)
Lemma handlePacketSend_resets t b p :
  isShuttingDown (nodeData t) = false ->
  let r := handlePacketSend t b p in
  (exists m, nodeData (sentThread r) = resetOctreePacket m
             /\ query m = query (nodeData t) /\ _isShuttingDown m = false)
  \/ (isPacketWaiting (nodeData t) = false
      /\ packetsSent r = 0
      /\ calls (sentThread r) = calls t
      /\ sentThread r = with_nodeData (with_duplicatePacketCount 0 (nodeData t)) t).
Proof.
  intros Hdown; cbv zeta; unfold handlePacketSend, transmit; rewrite Hdown.
  unfold shouldSuppressDuplicatePacket, isShuttingDown in *; rewrite Hdown.
  destruct (negb (_viewFrustumChanging (nodeData t)) && packetIsDuplicate (nodeData t)).
  { left; eexists; split; [reflexivity | split; [reflexivity | exact Hdown]]. }
  cbn [nodeData with_nodeData isPacketWaiting _octreePacketWaiting
       with_duplicatePacketCount _isShuttingDown stats].
  rewrite Hdown; cbn [negb]; rewrite !andb_true_r.
  destruct (isReadyToSend (stats (nodeData t))).
  - left; destruct (_ <? MAX_PACKET_SIZE); cbn;
      (eexists; split; [reflexivity | split; [reflexivity | exact Hdown]]).
  - destruct (_octreePacketWaiting (nodeData t)) eqn:Hw.
    + left; cbn; eexists; split; [reflexivity | split; [reflexivity | exact Hdown]].
    + right; cbn; split; [exact Hw | repeat split].
Qed.

(** X3.  [handlePacketSend] never leaves a packet waiting on a live
    session: the packet is as [resetOctreePacket] leaves it, or there was
    nothing to send and the call wrote nothing and left the packet as it
    was. *)
Theorem handlePacketSend_leaves_no_packet_waiting t b p :
  isShuttingDown (nodeData t) = false ->
  let r := handlePacketSend t b p in
  let n' := nodeData (sentThread r) in
  isPacketWaiting n' = false
  /\ (isReset n'
      \/ (packetsSent r = 0 /\ calls (sentThread r) = calls t
          /\ _octreePacket n' = _octreePacket (nodeData t))).
Proof.
  intros Hdown; cbv zeta.
  destruct (handlePacketSend_resets t b p Hdown) as [(m & -> & _ & Hm) | (Hw & H0 & Hc & ->)].
  - destruct (resetOctreePacket_fresh m Hm) as (_ & Hr).
    split; [apply Hr | left; exact Hr].
  - split; [exact Hw | right; repeat split; assumption].
Qed.

(** After a reset of a live session the packet has the format the client
    wants. *)
Lemma resetOctreePacket_format m :
  _isShuttingDown m = false ->
  getCurrentPacketFormatMatches (resetOctreePacket m) = true
  /\ _currentPacketIsCompressed (resetOctreePacket m) = getWantCompression (query m).
Proof.
  intros H; unfold resetOctreePacket, getCurrentPacketFormatMatches; rewrite H; cbn.
  rewrite !eqb_reflx; split; reflexivity.
Qed.

(** X4.  After the format check of lines 282-293 the packet of a live
    session has the format the client wants.  When it had not, the check
    leaves a packet that [resetOctreePacket] started -- behind the send of
    the waiting packet if there was one -- and the packet buffer set to
    the wanted compression, with the full target size or, compressed, with
    what a fresh packet has left behind a section header. *)
Theorem format_check_restores_format w l :
  isShuttingDown (nodeData (thread l)) = false ->
  let l' := flushOnFormatChange w l in
  getCurrentPacketFormatMatches (nodeData (thread l')) = true
  /\ (getCurrentPacketFormatMatches (nodeData (thread l)) = false ->
      isReset (nodeData (thread l'))
      /\ _packetData (thread l')
         = changeSettings w
             (if w then MAX_PACKET_SIZE - octreePacketHeaderSize - SECTION_SIZE
              else MAX_OCTREE_PACKET_DATA_SIZE)
             (_packetData (thread l))
      /\ (isPacketWaiting (nodeData (thread l)) = false -> calls (thread l') = calls (thread l))).
Proof.
  intros Hdown; cbv zeta; unfold flushOnFormatChange.
  destruct (getCurrentPacketFormatMatches (nodeData (thread l))) eqn:Hf; cbn [negb].
  { split; [exact Hf | discriminate]. }
  cbv zeta.
  destruct (isPacketWaiting (nodeData (thread l))) eqn:Hw.
  - destruct (handlePacketSend_resets (thread l) (trueBytesSent l) (truePacketsSent l) Hdown)
      as [(m & Hm & Hq & Hdm) | (Hw' & _)];
      [|unfold isPacketWaiting in *; congruence].
    destruct (handlePacketSend_effect (thread l) (trueBytesSent l) (truePacketsSent l))
      as (_ & _ & _ & _ & [_ _ _ _ Hpd _]).
    destruct (resetOctreePacket_fresh m Hdm) as (_ & Hr).
    destruct (resetOctreePacket_format m Hdm) as (Hfmt & _).
    cbn [thread with_thread send nodeData with_packetData _packetData].
    rewrite Hm, Hpd; unfold getAvailable.
    destruct Hr as (Hr1 & Hr2 & Hr3); rewrite Hr3.
    split; [exact Hfmt|]; intros _; split; [repeat split; assumption|].
    split; [destruct w; reflexivity | discriminate].
  - unfold isShuttingDown in Hdown.
    destruct (resetOctreePacket_fresh (nodeData (thread l)) Hdown) as (_ & Hr).
    destruct (resetOctreePacket_format (nodeData (thread l)) Hdown) as (Hfmt & _).
    cbn [thread with_thread nodeData with_packetData _packetData onNode with_nodeData].
    unfold getAvailable; destruct Hr as (Hr1 & Hr2 & Hr3); rewrite Hr3.
    split; [exact Hfmt|]; intros _; split; [repeat split; assumption|].
    split; [destruct w; reflexivity | reflexivity].
Qed.

End Packet_lifecycle.

(** ** What the function preserves up to the end of its packing loop

    The statements of [packetDistributor] up to line 525 are made of a few
    moves: a call of [handlePacketSend], a new setting of the packet
    buffer, a recorded call, and updates of the session.  A relation
    between two states of the thread that every move respects holds
    between the state a statement starts in and the state it leaves. *)
Section Frame.
Context {K : Carriers} {C : Collaborators}.

Variable N : OctreeQueryNode -> OctreeQueryNode -> Prop.
Variable R : OctreeSendThread -> OctreeSendThread -> Prop.

Hypothesis N_refl : forall n, N n n.
Hypothesis N_trans : forall n1 n2 n3, N n1 n2 -> N n2 n3 -> N n1 n3.
Hypothesis N_stats : forall s n, N n (with_stats s n).
Hypothesis N_map : forall m n, N n (with_map m n).
Hypothesis N_bag : forall bag n, N n (with_nodeBag bag n).
Hypothesis N_bagEmpty : forall now n, N n (setLastTimeBagEmpty now n).
Hypothesis N_root : forall stamp n, N n (setLastRootTimestamp stamp n).
Hypothesis N_reset : forall n, N n (resetOctreePacket n).
Hypothesis N_write : forall buffer n, N n (writeToPacket buffer n).

Hypothesis R_refl : forall t, R t t.
Hypothesis R_trans : forall t1 t2 t3, R t1 t2 -> R t2 t3 -> R t1 t3.
Hypothesis R_node : forall n t, N (nodeData t) n -> R t (with_nodeData n t).
Hypothesis R_send : forall t b p, R t (sentThread (handlePacketSend t b p)).
Hypothesis R_packetData : forall p t, R t (with_packetData p t).
Hypothesis R_dump : forall t, R t (did DidDumpOutOfView t).
Hypothesis R_erase : forall t, R t (did DidMapErase t).
Hypothesis R_deleteAll : forall t, R t (did DidDeleteAll t).
Hypothesis R_encode : forall subTree t, R t (did (DidEncodeTreeBitstream subTree) t).

Lemma node_frame f t : N (nodeData t) (f (nodeData t)) -> R t (onNode f t).
Proof. unfold onNode; apply R_node. Qed.

Lemma flushOnFormatChange_frame w l :
  R (thread l) (thread (flushOnFormatChange w l)).
Proof.
  unfold flushOnFormatChange.
  destruct (negb (getCurrentPacketFormatMatches (nodeData (thread l))));
    [|apply R_refl].
  cbv zeta; cbn [thread with_thread].
  eapply R_trans; [|apply R_packetData].
  destruct (isPacketWaiting (nodeData (thread l))); cbn [thread with_thread send].
  - apply R_send.
  - apply node_frame, N_reset.
Qed.

Lemma resetOnViewChange_frame v t : R t (resetOnViewChange v t).
Proof.
  unfold resetOnViewChange; destruct v; [|apply R_refl].
  eapply R_trans; [|apply R_erase].
  eapply R_trans; [|apply node_frame, N_map].
  destruct (moveShouldDump (nodeData t) || hasLodChanged (nodeData t));
    [|apply R_refl].
  eapply R_trans; [|apply R_dump].
  apply node_frame; unfold dumpOutOfView; apply N_bag.
Qed.

Lemma restartScene_frame v f l : R (thread l) (thread (restartScene v f l)).
Proof.
  unfold restartScene.
  destruct (v || bag_isEmpty (nodeBag (nodeData (thread l)))); [|apply R_refl].
  unfold dontRestartSceneOnMove; cbv zeta; cbn [thread with_thread send].
  eapply R_trans; [|apply node_frame, N_bag].
  eapply R_trans; [|apply node_frame, N_stats].
  eapply R_trans.
  2: { destruct f; [|apply R_refl].
       eapply R_trans; [|apply R_deleteAll].
       apply node_frame, N_bag. }
  eapply R_trans; [|apply R_send].
  eapply R_trans; [|apply node_frame, N_root].
  eapply R_trans; [|apply node_frame, N_stats].
  eapply R_trans; [apply resetOnViewChange_frame|].
  match goal with |- context [if ?c then _ else _] => destruct c end;
    [apply node_frame, N_bagEmpty | apply R_refl].
Qed.

Lemma beforePacking_frame c t : R t (thread (beforePacking c t)).
Proof.
  unfold beforePacking; cbv zeta.
  eapply R_trans; [|apply restartScene_frame].
  apply (flushOnFormatChange_frame (wantCompression c)
           {| thread := t; trueBytesSent := 0; truePacketsSent := 0;
              packetsSentThisInterval := 0; somethingToSend := true;
              bytesWritten := 0; extraPackingAttempts := 0;
              completedScene := false |}).
Qed.

Lemma encodeNext_frame c l : R (thread l) (thread (fst (encodeNext c l))).
Proof.
  unfold encodeNext.
  destruct (nodeBag (nodeData (thread l))) as [|subTree rest];
    [apply R_refl|].
  cbv zeta; cbn [fst thread].
  eapply R_trans; [|apply node_frame, N_stats].
  eapply R_trans; [|apply R_encode].
  eapply R_trans; [|apply R_packetData].
  apply R_node.
  match goal with |- context [if ?c then _ else _] => destruct c end.
  all: repeat (eapply N_trans;
               [|first [apply N_stats | apply N_map | apply N_bag]]).
  all: apply N_refl.
Qed.

Lemma writeSegment_frame l : R (thread l) (thread (writeSegment l)).
Proof.
  unfold writeSegment.
  destruct (hasContent (_packetData (thread l))); [|apply R_refl].
  cbv zeta; cbn [thread with_thread with_extraPackingAttempts].
  eapply R_trans; [|apply node_frame, N_write].
  match goal with |- context [if ?c then _ else _] => destruct c end;
    [apply R_send | apply R_refl].
Qed.

Lemma sendOrPackMore_frame c l : R (thread l) (thread (sendOrPackMore c l)).
Proof.
  unfold sendOrPackMore; cbv zeta.
  match goal with |- context [if ?c then _ else _] => destruct c end;
    cbv beta iota; cbn [thread with_thread].
  - eapply R_trans; [apply R_send | apply R_packetData].
  - apply R_packetData.
Qed.

Lemma packingStep_frame c l : R (thread l) (thread (packingStep c l)).
Proof.
  unfold packingStep.
  pose proof (encodeNext_frame c l) as H.
  destruct (encodeNext c l) as [l1 flag]; cbn [fst] in H.
  destruct (completedScene l1 || flag); [|exact H].
  eapply R_trans; [exact H|].
  eapply R_trans; [apply writeSegment_frame | apply sendOrPackMore_frame].
Qed.

Lemma packingLoop_frame fuel budget c l :
  R (thread l) (thread (fst (packingLoop fuel budget c l))).
Proof.
  revert l; induction fuel as [|fuel IH]; intros l; cbn [packingLoop];
    destruct (packingContinues budget l); cbn [fst]; try apply R_refl.
  eapply R_trans; [apply packingStep_frame | apply IH].
Qed.

End Frame.

Section Distributor_frames.
Context {K : Carriers} {C : Collaborators}.

(** Nothing before the end of the packing loop touches the last known
    view, the view-sent flag or the special packets the server holds. *)
Lemma packing_settled fuel budget c t :
  settled t (thread (fst (packingLoop fuel budget c (beforePacking c t)))).
Proof.
  set (N := fun n n' : OctreeQueryNode =>
              _lastKnownViewFrustum n' = _lastKnownViewFrustum n
              /\ _viewSent n' = _viewSent n).
  assert (Htrans : forall t1 t2 t3 : OctreeSendThread,
             settled t1 t2 -> settled t2 t3 -> settled t1 t3).
  { intros t1 t2 t3 [a b c'] [d e f]; split; congruence. }
  apply Htrans with (t2 := thread (beforePacking c t)).
  - apply beforePacking_frame with (N := N); subst N; cbv beta; try assumption.
    all: try (intros; split; reflexivity).
    + intros n; destruct (resetOctreePacket_keeps n) as (_ & _ & _ & _ & a & b).
      split; assumption.
    + intros n t0 [a b]; split; cbn; assumption || reflexivity.
    + intros t0 b p.
      destruct (handlePacketSend_effect t0 b p) as (_ & _ & _ & _ & [_ _ a b' _ d]).
      split; assumption.
  - apply packingLoop_frame with (N := N); subst N; cbv beta; try assumption.
    all: try (intros; split; reflexivity).
    + intros n1 n2 n3 [a b] [d e]; split; congruence.
    + intros buffer n; unfold writeToPacket.
      destruct (_isShuttingDown n); [split; reflexivity|].
      match goal with |- context [if ?c then _ else _] => destruct c end;
        split; reflexivity.
    + intros n t0 [a b]; split; cbn; assumption || reflexivity.
    + intros t0 b p.
      destruct (handlePacketSend_effect t0 b p) as (_ & _ & _ & _ & [_ _ a b' _ d]).
      split; assumption.
Qed.

(** The encoder is not called before the packing loop. *)
Lemma beforePacking_no_encode c t :
  grows (fun call => negb (isEncode call)) t (thread (beforePacking c t)).
Proof.
  apply beforePacking_frame with (N := fun _ _ : OctreeQueryNode => True);
    try (intros; exact I).
  - apply grows_refl.
  - apply grows_trans.
  - intros; apply grows_silent; reflexivity.
  - intros t0 b p.
    eapply grows_weaken; [|apply handlePacketSend_grows].
    intros call H; destruct (isOctreePacket_only call H) as (_ & _ & _ & -> & _).
    reflexivity.
  - intros; apply grows_silent; reflexivity.
  - intros; exists [DidDumpOutOfView]; split; reflexivity.
  - intros; exists [DidMapErase]; split; reflexivity.
  - intros; exists [DidDeleteAll]; split; reflexivity.
Qed.

Lemma sceneSent_specials t : specialPackets (sceneSent t) = specialPackets t.
Proof. unfold sceneSent; destruct (bag_isEmpty _); reflexivity. Qed.

Lemma sceneSent_nonempty t :
  bag_isEmpty (nodeBag (nodeData t)) = false -> sceneSent t = t.
Proof. intros H; unfold sceneSent; rewrite H; reflexivity. Qed.

Lemma beforePacking_bag c t :
  bag_isEmpty (nodeBag (nodeData (thread (beforePacking c t)))) = false.
Proof. unfold beforePacking; apply restartScene_bag. Qed.

(** X5.  The snapshot of the view is taken only when a call on a live
    session comes to its end with the bag empty.  Any other call takes
    none, and leaves the last known view and the view-sent flag as they
    were. *)
Theorem view_snapshot_only_at_scene_end fuel t changed :
  let r := packetDistributor fuel t changed in
  let n' := nodeData (distributedThread r) in
  let completes :=
    negb (isShuttingDown (nodeData t)) && finished r && bag_isEmpty (nodeBag n') in
  since isSnapshot t (distributedThread r) = (if completes then 1 else 0)
  /\ (completes = false ->
      _lastKnownViewFrustum n' = _lastKnownViewFrustum (nodeData t)
      /\ _viewSent n' = _viewSent (nodeData t)).
Proof.
  cbv zeta.
  destruct (isShuttingDown (nodeData t)) eqn:Hd.
  { rewrite packetDistributor_shutting_down by exact Hd; cbn.
    unfold since; split; [lia | auto]. }
  rewrite packetDistributor_alive by exact Hd.
  destruct (packing_settled fuel (maxPacketsPerInterval (nodeData t))
                            (cycleOf changed (nodeData t)) t) as [Hlk Hvs _].
  destruct (packing_steps fuel t changed) as (w & _ & [Hg _ _ _] & _).
  cbv zeta in *.
  assert (H0 : since isSnapshot t
                 (thread (fst (packingLoop fuel (maxPacketsPerInterval (nodeData t))
                                           (cycleOf changed (nodeData t))
                                           (beforePacking (cycleOf changed (nodeData t)) t))))
               = 0)
    by (apply (grows_since (kind := ordinary)); [exact Hg | apply ordinary_not_snapshot]).
  destruct (packingLoop fuel (maxPacketsPerInterval (nodeData t))
                        (cycleOf changed (nodeData t))
                        (beforePacking (cycleOf changed (nodeData t)) t)) as [l done].
  cbn [fst snd] in *.
  destruct done; cbn [distributedThread finished negb andb].
  - destruct (sendSpecial_counts l) as (v & _ & _ & _ & Hsn & _ & _ & Hnd & _).
    destruct (sceneSent_counts (thread (sendSpecial l))) as (_ & _ & Hss & _).
    rewrite sceneSent_bag, Hnd; rewrite Hnd in Hss.
    split.
    + unfold since in *; destruct (bag_isEmpty (nodeBag (nodeData (thread l)))); lia.
    + intros Hb; rewrite sceneSent_nonempty by (rewrite Hnd; exact Hb).
      rewrite Hnd; split; assumption.
  - split; [exact H0 | intros _; split; assumption].
Qed.

(** X6.  A call on a live session that comes to its end while the server
    holds special packets for the client takes the first of them and
    leaves the others: it is the one special packet of the call, and the
    last wire unit the call writes. *)
Theorem special_packet_goes_last fuel t changed special pending :
  isShuttingDown (nodeData t) = false ->
  specialPackets t = special :: pending ->
  let r := packetDistributor fuel t changed in
  finished r = true ->
  specialPackets (distributedThread r) = pending
  /\ since isSpecialPacket t (distributedThread r) = 1
  /\ exists after before,
       calls (distributedThread r)
       = after ++ DidCallWriteDatagram (SpecialPacket special) :: before
       /\ forallb (fun call => negb (isWireUnit call)) after = true.
Proof.
  intros Hd Hsp; cbv zeta.
  rewrite packetDistributor_alive by exact Hd.
  destruct (packing_settled fuel (maxPacketsPerInterval (nodeData t))
                            (cycleOf changed (nodeData t)) t) as [_ _ Hspl].
  destruct (packing_steps fuel t changed) as (w & _ & [Hg _ [_ Hdown _] _] & _).
  cbv zeta in *.
  assert (H0 : since isSpecialPacket t
                 (thread (fst (packingLoop fuel (maxPacketsPerInterval (nodeData t))
                                           (cycleOf changed (nodeData t))
                                           (beforePacking (cycleOf changed (nodeData t)) t))))
               = 0)
    by (apply (grows_since (kind := ordinary)); [exact Hg | apply ordinary_not_special]).
  destruct (packingLoop fuel (maxPacketsPerInterval (nodeData t))
                        (cycleOf changed (nodeData t))
                        (beforePacking (cycleOf changed (nodeData t)) t)) as [l done].
  cbn [fst snd] in *.
  destruct done; cbn [distributedThread finished]; [intros _ | discriminate].
  assert (Hs : thread (sendSpecial l)
               = did (DidCallWriteDatagram (SpecialPacket special))
                     (with_specialPackets pending (thread l))).
  { unfold sendSpecial; rewrite Hspl, Hsp.
    unfold isShuttingDown in *; rewrite Hdown, Hd; reflexivity. }
  rewrite Hs, sceneSent_specials.
  split; [reflexivity|].
  destruct (sceneSent_counts (did (DidCallWriteDatagram (SpecialPacket special))
                                  (with_specialPackets pending (thread l))))
    as (_ & Hss & _ & _).
  split.
  - rewrite (since_trans isSpecialPacket t (thread l)), H0.
    rewrite (since_trans isSpecialPacket (thread l)
               (did (DidCallWriteDatagram (SpecialPacket special))
                    (with_specialPackets pending (thread l)))), Hss.
    rewrite (since_added _ [DidCallWriteDatagram (SpecialPacket special)])
      by reflexivity.
    reflexivity.
  - unfold sceneSent; destruct (bag_isEmpty _).
    + exists [DidMapErase; DidSetViewSent true; DidUpdateLastKnownViewFrustum],
        (calls (thread l)); split; reflexivity.
    + exists [], (calls (thread l)); split; reflexivity.
Qed.

(** X7.  The sends before the packing loop count against the budget of
    the loop: when they have used it up, the loop runs no iteration.  The
    call then comes to its end without a call of the encoder; its bag is
    the one the scene restart left, which is not empty, so the scene is
    not completed and no snapshot of the view is taken. *)
Theorem budget_met_before_the_loop fuel t changed :
  isShuttingDown (nodeData t) = false ->
  let before := beforePacking (cycleOf changed (nodeData t)) t in
  maxPacketsPerInterval (nodeData t) <= packetsSentThisInterval before ->
  let r := packetDistributor fuel t changed in
  finished r = true
  /\ since isEncode t (distributedThread r) = 0
  /\ since isSnapshot t (distributedThread r) = 0
  /\ nodeBag (nodeData (distributedThread r)) = nodeBag (nodeData (thread before))
  /\ bag_isEmpty (nodeBag (nodeData (distributedThread r))) = false.
Proof.
  intros Hd before Hmet; cbv zeta.
  rewrite packetDistributor_alive by exact Hd; cbv zeta.
  fold before.
  assert (Hrun : packingLoop fuel (maxPacketsPerInterval (nodeData t))
                             (cycleOf changed (nodeData t)) before = (before, true)).
  { assert (Hc : packingContinues (maxPacketsPerInterval (nodeData t)) before = false).
    { unfold packingContinues.
      replace (packetsSentThisInterval before <? maxPacketsPerInterval (nodeData t))
        with false by (symmetry; apply Z.ltb_ge; exact Hmet).
      rewrite andb_false_r; reflexivity. }
    destruct fuel; cbn [packingLoop]; rewrite Hc; reflexivity. }
  rewrite Hrun; cbn [fst snd distributedThread finished].
  pose proof (beforePacking_bag (cycleOf changed (nodeData t)) t) as Hbag.
  fold before in Hbag.
  destruct (sendSpecial_counts before) as (v & _ & _ & _ & Hsn & _ & _ & Hnd & _).
  rewrite sceneSent_nonempty by (rewrite Hnd; exact Hbag).
  rewrite Hnd.
  pose proof (grows_since isEncode
                (beforePacking_no_encode (cycleOf changed (nodeData t)) t)) as He.
  fold before in He.
  assert (He0 : since isEncode t (thread before) = 0).
  { apply He; intros call H; destruct (isEncode call); [discriminate H | reflexivity]. }
  assert (Hs0 : since isSnapshot t (thread before) = 0).
  { destruct (beforePacking_steps (cycleOf changed (nodeData t)) t)
      as (w & _ & [Hg _ _ _] & _).
    apply (grows_since (kind := ordinary)); [exact Hg | apply ordinary_not_snapshot]. }
  assert (He1 : since isEncode (thread before) (thread (sendSpecial before)) = 0).
  { destruct (sendSpecial_effect before) as [-> | (special & pending & _ & -> & _)].
    - unfold since; lia.
    - rewrite (since_added _ [DidCallWriteDatagram (SpecialPacket special)])
        by reflexivity.
      reflexivity. }
  repeat split; try assumption; unfold since in *; lia.
Qed.

End Distributor_frames.

Section Packing_loop.
Context {K : Carriers} {C : Collaborators}.

(** A live session in uncompressed mode is left by [handlePacketSend]
    with no packet waiting. *)
Lemma handlePacketSend_flushes t b p :
  _isShuttingDown (nodeData t) = false ->
  plain (nodeData t) ->
  let n' := nodeData (sentThread (handlePacketSend t b p)) in
  _isShuttingDown n' = false /\ plainAndFlushed n'.
Proof.
  intros Hd [Hw Hc]; cbv zeta.
  destruct (handlePacketSend_resets t b p Hd) as [(m & -> & Hq & Hm) | (Hp & _ & _ & ->)].
  - unfold plainAndFlushed, resetOctreePacket; rewrite Hm; cbn.
    rewrite Hq; repeat split; assumption.
  - unfold plainAndFlushed; cbn; repeat split; assumption.
Qed.

Ltac frame_side :=
  unfold holdsOn, plainAndFlushed, plain; cbv beta;
  first
    [ solve [intros; cbn; assumption]
    | solve [intros; cbn in *; auto]
    | solve [intros ? [Hd (Hw & Hc & Hp)];
             unfold resetOctreePacket; rewrite Hd; cbn; repeat split; assumption]
    | solve [intros ? ? [Hd (Hw & Hc)]; unfold writeToPacket; rewrite Hd;
             match goal with |- context [if ?c then _ else _] => destruct c end;
             cbn; repeat split; assumption]
    | solve [intros ? ? ? [Hd (Hw & Hc & Hp)];
             apply handlePacketSend_flushes; [|split]; assumption]
    | solve [intros t0 b0 p0 [Hd (Hw & Hc)];
             destruct (handlePacketSend_flushes t0 b0 p0 Hd (conj Hw Hc))
               as (? & ? & ? & ?);
             repeat split; assumption] ].

Lemma beforePacking_flushed c t :
  holdsOn plainAndFlushed (nodeData t) (nodeData (thread (beforePacking c t))).
Proof.
  apply beforePacking_frame
    with (N := holdsOn plainAndFlushed)
         (R := fun t t' => holdsOn plainAndFlushed (nodeData t) (nodeData t')).
  all: frame_side.
Qed.

Lemma encodeNext_flushed c l :
  holdsOn plainAndFlushed (nodeData (thread l)) (nodeData (thread (fst (encodeNext c l)))).
Proof.
  apply encodeNext_frame
    with (N := holdsOn plainAndFlushed)
         (R := fun t t' => holdsOn plainAndFlushed (nodeData t) (nodeData t')).
  all: frame_side.
Qed.

Lemma writeSegment_plain l :
  holdsOn plain (nodeData (thread l)) (nodeData (thread (writeSegment l))).
Proof.
  apply writeSegment_frame
    with (N := holdsOn plain)
         (R := fun t t' => holdsOn plain (nodeData t) (nodeData t')).
  all: frame_side.
Qed.

(** In uncompressed mode lines 487-514 send. *)
Lemma sendOrPackMore_flushes c l :
  _isShuttingDown (nodeData (thread l)) = false ->
  plain (nodeData (thread l)) ->
  let n' := nodeData (thread (sendOrPackMore c l)) in
  _isShuttingDown n' = false /\ plainAndFlushed n'.
Proof.
  intros Hd [Hw Hc]; cbv zeta; unfold sendOrPackMore, getCurrentPacketIsCompressed.
  rewrite Hc; cbn [andb negb thread with_thread send nodeData with_packetData].
  apply handlePacketSend_flushes; [|split]; assumption.
Qed.

Lemma packingStep_flushed c l :
  holdsOn plainAndFlushed (nodeData (thread l)) (nodeData (thread (packingStep c l))).
Proof.
  intros H; unfold packingStep.
  pose proof (encodeNext_flushed c l H) as H1.
  destruct (encodeNext c l) as [l1 flag]; cbn [fst] in H1.
  destruct (completedScene l1 || flag); [|exact H1].
  destruct H1 as (Hd & Hw & Hc & _).
  destruct (writeSegment_plain l1 (conj Hd (conj Hw Hc))) as (Hd' & Hp').
  apply sendOrPackMore_flushes; assumption.
Qed.

Lemma packingLoop_flushed fuel budget c l :
  holdsOn plainAndFlushed (nodeData (thread l))
          (nodeData (thread (fst (packingLoop fuel budget c l)))).
Proof.
  revert l; induction fuel as [|fuel IH]; intros l H; cbn [packingLoop];
    destruct (packingContinues budget l); cbn [fst]; try exact H.
  apply IH, packingStep_flushed, H.
Qed.

Lemma sceneSent_packet t :
  _octreePacketWaiting (nodeData (sceneSent t)) = _octreePacketWaiting (nodeData t)
  /\ _currentPacketIsCompressed (nodeData (sceneSent t))
     = _currentPacketIsCompressed (nodeData t)
  /\ query (nodeData (sceneSent t)) = query (nodeData t).
Proof.
  unfold sceneSent; destruct (bag_isEmpty _); [|repeat split].
  cbn; unfold updateLastKnownViewFrustum; destruct (_isShuttingDown _); repeat split.
Qed.

(** X8.  Uncompressed mode sends every packet in the call that fills it:
    when the client wants no compression, the packet is uncompressed and
    none is waiting, a call of [packetDistributor] leaves the session so.
    (In compressed mode a call may leave a packet waiting for more to be
    packed behind it.) *)
Theorem uncompressed_packets_never_wait fuel t changed :
  plainAndFlushed (nodeData t) ->
  plainAndFlushed (nodeData (distributedThread (packetDistributor fuel t changed))).
Proof.
  intros H.
  destruct (isShuttingDown (nodeData t)) eqn:Hd.
  { rewrite packetDistributor_shutting_down by exact Hd; exact H. }
  rewrite packetDistributor_alive by exact Hd; cbv zeta.
  pose proof (packingLoop_flushed fuel (maxPacketsPerInterval (nodeData t))
                (cycleOf changed (nodeData t))
                (beforePacking (cycleOf changed (nodeData t)) t)
                (beforePacking_flushed (cycleOf changed (nodeData t)) t (conj Hd H)))
    as (_ & Hw & Hc & Hp).
  destruct (packingLoop fuel (maxPacketsPerInterval (nodeData t))
                        (cycleOf changed (nodeData t))
                        (beforePacking (cycleOf changed (nodeData t)) t)) as [l done].
  cbn [fst snd] in *.
  destruct done; cbn [distributedThread]; [|repeat split; assumption].
  destruct (sendSpecial_counts l) as (v & _ & _ & _ & _ & _ & _ & Hnd & _).
  destruct (sceneSent_packet (thread (sendSpecial l))) as (Sw & Sc & Sq).
  unfold plainAndFlushed; rewrite Sw, Sc, Sq, Hnd; repeat split; assumption.
Qed.

End Packing_loop.

Section Loop_exit.
Context {K : Carriers} {C : Collaborators}.

(** Lines 464-514 leave the bag and the flag [somethingToSend] alone and
    call no encoder. *)
Lemma segment_and_send_keep c l :
  let l' := sendOrPackMore c (writeSegment l) in
  somethingToSend l' = somethingToSend l
  /\ nodeBag (nodeData (thread l')) = nodeBag (nodeData (thread l))
  /\ grows (fun call => negb (isEncode call)) (thread l) (thread l').
Proof.
  cbv zeta; split; [|split].
  - unfold sendOrPackMore; cbv zeta.
    match goal with |- context [if ?c then _ else _] => destruct c end;
      cbv beta iota; cbn [somethingToSend with_thread send].
    all: unfold writeSegment; destruct (hasContent _); [|reflexivity].
    all: cbv zeta;
      match goal with |- context [if ?c then _ else _] => destruct c end;
      reflexivity.
  - set (R := fun t t' : OctreeSendThread =>
                nodeBag (nodeData t') = nodeBag (nodeData t)).
    assert (Hsend : forall t b p, R t (sentThread (handlePacketSend t b p))).
    { intros t b p; apply (handlePacketSend_effect t b p). }
    assert (Htrans : forall t1 t2 t3, R t1 t2 -> R t2 t3 -> R t1 t3)
      by (subst R; cbv beta; intros; congruence).
    apply Htrans with (t2 := thread (writeSegment l)).
    + apply writeSegment_frame
        with (N := fun n n' : OctreeQueryNode => nodeBag n' = nodeBag n);
        try assumption; subst R; cbv beta; try reflexivity.
      * intros buffer n; apply writeToPacket_keeps.
      * intros n t H; exact H.
    + apply sendOrPackMore_frame; try assumption; subst R; cbv beta; reflexivity.
  - apply grows_trans with (t2 := thread (writeSegment l)).
    + apply writeSegment_frame with (N := fun _ _ : OctreeQueryNode => True);
        try (intros; exact I).
      * apply grows_refl.
      * apply grows_trans.
      * intros; apply grows_silent; reflexivity.
      * intros t0 b p.
        eapply grows_weaken; [|apply handlePacketSend_grows].
        intros call H; destruct (isOctreePacket_only call H) as (_ & _ & _ & -> & _).
        reflexivity.
    + apply sendOrPackMore_frame.
      * apply grows_trans.
      * intros t0 b p.
        eapply grows_weaken; [|apply handlePacketSend_grows].
        intros call H; destruct (isOctreePacket_only call H) as (_ & _ & _ & -> & _).
        reflexivity.
      * intros; apply grows_silent; reflexivity.
Qed.

(** An iteration that finds the bag empty. *)
Lemma packingStep_empty c l :
  nodeBag (nodeData (thread l)) = [] ->
  somethingToSend (packingStep c l) = false
  /\ nodeBag (nodeData (thread (packingStep c l))) = []
  /\ grows (fun call => negb (isEncode call)) (thread l) (thread (packingStep c l)).
Proof.
  intros Hb; unfold packingStep.
  set (l1 := {| thread := thread l; trueBytesSent := trueBytesSent l;
                truePacketsSent := truePacketsSent l;
                packetsSentThisInterval := packetsSentThisInterval l;
                somethingToSend := false; bytesWritten := 0;
                extraPackingAttempts := extraPackingAttempts l;
                completedScene := completedScene l |}).
  assert (He : encodeNext c l = (l1, false))
    by (unfold encodeNext; rewrite Hb; reflexivity).
  rewrite He.
  destruct (segment_and_send_keep c l1) as (Hs & Hn & Hg); cbv zeta in *.
  destruct (completedScene l1 || false).
  - rewrite Hs, Hn; repeat split; assumption.
  - repeat split; [exact Hb | apply grows_refl].
Qed.

Lemma packingLoop_stops fuel budget c l :
  packingContinues budget l = false -> packingLoop fuel budget c l = (l, true).
Proof. intros H; destruct fuel; cbn [packingLoop]; rewrite H; reflexivity. Qed.

(** X9.  The packing loop ends with the iteration that finds the bag
    empty: the iteration calls no encoder, clears [somethingToSend], and
    the loop condition fails after it whatever is left of the budget. *)
Theorem empty_bag_ends_the_loop fuel budget c l :
  nodeBag (nodeData (thread l)) = [] ->
  let run := packingLoop (S fuel) budget c l in
  snd run = true
  /\ since isEncode (thread l) (thread (fst run)) = 0
  /\ nodeBag (nodeData (thread (fst run))) = []
  /\ (packingContinues budget l = true -> somethingToSend (fst run) = false).
Proof.
  intros Hb; cbv zeta; cbn [packingLoop].
  destruct (packingContinues budget l).
  - destruct (packingStep_empty c l Hb) as (Hs & Hn & Hg).
    rewrite packingLoop_stops
      by (unfold packingContinues; rewrite Hs; reflexivity).
    cbn [fst snd].
    split; [reflexivity | split; [|split; [exact Hn | intros _; exact Hs]]].
    apply (grows_since isEncode Hg).
    intros call H; destruct (isEncode call); [discriminate H | reflexivity].
  - cbn [fst snd]; repeat split; [unfold since; lia | exact Hb | discriminate].
Qed.

(** The loop leaves [somethingToSend] set until it finds the bag empty. *)
Lemma packingStep_something c l :
  somethingToSend l = true \/ nodeBag (nodeData (thread l)) = [] ->
  somethingToSend (packingStep c l) = true
  \/ nodeBag (nodeData (thread (packingStep c l))) = [].
Proof.
  intros H.
  destruct (nodeBag (nodeData (thread l))) as [|subTree rest] eqn:Hb.
  { right; apply packingStep_empty, Hb. }
  destruct H as [H | H]; [|discriminate H].
  left; unfold packingStep.
  assert (H1 : somethingToSend (fst (encodeNext c l)) = true)
    by (unfold encodeNext; rewrite Hb; exact H).
  destruct (encodeNext c l) as [l1 flag]; cbn [fst] in H1.
  destruct (completedScene l1 || flag); [|exact H1].
  destruct (segment_and_send_keep c l1) as (Hs & _); cbv zeta in Hs.
  rewrite Hs; exact H1.
Qed.

Lemma packingLoop_exit fuel budget c l :
  somethingToSend l = true \/ nodeBag (nodeData (thread l)) = [] ->
  let run := packingLoop fuel budget c l in
  (somethingToSend (fst run) = true \/ nodeBag (nodeData (thread (fst run))) = [])
  /\ (snd run = true -> packingContinues budget (fst run) = false).
Proof.
  revert l; induction fuel as [|fuel IH]; intros l H; cbv zeta; cbn [packingLoop];
    destruct (packingContinues budget l) eqn:Hc; cbn [fst snd];
    try (split; [exact H | first [discriminate | intros _; exact Hc]]).
  apply IH, packingStep_something, H.
Qed.

(** X10.  A call on a live session that comes to its end with elements
    left in the bag has used up its budget: the packets counted in
    [packetsSentThisInterval] are at least [maxPacketsPerInterval]. *)
Theorem unfinished_scene_means_budget_used fuel t changed :
  isShuttingDown (nodeData t) = false ->
  let r := packetDistributor fuel t changed in
  finished r = true ->
  bag_isEmpty (nodeBag (nodeData (distributedThread r))) = false ->
  maxPacketsPerInterval (nodeData t) <= sentThisInterval r.
Proof.
  intros Hd; cbv zeta.
  rewrite packetDistributor_alive by exact Hd; cbv zeta.
  assert (H0 : somethingToSend (beforePacking (cycleOf changed (nodeData t)) t) = true).
  { unfold beforePacking; cbv zeta; rewrite restartScene_locals.
    rewrite (proj1 (flushOnFormatChange_locals _ _)); reflexivity. }
  destruct (packingLoop_exit fuel (maxPacketsPerInterval (nodeData t))
              (cycleOf changed (nodeData t)) _ (or_introl H0)) as (Hi & Hx).
  destruct (packing_steps fuel t changed) as (w & _ & [_ _ [_ Hdown _] _] & _).
  cbv zeta in *.
  destruct (packingLoop fuel (maxPacketsPerInterval (nodeData t))
                        (cycleOf changed (nodeData t))
                        (beforePacking (cycleOf changed (nodeData t)) t)) as [l done].
  cbn [fst snd] in *.
  destruct done; cbn [distributedThread finished sentThisInterval];
    [intros _ | discriminate].
  destruct (sendSpecial_counts l) as (v & Hv & _ & _ & _ & Hp & _ & Hnd & _).
  rewrite sceneSent_bag, Hnd; intros Hbag.
  destruct Hi as [Hi | Hi]; [|rewrite Hi in Hbag; discriminate Hbag].
  specialize (Hx eq_refl); unfold packingContinues in Hx.
  unfold isShuttingDown in *; rewrite Hi, Hdown, Hd in Hx.
  cbn [andb negb] in Hx; rewrite andb_true_r in Hx.
  apply Z.ltb_ge in Hx; lia.
Qed.

End Loop_exit.

Section Totals.
Context {K : Carriers} {C : Collaborators}.

Lemma wrap64_add x a b : wrap64 (wrap64 (x + a) + b) = wrap64 (x + (a + b)).
Proof.
  unfold wrap64; rewrite Z.add_mod_idemp_l by (apply Z.pow_nonzero; lia).
  f_equal; lia.
Qed.

(** X11.  The process-wide byte total advances, modulo 2^64, by what the
    call adds to [trueBytesSent]: both count the packet and a statistics
    message sent ahead of it, and both leave out a statistics message
    that went piggybacked. *)
Theorem total_bytes_track_true_bytes t b p :
  let r := handlePacketSend t b p in
  wrap64 (_totalBytes (sentThread r)) = wrap64 (_totalBytes t + (sentTrueBytes r - b)).
Proof.
  cbv zeta; unfold handlePacketSend, transmit.
  destruct (isShuttingDown (nodeData t)) eqn:Hdown.
  { cbn; f_equal; lia. }
  destruct (shouldSuppressDuplicatePacket (nodeData t)) as [n s].
  destruct s; [cbn; f_equal; lia|].
  cbn [nodeData with_nodeData].
  repeat match goal with |- context [if ?c then _ else _] => destruct c eqn:? end.
  all: cbn -[Z.add Z.sub wrap64 size];
    unfold getStatsMessageLength, getPacketLength; cbn -[Z.add Z.sub wrap64 size].
  all: rewrite ?wrap64_idem, ?wrap64_add; f_equal; lia.
Qed.

End Totals.

Section Process_facts.
Context {K : Carriers} {C : Collaborators} {S : Scheduling}.

(** X12.  [process] never asks to be run again without having slept: when
    it returns true it has slept at least one microsecond, and long enough
    for the cycle and the sleep together to take the send interval --
    exactly the interval when the cycle took less. *)
Theorem process_sleeps_before_it_runs_again fuel w elapsed :
  let r := process fuel w elapsed in
  keepsRunning r = true ->
  exists s,
    slept r = Some s
    /\ 1 <= s
    /\ OCTREE_SEND_INTERVAL_USECS <= elapsed + s
    /\ (elapsed < OCTREE_SEND_INTERVAL_USECS ->
        elapsed + s = OCTREE_SEND_INTERVAL_USECS).
Proof.
  cbv zeta; unfold process.
  destruct (threadIsShuttingDown w); [discriminate|].
  destruct (negb (_myServer w) || negb (_myAssignment w)); [discriminate|].
  destruct (sendProcessing fuel w) as [w' done].
  destruct (threadIsShuttingDown w'); [discriminate|].
  cbn [keepsRunning slept]; intros ->.
  exists (usecToSleep elapsed); split; [reflexivity|].
  unfold usecToSleep, MIN_USEC_TO_SLEEP; cbv zeta.
  destruct (Z.gtb_spec (OCTREE_SEND_INTERVAL_USECS - elapsed) 0); lia.
Qed.

(** X13.  [process] reaches the session only through all of its checks:
    when the thread is shutting down, the server or the assignment is
    gone, the tree is not loaded yet, the node is gone, its data is not
    linked, or the session is shutting down, the call leaves the sending
    state as it was.  A thread that was told to shut down does not sleep
    either and returns false. *)
Theorem process_leaves_the_session_alone fuel w elapsed :
  let r := process fuel w elapsed in
  (negb (threadIsShuttingDown w) && _myServer w && _myAssignment w
   && isInitialLoadComplete w && _node w && linkedData w
   && negb (isShuttingDown (nodeData (sender w))) = false ->
   sender (processedWorker r) = sender w /\ distributed r = true)
  /\ process fuel (setIsShuttingDown w) elapsed
     = {| processedWorker := setIsShuttingDown w; keepsRunning := false;
          slept := None; distributed := true |}.
Proof.
  cbv zeta; split; [|reflexivity].
  intros H; unfold process, sendProcessing.
  destruct w as [t0 down server assignment loaded node linked missing running].
  cbn [threadIsShuttingDown _myServer _myAssignment isInitialLoadComplete _node
       linkedData sender] in H |- *.
  destruct down, server, assignment, loaded, node, linked; cbn [negb andb orb] in H |- *;
    try discriminate H; try (split; reflexivity).
  rewrite H; split; reflexivity.
Qed.

End Process_facts.

(** * More of the small server *)

Section Small_server_cycles.
Import Small.
#[local] Existing Instance carriers.
#[local] Existing Instance collaborators.
#[local] Existing Instance scheduling.

(** The statistics message of [completed] goes out in one wire unit of
    210 bytes with the empty packet behind it; 50 bytes of them are
    counted. *)
Example piggybacked_stats_are_not_counted :
  let r := handlePacketSend completed 0 0 in
  packetsSent r = 1
  /\ wireBytes (calls (sentThread r)) = 210
  /\ sentTrueBytes r = 50
  /\ _totalBytes (sentThread r) = 50.
Proof. vm_compute; repeat split. Qed.

(** The client of [rationed] gets one packet per call: the first call
    sends two of its three elements and leaves the third in the bag. *)
Example one_packet_per_interval :
  let r := packetDistributor 5 rationed false in
  finished r = true
  /\ packetsOf (calls (distributedThread r)) = [(7, 250)]
  /\ nodeBag (nodeData (distributedThread r)) = [12%N].
Proof. vm_compute; repeat split. Qed.

(** A cycle of [running] that took one millisecond sends the scene and
    sleeps for the rest of the interval. *)
Example a_cycle_of_the_thread :
  let r := process 5 running 1000 in
  keepsRunning r = true
  /\ slept r = Some 15666
  /\ packetsOf (calls (sender (processedWorker r))) = [(7, 250); (8, 150)].
Proof. vm_compute; repeat split. Qed.

Lemma handlePacketSend_leaves_no_packet_waiting_witness :
  isShuttingDown (nodeData repeating) = false
  /\ isPacketWaiting (nodeData repeating) = true
  /\ isPacketWaiting (nodeData (sentThread (handlePacketSend repeating 0 0))) = false.
Proof.
  assert (H : isShuttingDown (nodeData repeating) = false) by reflexivity.
  split; [exact H | split; [reflexivity|]].
  exact (proj1 (@handlePacketSend_leaves_no_packet_waiting carriers collaborators
                  repeating 0 0 H)).
Defined.

Lemma format_check_restores_format_witness :
  isShuttingDown (nodeData (thread (locals switching))) = false
  /\ getCurrentPacketFormatMatches (nodeData (thread (locals switching))) = false
  /\ getCurrentPacketFormatMatches
       (nodeData (thread (flushOnFormatChange true (locals switching)))) = true
  /\ isReset (nodeData (thread (flushOnFormatChange true (locals switching)))).
Proof.
  assert (H1 : isShuttingDown (nodeData (thread (locals switching))) = false)
    by reflexivity.
  assert (H2 : getCurrentPacketFormatMatches (nodeData (thread (locals switching)))
               = false) by reflexivity.
  split; [exact H1 | split; [exact H2|]].
  pose proof (@format_check_restores_format carriers collaborators true
                (locals switching) H1) as H.
  exact (conj (proj1 H) (proj1 (proj2 H H2))).
Defined.

Lemma view_snapshot_only_at_scene_end_witness :
  negb (isShuttingDown (nodeData rationed))
  && finished (packetDistributor 5 rationed false)
  && bag_isEmpty (nodeBag (nodeData (distributedThread
                                       (packetDistributor 5 rationed false)))) = false
  /\ _viewSent (nodeData (distributedThread (packetDistributor 5 rationed false)))
     = _viewSent (nodeData rationed).
Proof.
  assert (H : negb (isShuttingDown (nodeData rationed))
              && finished (packetDistributor 5 rationed false)
              && bag_isEmpty (nodeBag (nodeData (distributedThread
                                                   (packetDistributor 5 rationed false))))
              = false) by (vm_compute; reflexivity).
  split; [exact H|].
  exact (proj2 (proj2 (@view_snapshot_only_at_scene_end carriers collaborators
                         5%nat rationed false) H)).
Defined.

Lemma special_packet_goes_last_witness :
  isShuttingDown (nodeData leftover) = false
  /\ specialPackets leftover = [[x45; x4e; x56]]
  /\ finished (packetDistributor 5 leftover false) = true
  /\ specialPackets (distributedThread (packetDistributor 5 leftover false)) = [].
Proof.
  assert (H1 : isShuttingDown (nodeData leftover) = false) by reflexivity.
  assert (H2 : specialPackets leftover = [[x45; x4e; x56]]) by reflexivity.
  assert (H3 : finished (packetDistributor 5 leftover false) = true)
    by (vm_compute; reflexivity).
  split; [exact H1 | split; [exact H2 | split; [exact H3|]]].
  exact (proj1 (@special_packet_goes_last carriers collaborators 5%nat leftover false
                  [x45; x4e; x56] [] H1 H2 H3)).
Defined.

Lemma budget_met_before_the_loop_witness :
  isShuttingDown (nodeData leftover) = false
  /\ maxPacketsPerInterval (nodeData leftover)
     <= packetsSentThisInterval (beforePacking (cycleOf false (nodeData leftover)) leftover)
  /\ since isEncode leftover (distributedThread (packetDistributor 5 leftover false)) = 0.
Proof.
  assert (H1 : isShuttingDown (nodeData leftover) = false) by reflexivity.
  assert (H2 : maxPacketsPerInterval (nodeData leftover)
               <= packetsSentThisInterval
                    (beforePacking (cycleOf false (nodeData leftover)) leftover))
    by (vm_compute; discriminate).
  split; [exact H1 | split; [exact H2|]].
  exact (proj1 (proj2 (@budget_met_before_the_loop carriers collaborators
                         5%nat leftover false H1 H2))).
Defined.

Lemma uncompressed_packets_never_wait_witness :
  plainAndFlushed (nodeData queued)
  /\ plainAndFlushed (nodeData (distributedThread (packetDistributor 5 queued false))).
Proof.
  assert (H : plainAndFlushed (nodeData queued)) by (repeat split).
  split; [exact H|].
  exact (@uncompressed_packets_never_wait carriers collaborators 5%nat queued false H).
Defined.

Lemma empty_bag_ends_the_loop_witness :
  let c := cycleOf false (nodeData starting) in
  let l := packingStep c (beforePacking c starting) in
  nodeBag (nodeData (thread l)) = []
  /\ packingContinues 1 l = true
  /\ snd (packingLoop 1 1 c l) = true.
Proof.
  cbv zeta.
  assert (H : nodeBag (nodeData (thread
                (packingStep (cycleOf false (nodeData starting))
                             (beforePacking (cycleOf false (nodeData starting)) starting))))
              = []) by (vm_compute; reflexivity).
  split; [exact H | split; [vm_compute; reflexivity|]].
  exact (proj1 (@empty_bag_ends_the_loop carriers collaborators 0%nat 1
                  (cycleOf false (nodeData starting))
                  (packingStep (cycleOf false (nodeData starting))
                               (beforePacking (cycleOf false (nodeData starting)) starting))
                  H)).
Defined.

Lemma unfinished_scene_means_budget_used_witness :
  isShuttingDown (nodeData rationed) = false
  /\ finished (packetDistributor 5 rationed false) = true
  /\ bag_isEmpty (nodeBag (nodeData (distributedThread
                                       (packetDistributor 5 rationed false)))) = false
  /\ maxPacketsPerInterval (nodeData rationed)
     <= sentThisInterval (packetDistributor 5 rationed false).
Proof.
  assert (H1 : isShuttingDown (nodeData rationed) = false) by reflexivity.
  assert (H2 : finished (packetDistributor 5 rationed false) = true)
    by (vm_compute; reflexivity).
  assert (H3 : bag_isEmpty (nodeBag (nodeData (distributedThread
                                                  (packetDistributor 5 rationed false))))
               = false) by (vm_compute; reflexivity).
  split; [exact H1 | split; [exact H2 | split; [exact H3|]]].
  exact (@unfinished_scene_means_budget_used carriers collaborators
           5%nat rationed false H1 H2 H3).
Defined.

Lemma process_sleeps_before_it_runs_again_witness :
  keepsRunning (process 5 running 1000) = true
  /\ exists s, slept (process 5 running 1000) = Some s /\ 1 <= s.
Proof.
  assert (H : keepsRunning (process 5 running 1000) = true)
    by (vm_compute; reflexivity).
  split; [exact H|].
  destruct (@process_sleeps_before_it_runs_again carriers collaborators scheduling
              5%nat running 1000 H) as (s & Hs & H1 & _).
  exists s; split; assumption.
Defined.

Lemma process_leaves_the_session_alone_witness :
  negb (threadIsShuttingDown unlinked) && _myServer unlinked && _myAssignment unlinked
  && isInitialLoadComplete unlinked && _node unlinked && linkedData unlinked
  && negb (isShuttingDown (nodeData (sender unlinked))) = false
  /\ sender (processedWorker (process 5 unlinked 1000)) = sender unlinked.
Proof.
  assert (H : negb (threadIsShuttingDown unlinked) && _myServer unlinked
              && _myAssignment unlinked && isInitialLoadComplete unlinked
              && _node unlinked && linkedData unlinked
              && negb (isShuttingDown (nodeData (sender unlinked))) = false)
    by reflexivity.
  split; [exact H|].
  exact (proj1 (proj1 (@process_leaves_the_session_alone carriers collaborators
                         scheduling 5%nat unlinked 1000) H)).
Defined.

End Small_server_cycles.
